(** * WorldFund front end: service layer and wallet-authentication handshake

    A shallow embedding of the TypeScript sources (AuthService, CampaignService,
    WLDPaymentService, AuthContext, MiniKitProvider, LandingPage, the
    campaign / donation forms, ProtectedRoute, Dashboard, CampaignDetail,
    CampaignTracker and the app-id injection of main.tsx) together with the
    properties stated about them.

    JavaScript values are modelled by [JsVal] (numbers are IEEE-754 binary64,
    Rocq's primitive floats), [async] functions by a state-and-exception monad
    [M] over a [World] (localStorage, the AuthContext state, and the trace of
    externally visible events), and everything the browser or the backend
    decides (network answers, the MiniKit SDK, [atob], [JSON.parse], the clock,
    the build-time environment) by a [Platform] record that every definition
    takes as an argument.  [console.log] / [console.error] calls have no
    effect on the modelled state and are left out.

    Conventions.  A string is a sequence of characters, and [length] counts
    them.  [localStorage] is a finite map; whether an access to it throws (a
    security or quota error) is decided by a [Storage] instance, and a
    statement that names none is about [accessible], on which every operation
    goes through.  A React handler is a function of the
    state values captured by the render that created it; the [useState]
    setters of component-local cells are recorded in the trace, in the order
    in which the handler calls them.  [navigate] and [alert] are recorded
    where they are called. *)

From Stdlib Require Import String Ascii List ZArith Bool Lia Floats DecimalString QArith Qround.
From stdpp Require Import gmap strings.

Set Default Proof Using "Type".
Set Warnings "-register-all".

(* ===================================================================== *)
(** ** JavaScript values                                                   *)
(* ===================================================================== *)

Inductive JsVal : Type :=
| JUndefined
| JNull
| JBool (b : bool)
| JNum (n : float)
| JStr (s : string)
| JArr (items : list JsVal)
| JObj (fields : list (string * JsVal)).

(** An exception value.  Every [throw] of the sources throws an [Error]
    object, and the platform errors ([TypeError], [SyntaxError],
    [DOMException]) are [Error]s too; only [message] is ever read. *)
Record JsError : Type := mkError { message : string }.

(** The result of evaluating an expression that may throw (or of awaiting a
    promise that may reject). *)
Inductive Outcome (A : Type) : Type :=
| Ret (a : A)
| Throw (e : JsError).
Arguments Ret {A} a.
Arguments Throw {A} e.

(** [Boolean(v)]: the falsy values are [undefined], [null], [false], [+0],
    [-0], [NaN] and the empty string. *)
Definition truthy (v : JsVal) : bool :=
  match v with
  | JUndefined | JNull => false
  | JBool b => b
  | JNum n => negb (PrimFloat.eqb n PrimFloat.zero || PrimFloat.is_nan n)
  | JStr s => negb (String.eqb s "")
  | JArr _ | JObj _ => true
  end.

(** [a || b] on values. *)
Definition js_or (a b : JsVal) : JsVal := if truthy a then a else b.

(** [a && b] on values. *)
Definition js_and (a b : JsVal) : JsVal := if truthy a then b else a.

Fixpoint assoc {A : Type} (k : string) (l : list (string * A)) : option A :=
  match l with
  | [] => None
  | (k', v) :: l' => if String.eqb k k' then Some v else assoc k l'
  end.

Definition TypeError_read (k : string) : JsError :=
  mkError ("Cannot read properties of null or undefined (reading '" +:+ k +:+ "')").

(** Property read [v.k] for the keys the sources read ([message], [nonce],
    [token], [walletAddress], [exp], [id], [campaigns], [success], [error],
    [status], [error_code], [finalPayload], [isValid]): none of
    them is a built-in property of strings, numbers, booleans or arrays, so
    on those the read gives [undefined]; on [null] and [undefined] it throws
    a [TypeError]. *)
Definition get (v : JsVal) (k : string) : Outcome JsVal :=
  match v with
  | JUndefined | JNull => Throw (TypeError_read k)
  | JObj fields => Ret (match assoc k fields with Some x => x | None => JUndefined end)
  | _ => Ret JUndefined
  end.

(** [v === s] for a string literal [s]. *)
Definition strict_eq_string (v : JsVal) (s : string) : bool :=
  match v with JStr x => String.eqb x s | _ => false end.

(** [typeof v === 'string'] and [typeof v === 'object']. *)
Definition is_string (v : JsVal) : bool :=
  match v with JStr _ => true | _ => false end.

Definition typeof_object (v : JsVal) : bool :=
  match v with JNull | JArr _ | JObj _ => true | _ => false end.

(** The field is present in an object literal or a parsed JSON object. *)
Definition has_field (v : JsVal) (k : string) : bool :=
  match v with
  | JObj fields => match assoc k fields with Some _ => true | None => false end
  | _ => false
  end.

Definition string_of_nat (n : nat) : string := NilZero.string_of_uint (Nat.to_uint n).

Section Conversions.
(** [Number.prototype.toString] and the string-to-number grammar belong to
    the engine. *)
Variable NumberToString : float -> string.
Variable StringToNumber : string -> float.

(** The [TypeError] of a conversion to a primitive that finds no callable
    [toString] / [valueOf] giving one. *)
Definition TypeError_primitive : JsError :=
  mkError "Cannot convert object to primitive value".

(** [String(v)] / template-literal conversion, for values that come out of
    [JSON.parse] or object literals.  On an object the conversion calls
    [toString], then [valueOf]: a parsed object that has a [toString] member
    of its own (which is never callable) hides [Object.prototype.toString],
    the inherited [valueOf] gives the object back, and the conversion throws;
    without such a member the result is ["[object Object]"].  An array is
    joined, each element converted in turn ([undefined] and [null] give the
    empty string). *)
Fixpoint ToString (v : JsVal) : Outcome string :=
  match v with
  | JUndefined => Ret "undefined"
  | JNull => Ret "null"
  | JBool true => Ret "true"
  | JBool false => Ret "false"
  | JNum n => Ret (NumberToString n)
  | JStr s => Ret s
  | JObj fields =>
      match assoc "toString" fields with
      | Some _ => Throw TypeError_primitive
      | None => Ret "[object Object]"
      end
  | JArr items =>
      (fix join (l : list JsVal) : Outcome string :=
         match l with
         | [] => Ret ""
         | x :: l' =>
             match match x with JUndefined | JNull => Ret "" | _ => ToString x end with
             | Throw e => Throw e
             | Ret sx =>
                 match l' with
                 | [] => Ret sx
                 | _ => match join l' with
                        | Throw e => Throw e
                        | Ret rest => Ret (sx +:+ "," +:+ rest)
                        end
                 end
             end
         end) items
  end.

(** [Number(v)], as applied by [*] to its operands.  On an object the
    conversion calls [valueOf] (which gives the object back), then
    [toString]: it throws where [ToString] does, ["[object Object]"] is not
    a number. *)
Definition ToNumber (v : JsVal) : Outcome float :=
  match v with
  | JUndefined => Ret PrimFloat.nan
  | JNull => Ret PrimFloat.zero
  | JBool true => Ret PrimFloat.one
  | JBool false => Ret PrimFloat.zero
  | JNum n => Ret n
  | JStr s => Ret (StringToNumber s)
  | JObj fields =>
      match assoc "toString" fields with
      | Some _ => Throw TypeError_primitive
      | None => Ret PrimFloat.nan
      end
  | JArr _ =>
      match ToString v with
      | Throw e => Throw e
      | Ret s => Ret (StringToNumber s)
      end
  end.
End Conversions.

(* ===================================================================== *)
(** ** The platform                                                        *)
(* ===================================================================== *)

(** A request handed to [fetch]: [body] is the value given to
    [JSON.stringify], when there is one. *)
Record Request : Type := mkRequest {
  url : string;
  method : string;
  headers : list (string * string);
  body : option JsVal
}.

(** A [Response]: its status and what [res.json()] settles to. *)
Record Response : Type := mkResponse {
  status : nat;
  json : Outcome JsVal
}.

Definition ok (r : Response) : bool := (200 <=? status r)%nat && (status r <=? 299)%nat.

(** [import.meta.env] and [window.__ENV__]: an unset variable is [None]. *)
Record Env : Type := mkEnv {
  VITE_AMPLIFY_API : option string;
  VITE_APP_BACKEND_API_URL : option string;
  VITE_WORLD_APP_API : option string;
  VITE_APP_BACKEND_API_KEY : option string;
  VITE_WORLD_APP_ID : option string;
  VITE_WORLD_ID_APP_ID : option string;
  window_ENV_WORLD_APP_ID : option string;
  DEV : bool
}.

(** The MiniKit SDK object.  [mk_isInstalled = None]: the member is missing;
    [mk_walletAuth = None]: [commandsAsync] or [commandsAsync.walletAuth] is
    missing. *)
Record MiniKitSdk : Type := mkMiniKit {
  mk_isInstalled : option (Outcome bool);
  mk_install : string -> Outcome unit;
  mk_walletAuth : option (JsVal -> Outcome JsVal)
}.

Record Platform : Type := mkPlatform {
  env : Env;
  (** the answer to the [k]-th [fetch] of a run: a rejection or a response *)
  network : nat -> Request -> Outcome Response;
  atob : string -> Outcome string;
  JSON_parse : string -> Outcome JsVal;
  Date_now : float;
  NumberToString : float -> string;
  StringToNumber : string -> float;
  (** [None]: [typeof MiniKit === 'undefined'] *)
  MiniKit : option MiniKitSdk;
  (** [Number.prototype.toString(16)], [parseFloat] and [Math.random] (its
      [k]-th draw) *)
  NumberToString16 : float -> string;
  parseFloat : string -> float;
  Math_random : nat -> float
}.

(* ===================================================================== *)
(** ** The world and the monad of async code                               *)
(* ===================================================================== *)

Inductive Event : Type :=
| EFetch (req : Request)
| ESettled
| ESetItem (key value : string)
| ERemoveItem (key : string)
| EMiniKitInstall (appId : string)
| EWalletAuth (nonce : JsVal)
| ESetState (cell : string) (value : JsVal)
| ENavigate (path : string)
| EAlert (msg : JsVal)
| ECallback (name : string).

(** The state held by [AuthProvider]. *)
Record AuthState : Type := mkAuthState {
  isAuthenticated : bool;
  walletAddress : JsVal;
  sessionToken : JsVal;
  isLoading : bool;
  error : JsVal;
  nonce : JsVal
}.

Record World : Type := mkWorld {
  localStorage : gmap string string;
  authState : AuthState;
  trace : list Event
}.

Definition M (A : Type) : Type := World -> Outcome A * World.

Definition ret {A} (a : A) : M A := fun w => (Ret a, w).

Definition throw {A} (e : JsError) : M A := fun w => (Throw e, w).

Definition bind {A B} (c : M A) (k : A -> M B) : M B :=
  fun w =>
    match c w with
    | (Ret a, w') => k a w'
    | (Throw e, w') => (Throw e, w')
    end.

Declare Scope js_scope.
Delimit Scope js_scope with js.
Notation "x <- c ;; k" := (bind c (fun x => k))
  (at level 100, c at next level, right associativity) : js_scope.
Notation "c ;;; k" := (bind c (fun _ => k))
  (at level 100, right associativity) : js_scope.
Open Scope js_scope.

(** [try { body } catch (e) { handler e }] *)
Definition try_catch {A} (body : M A) (handler : JsError -> M A) : M A :=
  fun w =>
    match body w with
    | (Ret a, w') => (Ret a, w')
    | (Throw e, w') => handler e w'
    end.

(** [try { body } finally { fin }] *)
Definition try_finally {A} (body : M A) (fin : M unit) : M A :=
  fun w =>
    match body w with
    | (r, w') =>
        match fin w' with
        | (Ret _, w'') => (r, w'')
        | (Throw e, w'') => (Throw e, w'')
        end
    end.

(** Lift a pure evaluation that may throw. *)
Definition lift {A} (o : Outcome A) : M A := fun w => (o, w).

Definition emit (e : Event) : M unit :=
  fun w => (Ret tt, mkWorld (localStorage w) (authState w) (trace w ++ [e])).

(** The requests of a trace, in order. *)
Fixpoint requests (t : list Event) : list Request :=
  match t with
  | [] => []
  | EFetch r :: t' => r :: requests t'
  | _ :: t' => requests t'
  end.

Definition fetch_count (t : list Event) : nat := length (requests t).

(** [await fetch(url, init)]: the request is issued ([EFetch]), the platform
    answers, and the promise settles ([ESettled]); between the two events the
    request is in flight. *)
Definition fetch (P : Platform) (req : Request) : M Response :=
  fun w =>
    (network P (fetch_count (trace w)) req,
     mkWorld (localStorage w) (authState w) (trace w ++ [EFetch req; ESettled])).

(** What the browser decides about [localStorage]: reading
    [window.localStorage] can throw (a [SecurityError] where storage is
    blocked), and a write can throw after that (a [QuotaExceededError]).
    [None]: the step goes through. *)
Class Storage : Type := mkStorage {
  access_fault : World -> option JsError;
  quota_fault : World -> string -> string -> option JsError
}.

(** The storage on which every operation goes through. *)
#[global] Instance accessible : Storage :=
  {| access_fault := fun _ => None; quota_fault := fun _ _ _ => None |}.

Section LocalStorage.
Context {S : Storage}.

(** [localStorage.getItem / setItem / removeItem].  [getItem] gives [null]
    for an absent key.  [setItem(k, v)] reads [localStorage], converts [v] to
    a string ([str], the engine's [ToString]) and then writes: a conversion
    that throws leaves the storage as it was. *)
Definition getItem (k : string) : M JsVal :=
  fun w =>
    match access_fault w with
    | Some e => (Throw e, w)
    | None => (Ret (match localStorage w !! k with Some s => JStr s | None => JNull end), w)
    end.

Definition setItem (str : JsVal -> Outcome string) (k : string) (v : JsVal) : M unit :=
  fun w =>
    match access_fault w with
    | Some e => (Throw e, w)
    | None =>
        match str v with
        | Throw e => (Throw e, w)
        | Ret s =>
            match quota_fault w k s with
            | Some e => (Throw e, w)
            | None => (Ret tt, mkWorld (<[k := s]> (localStorage w)) (authState w)
                                       (trace w ++ [ESetItem k s]))
            end
        end
    end.

Definition removeItem (k : string) : M unit :=
  fun w =>
    match access_fault w with
    | Some e => (Throw e, w)
    | None => (Ret tt, mkWorld (delete k (localStorage w)) (authState w)
                               (trace w ++ [ERemoveItem k]))
    end.
End LocalStorage.

(** [setAuthState(prev => f prev)] *)
Definition setAuthState (f : AuthState -> AuthState) : M unit :=
  fun w => (Ret tt, mkWorld (localStorage w) (f (authState w)) (trace w)).

(** A [useState] setter of a component-local cell. *)
Definition setState (cell : string) (v : JsVal) : M unit := emit (ESetState cell v).

(** [a || b] on environment variables. *)
Definition env_or (a b : option string) : option string :=
  match a with
  | Some s => if String.eqb s "" then b else Some s
  | None => b
  end.

Definition env_truthy (a : option string) : bool :=
  match a with
  | Some s => negb (String.eqb s "")
  | None => false
  end.

Definition SESSION_TOKEN_KEY : string := "worldfund_session_token".
Definition WALLET_ADDRESS_KEY : string := "worldfund_wallet_address".

(** [error.message || fallback] in a [catch] block. *)
Definition message_or (e : JsError) (fallback : string) : JsVal :=
  JStr (if String.eqb (message e) "" then fallback else message e).

(** [s.split(c)] *)
Fixpoint split_on (c : ascii) (s : string) : list string :=
  match s with
  | EmptyString => [EmptyString]
  | String a s' =>
      match split_on c s' with
      | [] => []
      | p :: ps => if Ascii.eqb a c then EmptyString :: p :: ps else String a p :: ps
      end
  end.

(** Object literals of the result records. *)
Definition failure (err : JsVal) : JsVal := JObj [("success", JBool false); ("error", err)].
Definition success_only : JsVal := JObj [("success", JBool true)].

(* ===================================================================== *)
(** ** src/services/AuthService.ts                                         *)
(* ===================================================================== *)

Module AuthService.
Section WithPlatform.
Context {S : Storage}.
Variable P : Platform.

Definition API_BASE : string :=
  let envUrl := env_or (VITE_AMPLIFY_API (env P)) (VITE_APP_BACKEND_API_URL (env P)) in
  match envUrl with
  | Some s => if String.eqb s "" then "/api" else s
  | None => "/api"
  end.

Definition API_KEY : option string :=
  env_or (VITE_WORLD_APP_API (env P)) (VITE_APP_BACKEND_API_KEY (env P)).

Definition getHeaders (includeAuth : bool) : M (list (string * string)) :=
  let headers := [("Content-Type", "application/json")] in
  let headers :=
    match API_KEY with
    | Some k => if env_truthy API_KEY then headers ++ [("x-api-key", k)] else headers
    | None => headers
    end in
  if includeAuth then
    token <- getItem SESSION_TOKEN_KEY ;;
    if truthy token
    then
      bearer <- lift (ToString (NumberToString P) token) ;;
      ret (headers ++ [("Authorization", "Bearer " +:+ bearer)])
    else ret headers
  else ret headers.

(** [!res.ok ? await res.json().catch(() => ({})) : null] *)
Definition errorBody_of (res : Response) : M JsVal :=
  if negb (ok res)
  then try_catch (lift (json res)) (fun _ => ret (JObj []))
  else ret JNull.

Definition getNonce : M JsVal :=
  try_catch
    (hs <- getHeaders false ;;
     res <- fetch P (mkRequest (API_BASE +:+ "/auth/nonce") "GET" hs None) ;;
     errorBody <- errorBody_of res ;;
     if negb (ok res) then
       m <- lift (get errorBody "message") ;;
       ret (failure (js_or m (JStr ("Failed to fetch nonce (" +:+ string_of_nat (status res) +:+ ")"))))
     else
       data <- lift (json res) ;;
       n <- lift (get data "nonce") ;;
       if negb (truthy n) then ret (failure (JStr "Nonce not found in response"))
       else ret (JObj [("success", JBool true); ("nonce", n)]))
    (fun error => ret (failure (message_or error "Network error while fetching nonce"))).

Definition verifyWalletSignature (payload nonce : JsVal) : M JsVal :=
  try_catch
    (hs <- getHeaders false ;;
     res <- fetch P (mkRequest (API_BASE +:+ "/auth/verify-signature") "POST" hs
                       (Some (JObj [("payload", payload); ("nonce", nonce)]))) ;;
     errorBody <- errorBody_of res ;;
     if negb (ok res) then
       m <- lift (get errorBody "message") ;;
       ret (failure (js_or m (JStr ("Verification failed (" +:+ string_of_nat (status res) +:+ ")"))))
     else
       data <- lift (json res) ;;
       tok <- lift (get data "token") ;;
       if negb (truthy tok)
       then ret (failure (JStr "Token or wallet address missing from response"))
       else
         addr <- lift (get data "walletAddress") ;;
         if negb (truthy addr)
         then ret (failure (JStr "Token or wallet address missing from response"))
         else
           setItem (ToString (NumberToString P)) SESSION_TOKEN_KEY tok ;;;
           setItem (ToString (NumberToString P)) WALLET_ADDRESS_KEY addr ;;;
           ret (JObj [("success", JBool true); ("token", tok); ("walletAddress", addr)]))
    (fun error => ret (failure (message_or error "Network error during verification"))).

Definition verifyWorldIdProof (proof : JsVal) : M JsVal :=
  try_catch
    (hs <- getHeaders true ;;
     res <- fetch P (mkRequest (API_BASE +:+ "/verify-worldid") "POST" hs (Some proof)) ;;
     errorBody <- errorBody_of res ;;
     if negb (ok res) then
       m <- lift (get errorBody "message") ;;
       ret (failure (js_or m (JStr ("Verification failed (" +:+ string_of_nat (status res) +:+ ")"))))
     else ret success_only)
    (fun error => ret (failure (message_or error "Network error during verification"))).

Definition logout : M JsVal :=
  try_catch
    (removeItem SESSION_TOKEN_KEY ;;;
     removeItem WALLET_ADDRESS_KEY ;;;
     ret success_only)
    (fun error => ret (failure (message_or error "Logout failed"))).

Definition checkAuthStatus : M JsVal :=
  try_catch
    (token <- getItem SESSION_TOKEN_KEY ;;
     walletAddress <- getItem WALLET_ADDRESS_KEY ;;
     let ok := truthy (js_and token walletAddress) in
     ret (JObj [("isAuthenticated", JBool ok);
                ("token", js_or token JNull);
                ("walletAddress", js_or walletAddress JNull)]))
    (fun _ =>
       removeItem SESSION_TOKEN_KEY ;;;
       removeItem WALLET_ADDRESS_KEY ;;;
       ret (JObj [("isAuthenticated", JBool false); ("token", JNull); ("walletAddress", JNull)])).

Definition invalid (err : JsVal) : JsVal := JObj [("isValid", JBool false); ("error", err)].

Definition verifyToken (token : string) : M JsVal :=
  try_catch
    (let parts := split_on "." token in
     if negb (length parts =? 3)%nat then ret (invalid (JStr "Invalid token format"))
     else
       let payloadPart := nth 1 parts "" in
       if String.eqb payloadPart "" then ret (invalid (JStr "Invalid token format"))
       else
         decoded <- lift (atob P payloadPart) ;;
         payload <- lift (JSON_parse P decoded) ;;
         exp <- lift (get payload "exp") ;;
         isExpired <-
           (if truthy exp then
              seconds <- lift (ToNumber (NumberToString P) (StringToNumber P) exp) ;;
              ret (PrimFloat.ltb (PrimFloat.mul seconds 1000%float) (Date_now P))
            else ret false) ;;
         if isExpired
         then ret (invalid (JStr "Token expired"))
         else
           addr <- lift (get payload "walletAddress") ;;
           if negb (truthy addr) then ret (invalid (JStr "Token missing wallet address"))
           else ret (JObj [("isValid", JBool true); ("walletAddress", addr)]))
    (fun error => ret (invalid (message_or error "Network error during token validation"))).
End WithPlatform.
End AuthService.

(** [new Error(v)] for a defined [v]: the constructor converts [v] to a
    string, and the conversion can throw instead. *)
Definition new_Error (P : Platform) (v : JsVal) : Outcome JsError :=
  match ToString (NumberToString P) v with
  | Ret s => Ret (mkError s)
  | Throw e => Throw e
  end.

(* ===================================================================== *)
(** ** src/services/CampaignService.ts                                     *)
(* ===================================================================== *)

Record CampaignPayload : Type := mkCampaignPayload {
  title : string;
  description : option string;
  goal : float;
  image : option string
}.

Definition opt_field (k : string) (o : option string) : list (string * JsVal) :=
  match o with Some s => [(k, JStr s)] | None => [] end.

Definition payload_json (p : CampaignPayload) : JsVal :=
  JObj ([("title", JStr (title p))] ++ opt_field "description" (description p)
        ++ [("goal", JNum (goal p))] ++ opt_field "image" (image p)).

Module CampaignService.
Section WithPlatform.
Context {S : Storage}.
Variable P : Platform.

Definition API_BASE : string :=
  let envApi := env_or (VITE_AMPLIFY_API (env P)) (VITE_APP_BACKEND_API_URL (env P)) in
  match envApi with
  | Some s => if String.eqb s "" then "/api" else s
  | None => "/api"
  end.

Definition API_KEY : option string :=
  env_or (VITE_WORLD_APP_API (env P)) (VITE_APP_BACKEND_API_KEY (env P)).

Definition getHeaders : M (list (string * string)) :=
  let headers := [("Content-Type", "application/json")] in
  st <- AuthService.checkAuthStatus ;;
  token <- lift (get st "token") ;;
  headers <-
    (if truthy token
     then
       bearer <- lift (ToString (NumberToString P) token) ;;
       ret (headers ++ [("Authorization", "Bearer " +:+ bearer)])
     else ret headers) ;;
  match API_KEY with
  | Some k => if env_truthy API_KEY then ret (headers ++ [("x-api-key", k)]) else ret headers
  | None => ret headers
  end.

(** [await res.json().catch(() => ({}))] *)
Definition json_or_empty (res : Response) : M JsVal :=
  try_catch (lift (json res)) (fun _ => ret (JObj [])).

(** [throw new Error(body.message || `text (${res.status})`)] *)
Definition throw_status {A} (body : JsVal) (text : string) (res : Response) : M A :=
  m <- lift (get body "message") ;;
  err <- lift (new_Error P (js_or m (JStr (text +:+ " (" +:+ string_of_nat (status res) +:+ ")")))) ;;
  throw err.

Definition createCampaign (payload : JsVal) : M JsVal :=
  try_catch
    (hs <- getHeaders ;;
     res <- fetch P (mkRequest (API_BASE +:+ "/campaigns") "POST" hs (Some payload)) ;;
     body <- json_or_empty res ;;
     if negb (ok res) then throw_status body "Failed to create campaign" res
     else
       id <- lift (get body "id") ;;
       ret (JObj [("success", JBool true); ("id", id)]))
    (fun error => ret (failure (message_or error "Failed to create campaign"))).

Definition fetchAllCampaigns : M JsVal :=
  try_catch
    (hs <- getHeaders ;;
     res <- fetch P (mkRequest (API_BASE +:+ "/campaigns") "GET" hs None) ;;
     if negb (ok res)
     then throw (mkError ("Failed to fetch campaigns (" +:+ string_of_nat (status res) +:+ ")"))
     else
       data <- lift (json res) ;;
       cs <- lift (get data "campaigns") ;;
       ret (JObj [("success", JBool true); ("campaigns", cs)]))
    (fun error => ret (failure (message_or error "Failed to fetch campaigns"))).

Definition fetchCampaign (id : string) : M JsVal :=
  try_catch
    (hs <- getHeaders ;;
     res <- fetch P (mkRequest (API_BASE +:+ "/campaigns/" +:+ id) "GET" hs None) ;;
     if negb (ok res)
     then throw (mkError ("Campaign not found (" +:+ string_of_nat (status res) +:+ ")"))
     else
       campaign <- lift (json res) ;;
       ret (JObj [("success", JBool true); ("campaign", campaign)]))
    (fun error => ret (failure (message_or error "Failed to fetch campaign"))).

Definition updateCampaign (id : string) (payload : JsVal) : M JsVal :=
  try_catch
    (hs <- getHeaders ;;
     res <- fetch P (mkRequest (API_BASE +:+ "/campaigns/" +:+ id) "PUT" hs (Some payload)) ;;
     body <- json_or_empty res ;;
     if negb (ok res) then throw_status body "Failed to update campaign" res
     else ret success_only)
    (fun error => ret (failure (message_or error "Failed to update campaign"))).

Definition deleteCampaign (id : string) : M JsVal :=
  try_catch
    (hs <- getHeaders ;;
     res <- fetch P (mkRequest (API_BASE +:+ "/campaigns/" +:+ id) "DELETE" hs None) ;;
     body <- json_or_empty res ;;
     if negb (ok res) then throw_status body "Failed to delete campaign" res
     else ret success_only)
    (fun error => ret (failure (message_or error "Failed to delete campaign"))).

Definition recordDonation (campaignId : string) (amount : float) (txHash : string) : M JsVal :=
  try_catch
    (hs <- getHeaders ;;
     res <- fetch P (mkRequest (API_BASE +:+ "/campaigns/" +:+ campaignId +:+ "/donate") "POST" hs
                       (Some (JObj [("amount", JNum amount); ("txHash", JStr txHash)]))) ;;
     body <- json_or_empty res ;;
     if negb (ok res) then throw_status body "Failed to record donation" res
     else ret success_only)
    (fun error => ret (failure (message_or error "Failed to record donation"))).

Definition fetchUserCampaigns (walletAddress : string) : M JsVal :=
  try_catch
    (hs <- getHeaders ;;
     res <- fetch P (mkRequest (API_BASE +:+ "/users/" +:+ walletAddress +:+ "/campaigns") "GET" hs None) ;;
     if negb (ok res)
     then throw (mkError ("Failed to fetch user campaigns (" +:+ string_of_nat (status res) +:+ ")"))
     else
       data <- lift (json res) ;;
       cs <- lift (get data "campaigns") ;;
       ret (JObj [("success", JBool true); ("campaigns", cs)]))
    (fun error => ret (failure (message_or error "Failed to fetch user campaigns"))).
End WithPlatform.
End CampaignService.

(* ===================================================================== *)
(** ** src/services/WLDPaymentService.ts                                   *)
(* ===================================================================== *)

Module WLDPaymentService.
Section WithPlatform.
Context {S : Storage}.
Variable P : Platform.

Definition getHeaders : M (list (string * string)) :=
  let headers := [("Content-Type", "application/json")] in
  st <- AuthService.checkAuthStatus ;;
  token <- lift (get st "token") ;;
  headers <-
    (if truthy token
     then
       bearer <- lift (ToString (NumberToString P) token) ;;
       ret (headers ++ [("Authorization", "Bearer " +:+ bearer)])
     else ret headers) ;;
  let apiKey := VITE_WORLD_APP_API (env P) in
  match apiKey with
  | Some k => if env_truthy apiKey then ret (headers ++ [("x-api-key", k)]) else ret headers
  | None => ret headers
  end.

Definition getApiBase : M string :=
  let apiBase := VITE_AMPLIFY_API (env P) in
  match apiBase with
  | Some s => if env_truthy apiBase then ret s
              else throw (mkError "Backend API URL is not configured")
  | None => throw (mkError "Backend API URL is not configured")
  end.

Definition donateWLD (campaignId : string) (amount : float) (txHash : string) : M JsVal :=
  try_catch
    (apiBase <- getApiBase ;;
     hs <- getHeaders ;;
     response <- fetch P (mkRequest (apiBase +:+ "/campaigns/" +:+ campaignId +:+ "/donate") "POST" hs
                            (Some (JObj [("amount", JNum amount); ("txHash", JStr txHash)]))) ;;
     if negb (ok response) then
       errorData <- try_catch (lift (json response))
                      (fun _ => ret (JObj [("message", JStr "Failed to record donation")])) ;;
       m <- lift (get errorData "message") ;;
       err <- lift (new_Error P (js_or m (JStr "Failed to record donation"))) ;;
       throw err
     else
       data <- lift (json response) ;;
       ret success_only)
    (fun error => ret (failure (message_or error "Failed to donate WLD"))).

Definition CAMPAIGN_ADDRESS : string := "0x5816E346C014e4BE06bA48de8c0Bf08A61f9033F".

Definition getDonationInstructions (campaignId : string) : M JsVal :=
  ret (JObj [("campaignAddress", JStr CAMPAIGN_ADDRESS);
             ("instructions",
              JArr [JStr "Send WLD tokens to the campaign address using your wallet";
                    JStr "Copy the transaction hash once the transaction is confirmed";
                    JStr "Submit the transaction hash and amount to record your donation"]);
             ("minAmount", JNum 0x1.47ae147ae147bp-7%float)]).

(** The mock verification: a timer, two random draws and the clock. *)
Definition verifyTransaction (txHash : string) : M JsVal :=
  try_catch
    (ret (JObj [("success", JBool true);
                ("transaction",
                 JObj [("txHash", JStr txHash);
                       ("from", JStr ("0x" +:+ String.substring 2 40
                                                 (NumberToString16 P (Math_random P 0))));
                       ("to", JStr CAMPAIGN_ADDRESS);
                       ("amount", JNum (PrimFloat.mul (Math_random P 1) 100%float));
                       ("status", JStr "confirmed");
                       ("timestamp", JNum (Date_now P))])]))
    (fun error => ret (failure (message_or error "Failed to verify transaction"))).
End WithPlatform.
End WLDPaymentService.

(* ===================================================================== *)
(** ** src/components/AuthContext.tsx                                      *)
(* ===================================================================== *)

Definition isError_message (error : JsError) : JsVal := JStr (message error).

Module AuthContext.
Section WithPlatform.
Context {S : Storage}.
Variable P : Platform.

Definition loggedOut : AuthState :=
  mkAuthState false JNull JNull false JNull JNull.

(** The state [useState] starts from. *)
Definition initialAuthState : AuthState :=
  mkAuthState false JNull JNull true JNull JNull.

Definition storeSessionData (token address : JsVal) : M unit :=
  try_catch
    (setItem (ToString (NumberToString P)) SESSION_TOKEN_KEY token ;;;
     setItem (ToString (NumberToString P)) WALLET_ADDRESS_KEY address)
    (fun _ => ret tt).

Definition getStoredSessionData : M (JsVal * JsVal) :=
  try_catch
    (token <- getItem SESSION_TOKEN_KEY ;;
     address <- getItem WALLET_ADDRESS_KEY ;;
     ret (token, address))
    (fun _ => ret (JNull, JNull)).

Definition clearStoredSessionData : M unit :=
  try_catch
    (removeItem SESSION_TOKEN_KEY ;;;
     removeItem WALLET_ADDRESS_KEY)
    (fun _ => ret tt).

(** [navigate('/dashboard')] runs from a zero-delay timer; it is recorded
    where it is scheduled. *)
Definition login (token address : JsVal) (shouldNavigate : bool) : M unit :=
  storeSessionData token address ;;;
  setAuthState (fun _ => mkAuthState true address token false JNull JNull) ;;;
  if shouldNavigate then emit (ENavigate "/dashboard") else ret tt.

Definition getNonceForMiniKit : M JsVal :=
  setAuthState (fun prev => mkAuthState (isAuthenticated prev) (walletAddress prev)
                              (sessionToken prev) true JNull (nonce prev)) ;;;
  try_catch
    (nonceResult <- AuthService.getNonce P ;;
     s <- lift (get nonceResult "success") ;;
     n <- lift (get nonceResult "nonce") ;;
     if negb (truthy s) || negb (truthy n) then
       e <- lift (get nonceResult "error") ;;
       let errorMessage := js_or e (JStr "Failed to fetch nonce") in
       setAuthState (fun prev => mkAuthState (isAuthenticated prev) (walletAddress prev)
                                   (sessionToken prev) false errorMessage (nonce prev)) ;;;
       (err <- lift (new_Error P errorMessage) ;; throw err)
     else
       let fetchedNonce := n in
       setAuthState (fun prev => mkAuthState (isAuthenticated prev) (walletAddress prev)
                                   (sessionToken prev) false (error prev) fetchedNonce) ;;;
       ret fetchedNonce)
    (fun error =>
       let errorMessage := isError_message error in
       setAuthState (fun prev => mkAuthState (isAuthenticated prev) (walletAddress prev)
                                   (sessionToken prev) false errorMessage (nonce prev)) ;;;
       throw error).

(** [typeof m === 'object' ? m : JSON.parse(typeof m === 'string' ? m : '{}')];
    [JSON.parse('{}')] is the empty object. *)
Definition messageObj_of (m : JsVal) : Outcome JsVal :=
  if typeof_object m then Ret m
  else match m with
       | JStr s => JSON_parse P s
       | _ => Ret (JObj [])
       end.

Definition loginWithWallet (authResult : JsVal) : M unit :=
  setAuthState (fun prev => mkAuthState (isAuthenticated prev) (walletAddress prev)
                              (sessionToken prev) true JNull (nonce prev)) ;;;
  try_catch
    (m <- lift (get authResult "message") ;;
     if negb (truthy m)
     then throw (mkError "Invalid authentication payload: message is missing")
     else
       messageObj <- lift (messageObj_of m) ;;
       n <- lift (get messageObj "nonce") ;;
       let signedNonce := js_or n (JStr "") in
       if negb (truthy signedNonce)
       then throw (mkError "Nonce missing in signed message from wallet")
       else
         verifyResult <- AuthService.verifyWalletSignature P authResult signedNonce ;;
         s <- lift (get verifyResult "success") ;;
         a <- lift (get verifyResult "walletAddress") ;;
         t <- lift (get verifyResult "token") ;;
         if truthy s && truthy a && truthy t
         then login t a true
         else
           e <- lift (get verifyResult "error") ;;
           (err <- lift (new_Error P (js_or e (JStr "Wallet signature verification failed"))) ;; throw err))
    (fun error =>
       setAuthState (fun prev => mkAuthState (isAuthenticated prev) (walletAddress prev)
                                   (sessionToken prev) false
                                   (message_or error "Wallet login failed") (nonce prev)) ;;;
       throw error).

Definition logout : M unit :=
  setAuthState (fun prev => mkAuthState (isAuthenticated prev) (walletAddress prev)
                              (sessionToken prev) true (error prev) (nonce prev)) ;;;
  try_catch
    (clearStoredSessionData ;;;
     try_catch (AuthService.logout ;;; ret tt) (fun _ => ret tt) ;;;
     setAuthState (fun _ => loggedOut) ;;;
     emit (ENavigate "/landing"))
    (fun error =>
       setAuthState (fun prev => mkAuthState (isAuthenticated prev) (walletAddress prev)
                                   (sessionToken prev) false
                                   (message_or error "Logout failed") (nonce prev)) ;;;
       throw error).

Definition checkSession : M unit :=
  setAuthState (fun prev => mkAuthState (isAuthenticated prev) (walletAddress prev)
                              (sessionToken prev) true JNull (nonce prev)) ;;;
  ta <- getStoredSessionData ;;
  let '(token, address) := ta in
  if truthy token && truthy address then
    setAuthState (fun _ => mkAuthState true address token false JNull JNull) ;;;
    try_catch
      (tokenText <- lift (ToString (NumberToString P) token) ;;
       verifyResult <- AuthService.verifyToken P tokenText ;;
       v <- lift (get verifyResult "isValid") ;;
       if negb (truthy v) then
         clearStoredSessionData ;;;
         setAuthState (fun _ => loggedOut)
       else ret tt)
      (fun _ => ret tt)
  else setAuthState (fun _ => loggedOut).
End WithPlatform.
End AuthContext.

(* ===================================================================== *)
(** ** src/MiniKitProvider.tsx                                             *)
(* ===================================================================== *)

Module MiniKitProvider.
Section WithPlatform.
Context {S : Storage}.
Variable P : Platform.

Definition DEFAULT_APP_ID : string := "app_0de9312869c4818fc1a1ec64306551b69".

(** [!serverNonce || typeof serverNonce !== 'string' || serverNonce.length < 8] *)
Definition invalid_nonce (serverNonce : JsVal) : bool :=
  negb (truthy serverNonce) || negb (is_string serverNonce) ||
  match serverNonce with
  | JStr s => (String.length s <? 8)%nat
  | _ => false
  end.

Definition appId_of_env : string :=
  match env_or (VITE_WORLD_APP_ID (env P))
          (env_or (VITE_WORLD_ID_APP_ID (env P)) (window_ENV_WORLD_APP_ID (env P))) with
  | Some s => if String.eqb s "" then DEFAULT_APP_ID else s
  | None => DEFAULT_APP_ID
  end.

(** [MiniKit.isInstalled && MiniKit.isInstalled()] inside [try { } catch { }],
    starting from [false]. *)
Definition isInstalled_check (mk : MiniKitSdk) : bool :=
  match mk_isInstalled mk with
  | Some (Ret b) => b
  | Some (Throw _) => false
  | None => false
  end.

Definition triggerMiniKitWalletAuth (serverNonce : JsVal) : M JsVal :=
  if invalid_nonce serverNonce
  then throw (mkError "A valid server-issued nonce is required to trigger wallet auth.")
  else
    match MiniKit P with
    | None => throw (mkError "MiniKit is not available")
    | Some mk =>
        let isInstalled := isInstalled_check mk in
        (if negb isInstalled then
           try_catch
             (emit (EMiniKitInstall appId_of_env) ;;;
              lift (mk_install mk appId_of_env))
             (fun err => throw (mkError ("Failed to initialize MiniKit: " +:+ message err)))
         else ret tt) ;;;
        try_catch
          (match mk_walletAuth mk with
           | None => throw (mkError "MiniKit wallet auth commands not available")
           | Some walletAuth =>
               emit (EWalletAuth serverNonce) ;;;
               result <- lift (walletAuth serverNonce) ;;
               if negb (truthy result)
               then throw (mkError "MiniKit wallet authentication did not complete successfully (no payload). User might have cancelled.")
               else
                 finalPayload <- lift (get result "finalPayload") ;;
                 if negb (truthy finalPayload)
                 then throw (mkError "MiniKit wallet authentication did not complete successfully (no payload). User might have cancelled.")
                 else
                   st <- lift (get finalPayload "status") ;;
                   if strict_eq_string st "success" then ret finalPayload
                   else
                     errorCode <- lift (get finalPayload "error_code") ;;
                     lift (ToString (NumberToString P) st) ;;;
                     lift (ToString (NumberToString P) errorCode) ;;;
                     reason <- lift (ToString (NumberToString P)
                                       (js_or errorCode (js_or st (JStr "unknown MiniKit error")))) ;;
                     throw (mkError ("MiniKit auth failed: " +:+ reason))
           end)
          (fun error => throw error)
    end.

Definition ATTEMPTING : string := "MiniKitProvider.isAttemptingAuthViaWindow".

(** [window.__triggerWalletAuth], as created by a render in which
    [isAttemptingAuthViaWindow] has the given value. *)
Definition window_triggerWalletAuth (isAttemptingAuthViaWindow : bool) : M JsVal :=
  if isAttemptingAuthViaWindow then ret (JBool false)
  else
    setState ATTEMPTING (JBool true) ;;;
    try_finally
      (try_catch
         (serverNonce <- AuthContext.getNonceForMiniKit P ;;
          authPayload <- triggerMiniKitWalletAuth serverNonce ;;
          AuthContext.loginWithWallet P authPayload ;;;
          ret (JBool true))
         (fun _ => ret (JBool false)))
      (setState ATTEMPTING (JBool false)).
End WithPlatform.
End MiniKitProvider.

(* ===================================================================== *)
(** ** src/pages/LandingPage.tsx                                           *)
(* ===================================================================== *)

Module LandingPage.
Section WithPlatform.
Context {S : Storage}.
Variable P : Platform.

Definition CONNECTING : string := "LandingPage.isConnectingWallet".
Definition PAGE_ERROR : string := "LandingPage.pageError".

(** [disabled={isConnectingWallet || authIsLoading}] on the connect button *)
Definition connect_disabled (isConnectingWallet authIsLoading : bool) : bool :=
  isConnectingWallet || authIsLoading.

(** [handleConnectWallet] as created by a render with the given
    [isConnectingWallet] and [authIsLoading]; [windowTrigger] is
    [Some flag] when [window.__triggerWalletAuth] exists, [flag] being the
    [isAttemptingAuthViaWindow] it captured. *)
Definition handleConnectWallet (isConnectingWallet authIsLoading : bool)
    (windowTrigger : option bool) : M unit :=
  if isConnectingWallet || authIsLoading then ret tt
  else
    setState CONNECTING (JBool true) ;;;
    setState PAGE_ERROR JNull ;;;
    try_finally
      (try_catch
         (match (if DEV (env P) then windowTrigger else None) with
          | Some flag =>
              success <- MiniKitProvider.window_triggerWalletAuth P flag ;;
              if negb (truthy success)
              then throw (mkError "Wallet authentication via debug trigger failed. Check console.")
              else ret tt
          | None =>
              serverNonce <- AuthContext.getNonceForMiniKit P ;;
              authPayload <- MiniKitProvider.triggerMiniKitWalletAuth P serverNonce ;;
              AuthContext.loginWithWallet P authPayload
          end)
         (fun error => setState PAGE_ERROR (JStr (message error))))
      (setState CONNECTING (JBool false)).
End WithPlatform.
End LandingPage.

(* ===================================================================== *)
(** ** The donation and campaign forms                                     *)
(* ===================================================================== *)

(** src/components/WLDDonationForm.tsx *)
Module WLDDonationForm.
Section WithPlatform.
Context {S : Storage}.
Variable P : Platform.

Definition LOADING : string := "WLDDonationForm.loading".
Definition ERROR : string := "WLDDonationForm.error".
Definition SUCCESS : string := "WLDDonationForm.success".
Definition AMOUNT : string := "WLDDonationForm.amount".
Definition TXHASH : string := "WLDDonationForm.txHash".

(** [disabled={loading}] on the submit button *)
Definition submit_disabled (loading : bool) : bool := loading.

(** [minAmount] is [None] while [instructions] is still [null].  The
    parent's [onDonationSuccess] is called without [await]; the call is
    recorded, what the parent then does is the parent's. *)
Definition handleSubmit (campaignId : string) (isAuthenticated : bool)
    (amount txHash : string) (minAmount : option float) (onDonationSuccess : bool) : M unit :=
  if negb isAuthenticated then setState ERROR (JStr "Please sign in to donate")
  else if String.eqb amount "" || PrimFloat.leb (parseFloat P amount) PrimFloat.zero
  then setState ERROR (JStr "Please enter a valid amount")
  else if String.eqb txHash "" then setState ERROR (JStr "Please enter a transaction hash")
  else if match minAmount with
          | Some m => truthy (JNum m) && PrimFloat.ltb (parseFloat P amount) m
          | None => false
          end
  then setState ERROR
         (JStr ("Minimum donation amount is " +:+
                match minAmount with Some m => NumberToString P m | None => "" end +:+ " WLD"))
  else
    setState LOADING (JBool true) ;;;
    setState ERROR JNull ;;;
    try_finally
      (try_catch
         (result <- WLDPaymentService.donateWLD P campaignId (parseFloat P amount) txHash ;;
          s <- lift (get result "success") ;;
          if negb (truthy s) then
            e <- lift (get result "error") ;;
            (err <- lift (new_Error P (js_or e (JStr "Donation failed"))) ;; throw err)
          else
            setState SUCCESS (JBool true) ;;;
            setState AMOUNT (JStr "") ;;;
            setState TXHASH (JStr "") ;;;
            if onDonationSuccess then emit (ECallback "onDonationSuccess") else ret tt)
         (fun err => setState ERROR (message_or err "Failed to process donation")))
      (setState LOADING (JBool false)).
End WithPlatform.
End WLDDonationForm.

(** src/components/CampaignList.tsx: the donation form of [CampaignDetail] *)
Module CampaignDetail.
Section WithPlatform.
Context {S : Storage}.
Variable P : Platform.

Definition DONATING : string := "CampaignDetail.donating".
Definition DONATION_SUCCESS : string := "CampaignDetail.donationSuccess".
Definition CAMPAIGN : string := "CampaignDetail.campaign".
Definition DONATION_AMOUNT : string := "CampaignDetail.donationAmount".
Definition DONATION_TXHASH : string := "CampaignDetail.donationTxHash".

(** [disabled={donating}] *)
Definition submit_disabled (donating : bool) : bool := donating.

Definition handleDonate (id : string) (donationAmount : float) (donationTxHash : string) : M unit :=
  if negb (truthy (JNum donationAmount)) || PrimFloat.leb donationAmount PrimFloat.zero
  then emit (EAlert (JStr "Please enter a valid donation amount"))
  else if String.eqb donationTxHash ""
  then emit (EAlert (JStr "Transaction hash is required"))
  else
    setState DONATING (JBool true) ;;;
    try_finally
      (try_catch
         (result <- CampaignService.recordDonation P id donationAmount donationTxHash ;;
          s <- lift (get result "success") ;;
          if truthy s then
            setState DONATION_SUCCESS (JBool true) ;;;
            refreshResult <- CampaignService.fetchCampaign P id ;;
            rs <- lift (get refreshResult "success") ;;
            rc <- lift (get refreshResult "campaign") ;;
            (if truthy rs && truthy rc then setState CAMPAIGN rc else ret tt) ;;;
            setState DONATION_AMOUNT (JNum PrimFloat.zero) ;;;
            setState DONATION_TXHASH (JStr "")
          else
            e <- lift (get result "error") ;;
            emit (EAlert (js_or e (JStr "Failed to process donation"))))
         (fun err => emit (EAlert (message_or err "An error occurred"))))
      (setState DONATING (JBool false)).
End WithPlatform.
End CampaignDetail.

(** src/components/EditCampaignForm.tsx *)
Module EditCampaignForm.
Section WithPlatform.
Context {S : Storage}.
Variable P : Platform.

Definition SUBMITTING : string := "EditCampaignForm.submitting".
Definition ERROR : string := "EditCampaignForm.error".

(** [disabled={submitting}] *)
Definition submit_disabled (submitting : bool) : bool := submitting.

Definition handleSubmit (id : string) (formData : JsVal) : M unit :=
  setState SUBMITTING (JBool true) ;;;
  try_finally
    (try_catch
       (result <- CampaignService.updateCampaign P id formData ;;
        s <- lift (get result "success") ;;
        if truthy s then emit (ENavigate ("/campaigns/" +:+ id))
        else
          e <- lift (get result "error") ;;
          setState ERROR (js_or e (JStr "Failed to update campaign")))
       (fun err => setState ERROR (message_or err "An error occurred")))
    (setState SUBMITTING (JBool false)).
End WithPlatform.
End EditCampaignForm.

(** CreateCampaignForm.tsx *)
Module CreateCampaignForm.
Section WithPlatform.
Context {S : Storage}.
Variable P : Platform.

Definition LOADING : string := "CreateCampaignForm.loading".
Definition ERROR : string := "CreateCampaignForm.error".

(** [disabled={loading}] *)
Definition submit_disabled (loading : bool) : bool := loading.

Definition onSubmit (form : CampaignPayload) : M unit :=
  setState ERROR JNull ;;;
  setState LOADING (JBool true) ;;;
  try_finally
    (try_catch
       (if String.eqb (title form) "" then throw (mkError "Campaign title is required")
        else if PrimFloat.leb (goal form) PrimFloat.zero
        then throw (mkError "Funding goal must be greater than 0")
        else
          result <- CampaignService.createCampaign P (payload_json form) ;;
          s <- lift (get result "success") ;;
          id <- lift (get result "id") ;;
          if truthy s && truthy id
          then
            idText <- lift (ToString (NumberToString P) id) ;;
            emit (ENavigate ("/campaigns/" +:+ idText))
          else
            e <- lift (get result "error") ;;
            (err <- lift (new_Error P (js_or e (JStr "Failed to create campaign"))) ;; throw err))
       (fun error => setState ERROR (message_or error "An error occurred while creating the campaign")))
    (setState LOADING (JBool false)).
End WithPlatform.
End CreateCampaignForm.

(* ===================================================================== *)
(** ** The progress percentage of CampaignCard, CampaignDetail and
       CampaignTracker                                                     *)
(* ===================================================================== *)

Module Progress.

(** An integral double, as [Math.round] returns it ([-0] is [RInt 0]). *)
Inductive Rounded : Type :=
| RNaN
| RInf (negative : bool)
| RInt (z : Z).

(** [Math.round]: the nearest integer, ties towards +infinity, computed
    exactly on the value [(-1)^s * m * 2^e] of the double. *)
Definition Math_round (x : float) : Rounded :=
  match Prim2SF x with
  | S754_nan => RNaN
  | S754_infinity s => RInf s
  | S754_zero _ => RInt 0
  | S754_finite s m e =>
      let n := if s then Z.neg m else Z.pos m in
      if (0 <=? e)%Z then RInt (n * 2 ^ e)
      else RInt ((2 * n + 2 ^ (- e)) / 2 ^ (- e + 1))
  end.

(** [Math.min(a, b)] for an integer [b]. *)
Definition Math_min (a : Rounded) (b : Z) : Rounded :=
  match a with
  | RNaN => RNaN
  | RInf true => RInf true
  | RInf false => RInt b
  | RInt z => RInt (Z.min z b)
  end.

(** [Math.min(Math.round((campaign.raised / campaign.goal) * 100), 100)],
    the same expression in the three components. *)
Definition progressPercentage (raised goal : float) : Rounded :=
  Math_min (Math_round (PrimFloat.mul (PrimFloat.div raised goal) 100%float)) 100.

(** The rational number a finite double stands for. *)
Definition exact_value (x : float) : option Q :=
  match Prim2SF x with
  | S754_zero _ => Some 0%Q
  | S754_finite s m e =>
      let n := if s then Z.neg m else Z.pos m in
      Some (if (0 <=? e)%Z then inject_Z (n * 2 ^ e) else Qmake n (Z.to_pos (2 ^ (- e))))
  | _ => None
  end.

(** The double [x] stands for the rational [q]. *)
Definition denotes (x : float) (q : Q) : Prop :=
  match exact_value x with
  | Some v => Qeq v q
  | None => False
  end.

(** The formula of the specification, [min(round(100 * raised / goal), 100)],
    in exact arithmetic ([round]: nearest integer, ties upwards). *)
Definition spec_round (q : Q) : Z := Qfloor (q + (1 # 2)).

Definition spec_progress (raised goal : Q) : Z :=
  Z.min (spec_round (100 * raised / goal)) 100.

End Progress.

(* ===================================================================== *)
(** ** Properties of traces                                                *)
(* ===================================================================== *)

(** What a run of [c] from [w] appends to the trace. *)
Definition appends {A} (c : M A) (w : World) (new : list Event) : Prop :=
  trace (snd (c w)) = trace w ++ new.

Definition result_of {A} (c : M A) (w : World) : Outcome A := fst (c w).

Definition storage_after {A} (c : M A) (w : World) : gmap string string :=
  localStorage (snd (c w)).

(** The value of a boolean [useState] cell after the setters of a trace. *)
Fixpoint cell_after (cell : string) (cur : bool) (t : list Event) : bool :=
  match t with
  | [] => cur
  | ESetState c v :: t' =>
      if String.eqb c cell then cell_after cell (truthy v) t' else cell_after cell cur t'
  | _ :: t' => cell_after cell cur t'
  end.

(** Every moment of a trace at which a request is issued, in flight or
    settling, or at which the wallet is being asked, falls while the control
    that starts the action is disabled; [disabled] reads the control's
    [disabled] attribute off the value of the cell. *)
Fixpoint busy_while (disabled : bool -> bool) (cell : string) (cur : bool)
    (t : list Event) : bool :=
  match t with
  | [] => true
  | ESetState c v :: t' =>
      if String.eqb c cell then busy_while disabled cell (truthy v) t'
      else busy_while disabled cell cur t'
  | EFetch _ :: t' | ESettled :: t' | EWalletAuth _ :: t' | EMiniKitInstall _ :: t' =>
      disabled cur && busy_while disabled cell cur t'
  | _ :: t' => busy_while disabled cell cur t'
  end.

(** A run of the handler [c], started while the control is enabled, keeps
    it disabled for as long as it has a request in flight, and enables it
    again when it is done. *)
Definition guarded_by {A} (disabled : bool -> bool) (cell : string) (c : M A) : Prop :=
  forall w, exists new,
    appends c w new /\
    busy_while disabled cell false new = true /\
    cell_after cell false new = false.

(** At most one request is issued by a run of [c], whatever the world. *)
Definition at_most_one_fetch {A} (c : M A) : Prop :=
  forall w, exists new, appends c w new /\ (fetch_count new <= 1)%nat.

(** A run of [c] returns to its caller: it never throws. *)
Definition never_throws {A} (c : M A) : Prop :=
  forall w, exists a, result_of c w = Ret a.

(* ===================================================================== *)
(** ** Concrete platforms and worlds used as examples                      *)
(* ===================================================================== *)

Definition env0 : Env :=
  mkEnv (Some "https://api.worldfund.example") None None None None None None false.

Definition offline : nat -> Request -> Outcome Response :=
  fun _ _ => Throw (mkError "Failed to fetch").

Definition no_decoder {A} : string -> Outcome A :=
  fun _ => Throw (mkError "not decodable").

Definition platform_with (net : nat -> Request -> Outcome Response)
    (mk : option MiniKitSdk) : Platform :=
  mkPlatform env0 net no_decoder no_decoder 1700000000000%float
    (fun _ => "0") (fun _ => PrimFloat.nan) mk
    (fun _ => "0.8") (fun _ => PrimFloat.nan) (fun _ => 0.5%float).

Definition world0 : World := mkWorld ∅ AuthContext.initialAuthState [].

Definition world_with (storage : gmap string string) : World :=
  mkWorld storage AuthContext.initialAuthState [].


(* ===================================================================== *)
(** ** Requests                                                            *)
(* ===================================================================== *)

(** The [x-api-key] header a service attaches for its configured key. *)
Definition api_key_header (key : option string) : option string :=
  if env_truthy key then key else None.

(** The [Authorization] header built from the stored session token: present
    exactly when the token is stored and not the empty string. *)
Definition authorization_header (w : World) : option string :=
  match localStorage w !! SESSION_TOKEN_KEY with
  | Some t => if String.eqb t "" then None else Some ("Bearer " +:+ t)
  | None => None
  end.

(** The endpoint paths named by the specification. *)
Inductive Endpoint : string -> Prop :=
| ep_nonce : Endpoint "/auth/nonce"
| ep_verify_signature : Endpoint "/auth/verify-signature"
| ep_verify_worldid : Endpoint "/verify-worldid"
| ep_campaigns : Endpoint "/campaigns"
| ep_campaign (id : string) : Endpoint ("/campaigns/" +:+ id)
| ep_donate (id : string) : Endpoint ("/campaigns/" +:+ id +:+ "/donate")
| ep_user_campaigns (address : string) : Endpoint ("/users/" +:+ address +:+ "/campaigns").

(** [req] goes to [base ++ path] with a JSON content type, the given
    [x-api-key] header and the given [Authorization] header. *)
Definition request_to (base path : string) (key auth : option string) (req : Request) : Prop :=
  url req = base +:+ path /\
  Endpoint path /\
  assoc "Content-Type" (headers req) = Some "application/json" /\
  assoc "x-api-key" (headers req) = key /\
  assoc "Authorization" (headers req) = auth.

(** The request [verifyWalletSignature] posts for a payload and a nonce. *)
Definition verify_request (P : Platform) (payload nonce : JsVal) (req : Request) : Prop :=
  request_to (AuthService.API_BASE P) "/auth/verify-signature"
    (api_key_header (AuthService.API_KEY P)) None req /\
  method req = "POST" /\
  body req = Some (JObj [("payload", payload); ("nonce", nonce)]).

(** The backend answers [req], sent when [k] requests have been sent before
    it, with an OK response whose body carries the truthy [token] [tok] and
    the truthy [walletAddress] [addr]. *)
Definition verified_at (P : Platform) (k : nat) (req : Request) (tok addr : JsVal) : Prop :=
  exists res data,
    network P k req = Ret res /\ ok res = true /\
    json res = Ret data /\
    get data "token" = Ret tok /\ truthy tok = true /\
    get data "walletAddress" = Ret addr /\ truthy addr = true.

(** The same, for a request sent from [w]. *)
Definition verified (P : Platform) (w : World) (req : Request) (tok addr : JsVal) : Prop :=
  verified_at P (fetch_count (trace w)) req tok addr.

(** [v] can be converted to a string. *)
Definition convertible (P : Platform) (v : JsVal) : Prop :=
  exists s, ToString (NumberToString P) v = Ret s.

(** What a run of [c] issues: nothing, or one request of the given kind. *)
Definition issues {A} (c : M A) (w : World) (kind : Request -> Prop) : Prop :=
  exists new, appends c w new /\
    (requests new = [] \/ exists req, requests new = [req] /\ kind req).


(** The API base of WLDPaymentService ([getApiBase] throws when it is unset
    or empty, and then no request is issued). *)
Definition WLD_API_BASE (P : Platform) : string :=
  match VITE_AMPLIFY_API (env P) with Some s => s | None => "" end.


(** A world in which a session token is stored. *)
Definition world_logged_in : World :=
  world_with (<[SESSION_TOKEN_KEY := "session-abc"]> ∅).

Definition platform_offline : Platform := platform_with offline None.


(** The backend answers whatever is requested next with [res]. *)
Definition answers (P : Platform) (w : World) (res : Response) : Prop :=
  forall req, network P (fetch_count (trace w)) req = Ret res.

(** The network fails for whatever is requested next: [fetch] rejects. *)
Definition network_down (P : Platform) (w : World) (e : JsError) : Prop :=
  forall req, network P (fetch_count (trace w)) req = Throw e.

(** [c] returns [{ success: false, error: <a string> }]. *)
Definition fails_with_message (c : M JsVal) (w : World) : Prop :=
  exists s, result_of c w = Ret (failure (JStr s)).

Definition response_with (st : nat) (bodyv : JsVal) : Response := mkResponse st (Ret bodyv).

Definition always (res : Response) : nat -> Request -> Outcome Response := fun _ _ => Ret res.

(** An OK response whose body has a [nonce] field holding the empty string. *)
Definition empty_nonce_body : JsVal := JObj [("nonce", JStr "")].

Definition platform_empty_nonce : Platform :=
  platform_with (always (response_with 200 empty_nonce_body)) None.

Definition good_nonce_body : JsVal := JObj [("nonce", JStr "c0ffee-1234-5678")].

Definition platform_good_nonce : Platform :=
  platform_with (always (response_with 200 good_nonce_body)) None.


(* ===================================================================== *)
(** ** The two session keys                                                *)
(* ===================================================================== *)

(** Going from [st] to [st'] writes both session keys and nothing else. *)
Definition sets_both (st st' : gmap string string) (token address : string) : Prop :=
  st' !! SESSION_TOKEN_KEY = Some token /\
  st' !! WALLET_ADDRESS_KEY = Some address /\
  forall k, k <> SESSION_TOKEN_KEY -> k <> WALLET_ADDRESS_KEY -> st' !! k = st !! k.

(** Going from [st] to [st'] writes the token key and nothing else. *)
Definition sets_token_only (st st' : gmap string string) (token : string) : Prop :=
  st' !! SESSION_TOKEN_KEY = Some token /\
  forall k, k <> SESSION_TOKEN_KEY -> st' !! k = st !! k.

(** What writing [token] and then [address] under the two keys does to the
    storage: each value is converted to a string before it is written, and a
    conversion that throws ends the writing there. *)
Definition writes_pair (P : Platform) (st st' : gmap string string)
    (token address : JsVal) : Prop :=
  match ToString (NumberToString P) token with
  | Throw _ => st' = st
  | Ret t =>
      match ToString (NumberToString P) address with
      | Throw _ => sets_token_only st st' t
      | Ret a => sets_both st st' t a
      end
  end.

(** Going from [st] to [st'] removes both session keys and nothing else. *)
Definition clears_both (st st' : gmap string string) : Prop :=
  st' !! SESSION_TOKEN_KEY = None /\
  st' !! WALLET_ADDRESS_KEY = None /\
  forall k, k <> SESSION_TOKEN_KEY -> k <> WALLET_ADDRESS_KEY -> st' !! k = st !! k.

(** Going from [st] to [st'] removes the token key and nothing else. *)
Definition clears_token_only (st st' : gmap string string) : Prop :=
  st' !! SESSION_TOKEN_KEY = None /\
  forall k, k <> SESSION_TOKEN_KEY -> st' !! k = st !! k.

(** Both keys are stored, each with a non-empty string. *)
Definition both_stored_nonempty (st : gmap string string) : Prop :=
  exists t a, st !! SESSION_TOKEN_KEY = Some t /\ t <> "" /\
              st !! WALLET_ADDRESS_KEY = Some a /\ a <> "".

(** An OK answer of [/auth/verify-signature] whose [token] is an empty
    array: truthy, and stored as the empty string. *)
Definition odd_token_body : JsVal :=
  JObj [("token", JArr []); ("walletAddress", JStr "0xabc")].

Definition platform_odd_token : Platform :=
  platform_with (always (response_with 200 odd_token_body)) None.

Definition signed_payload : JsVal :=
  JObj [("status", JStr "success");
        ("message", JObj [("nonce", JStr "c0ffee-1234-5678")]);
        ("signature", JStr "0xsig"); ("address", JStr "0xabc")].

Definition world_after_odd_verify : World :=
  snd (AuthService.verifyWalletSignature platform_odd_token signed_payload
         (JStr "c0ffee-1234-5678") world0).

(** A parsed object with a [toString] member of its own: truthy, and not
    convertible to a string or a number. *)
Definition unconvertible : JsVal := JObj [("toString", JNull)].

(** An OK answer of [/auth/verify-signature] whose [walletAddress] cannot be
    converted to a string. *)
Definition half_session_body : JsVal :=
  JObj [("token", JStr "tok"); ("walletAddress", unconvertible)].

Definition platform_half_session : Platform :=
  platform_with (always (response_with 200 half_session_body)) None.

Definition world_after_half_verify : World :=
  snd (AuthService.verifyWalletSignature platform_half_session signed_payload
         (JStr "c0ffee-1234-5678") world0).

Definition good_session_body : JsVal :=
  JObj [("token", JStr "session-abc"); ("walletAddress", JStr "0xabc")].

Definition platform_good_session : Platform :=
  platform_with (always (response_with 200 good_session_body)) None.


(* ===================================================================== *)
(** ** Example tokens                                                      *)
(* ===================================================================== *)

Definition dq : string := String (Ascii.ascii_of_nat 34) EmptyString.

(** The JSON text of a payload whose [exp] is the given decimal numeral and
    whose [walletAddress] is [0xabc]. *)
Definition payload_text (exp_digits : string) : string :=
  "{" +:+ dq +:+ "exp" +:+ dq +:+ ":" +:+ exp_digits +:+ "," +:+
  dq +:+ "walletAddress" +:+ dq +:+ ":" +:+ dq +:+ "0xabc" +:+ dq +:+ "}".

Definition payload_exp0 : JsVal :=
  JObj [("exp", JNum 0%float); ("walletAddress", JStr "0xabc")].

Definition payload_exp2100 : JsVal :=
  JObj [("exp", JNum 4102444800%float); ("walletAddress", JStr "0xabc")].

(** [atob] and [JSON.parse] on the two example payloads. *)
Definition atob_example (s : string) : Outcome string :=
  if String.eqb s "eyJleHAiOjAsIndhbGxldEFkZHJlc3MiOiIweGFiYyJ9"
  then Ret (payload_text "0")
  else if String.eqb s "eyJleHAiOjQxMDI0NDQ4MDAsIndhbGxldEFkZHJlc3MiOiIweGFiYyJ9"
  then Ret (payload_text "4102444800")
  else Throw (mkError "The string to be decoded is not correctly encoded.").

Definition JSON_parse_example (s : string) : Outcome JsVal :=
  if String.eqb s (payload_text "0") then Ret payload_exp0
  else if String.eqb s (payload_text "4102444800") then Ret payload_exp2100
  else Throw (mkError "Unexpected token").

(** The clock reads 2023-11-14T22:13:20Z. *)
Definition platform_jwt : Platform :=
  mkPlatform env0 offline atob_example JSON_parse_example 1700000000000%float
    (fun _ => "0") (fun _ => PrimFloat.nan) None
    (fun _ => "0.8") (fun _ => PrimFloat.nan) (fun _ => 0.5%float).

Definition token_exp0 : string :=
  "eyJhbGciOiJIUzI1NiJ9.eyJleHAiOjAsIndhbGxldEFkZHJlc3MiOiIweGFiYyJ9.c2ln".

Definition token_exp2100 : string :=
  "eyJhbGciOiJIUzI1NiJ9.eyJleHAiOjQxMDI0NDQ4MDAsIndhbGxldEFkZHJlc3MiOiIweGFiYyJ9.c2ln".

(** [exp * 1000 < Date.now()], the expiry test of [verifyToken]: the
    conversion of [exp] to a number can throw. *)
Definition expired (P : Platform) (exp : JsVal) : Outcome bool :=
  match ToNumber (NumberToString P) (StringToNumber P) exp with
  | Ret seconds => Ret (PrimFloat.ltb (PrimFloat.mul seconds 1000%float) (Date_now P))
  | Throw e => Throw e
  end.


(* ===================================================================== *)
(** ** The public methods of the three services                            *)
(* ===================================================================== *)

Section Methods.
Context {S : Storage}.

(** [Q] holds of every invocation of the eleven methods that call the
    backend. *)
Definition backend_methods (P : Platform) (Q : M JsVal -> Prop) : Prop :=
  Q (AuthService.getNonce P) /\
  (forall payload nonce, Q (AuthService.verifyWalletSignature P payload nonce)) /\
  (forall proof, Q (AuthService.verifyWorldIdProof P proof)) /\
  (forall payload, Q (CampaignService.createCampaign P payload)) /\
  Q (CampaignService.fetchAllCampaigns P) /\
  (forall id, Q (CampaignService.fetchCampaign P id)) /\
  (forall id payload, Q (CampaignService.updateCampaign P id payload)) /\
  (forall id, Q (CampaignService.deleteCampaign P id)) /\
  (forall id amount txHash, Q (CampaignService.recordDonation P id amount txHash)) /\
  (forall address, Q (CampaignService.fetchUserCampaigns P address)) /\
  (forall id amount txHash, Q (WLDPaymentService.donateWLD P id amount txHash)).

(** The other public methods, [checkAuthStatus] apart: they clear
    localStorage, decode a token or return mock data. *)
Definition local_methods (P : Platform) (Q : M JsVal -> Prop) : Prop :=
  Q AuthService.logout /\
  (forall token, Q (AuthService.verifyToken P token)) /\
  (forall id, Q (WLDPaymentService.getDonationInstructions id)) /\
  (forall txHash, Q (WLDPaymentService.verifyTransaction P txHash)).

(** The methods that read the session token from localStorage before they
    call the backend. *)
Definition token_reading_methods (P : Platform) (Q : M JsVal -> Prop) : Prop :=
  (forall proof, Q (AuthService.verifyWorldIdProof P proof)) /\
  (forall payload, Q (CampaignService.createCampaign P payload)) /\
  Q (CampaignService.fetchAllCampaigns P) /\
  (forall id, Q (CampaignService.fetchCampaign P id)) /\
  (forall id payload, Q (CampaignService.updateCampaign P id payload)) /\
  (forall id, Q (CampaignService.deleteCampaign P id)) /\
  (forall id amount txHash, Q (CampaignService.recordDonation P id amount txHash)) /\
  (forall address, Q (CampaignService.fetchUserCampaigns P address)) /\
  (forall id amount txHash, Q (WLDPaymentService.donateWLD P id amount txHash)).

(** The methods that use the body of an OK response. *)
Definition body_reading_methods (P : Platform) (Q : M JsVal -> Prop) : Prop :=
  Q (AuthService.getNonce P) /\
  (forall payload nonce, Q (AuthService.verifyWalletSignature P payload nonce)) /\
  Q (CampaignService.fetchAllCampaigns P) /\
  (forall id, Q (CampaignService.fetchCampaign P id)) /\
  (forall address, Q (CampaignService.fetchUserCampaigns P address)) /\
  (forall id amount txHash, Q (WLDPaymentService.donateWLD P id amount txHash)).
End Methods.

(** [c] returns [{ success: false, error: <a string> }] and leaves the world
    as it was: nothing was sent, nothing was written. *)
Definition fails_at_once (c : M JsVal) (w : World) : Prop :=
  exists s, c w = (Ret (failure (JStr s)), w).

(** A storage that cannot be read: every access to [localStorage] throws. *)
Definition blocked_storage : Storage :=
  {| access_fault := fun _ => Some (mkError "The operation is insecure.");
     quota_fault := fun _ _ _ => None |}.

(** An OK response whose body is not JSON. *)
Definition unparseable_ok : Response :=
  mkResponse 200 (Throw (mkError "Unexpected end of JSON input")).

Definition platform_unparseable : Platform := platform_with (always unparseable_ok) None.

Definition new_campaign : JsVal :=
  payload_json (mkCampaignPayload "Clean water" (Some "A well for the village") 40%float None).


(* ===================================================================== *)
(** ** The wallet                                                          *)
(* ===================================================================== *)

(** The nonces handed to [MiniKit.commandsAsync.walletAuth], in order. *)
Fixpoint wallet_calls (t : list Event) : list JsVal :=
  match t with
  | [] => []
  | EWalletAuth n :: t' => n :: wallet_calls t'
  | _ :: t' => wallet_calls t'
  end.

(** MiniKit is there to be asked: it is installed, or installing it with the
    configured app id succeeds, and it exposes [commandsAsync.walletAuth]. *)
Definition MiniKit_ready (P : Platform) : Prop :=
  exists mk walletAuth,
    MiniKit P = Some mk /\
    (MiniKitProvider.isInstalled_check mk = true \/
     mk_install mk (MiniKitProvider.appId_of_env P) = Ret tt) /\
    mk_walletAuth mk = Some walletAuth.

(** A wallet that signs the nonce it is given. *)
Definition wallet_signs (n : JsVal) : Outcome JsVal :=
  Ret (JObj [("finalPayload",
              JObj [("status", JStr "success");
                    ("message", JObj [("nonce", n)]);
                    ("signature", JStr "0xsig"); ("address", JStr "0xabc")])]).

Definition minikit_installed : MiniKitSdk :=
  mkMiniKit (Some (Ret true)) (fun _ => Ret tt) (Some wallet_signs).

Definition server_nonce : JsVal := JStr "c0ffee-1234-5678".

(** A wallet payload whose signed message carries no nonce. *)
Definition payload_without_nonce : JsVal :=
  JObj [("status", JStr "success");
        ("message", JObj [("statement", JStr "Sign in")]);
        ("signature", JStr "0xsig"); ("address", JStr "0xabc")].


Definition platform_wallet : Platform := platform_with offline (Some minikit_installed).

(** A backend that issues a nonce and accepts whatever signature it is
    sent. *)
Definition backend_good : nat -> Request -> Outcome Response :=
  fun _ req =>
    if String.eqb (url req) "https://api.worldfund.example/auth/nonce"
    then Ret (response_with 200 good_nonce_body)
    else Ret (response_with 200 good_session_body).

Definition platform_signin : Platform := platform_with backend_good (Some minikit_installed).

(** The same backend, answering the verification with an address that
    cannot be converted to a string. *)
Definition backend_half : nat -> Request -> Outcome Response :=
  fun _ req =>
    if String.eqb (url req) "https://api.worldfund.example/auth/nonce"
    then Ret (response_with 200 good_nonce_body)
    else Ret (response_with 200 half_session_body).

Definition platform_half_signin : Platform :=
  platform_with backend_half (Some minikit_installed).

(** The nonce request of [platform_signin]. *)
Definition nonce_request_example : Request :=
  mkRequest "https://api.worldfund.example/auth/nonce" "GET"
    [("Content-Type", "application/json")] None.

(** A visitor who is not signed in, once the session check is over. *)
Definition world_signed_out : World := mkWorld ∅ AuthContext.loggedOut [].

(** What the connect button's attempt has appended, and the world it has
    made, while its nonce request is in flight. *)
Definition connect_in_flight : list Event :=
  [ESetState LandingPage.CONNECTING (JBool true);
   ESetState LandingPage.PAGE_ERROR JNull;
   EFetch nonce_request_example].

Definition world_connect_in_flight : World :=
  mkWorld ∅ (mkAuthState false JNull JNull true JNull JNull) connect_in_flight.

(** The events at which a handler is suspended, waiting for the network,
    the wallet or the installation of MiniKit. *)
Definition awaited (e : Event) : bool :=
  match e with
  | EFetch _ | EWalletAuth _ | EMiniKitInstall _ => true
  | _ => false
  end.

(** A run of [c] from [w] is suspended after it has appended [pre]: [pre]
    ends with an awaited event, and the run goes on from there.  These are
    the moments at which another handler can be called. *)
Definition suspended {A} (c : M A) (w : World) (pre : list Event) : Prop :=
  exists pre0 e post,
    pre = pre0 ++ [e] /\ awaited e = true /\ appends c w (pre ++ post).

(** A setter of the cell occurs in the trace. *)
Fixpoint sets_cell (cell : string) (t : list Event) : bool :=
  match t with
  | [] => false
  | ESetState c _ :: t' => String.eqb c cell || sets_cell cell t'
  | _ :: t' => sets_cell cell t'
  end.

(** No run of [c] calls the setter of the cell. *)
Definition never_sets {A} (cell : string) (c : M A) : Prop :=
  forall w, exists new, appends c w new /\ sets_cell cell new = false.

(* ===================================================================== *)
(** ** The handshake                                                       *)
(* ===================================================================== *)

(** The steps of a trace that belong to the handshake: requests, wallet
    calls and writes to localStorage. *)
Fixpoint core (t : list Event) : list Event :=
  match t with
  | [] => []
  | EFetch r :: t' => EFetch r :: core t'
  | EWalletAuth n :: t' => EWalletAuth n :: core t'
  | ESetItem k v :: t' => ESetItem k v :: core t'
  | _ :: t' => core t'
  end.

(** The request [getNonce] sends: a [GET] of [/auth/nonce], without a body
    and without the session token. *)
Definition nonce_request (P : Platform) (req : Request) : Prop :=
  request_to (AuthService.API_BASE P) "/auth/nonce"
    (api_key_header (AuthService.API_KEY P)) None req /\
  method req = "GET" /\
  body req = None.

(** The backend answers [req], sent from [w], with an OK response whose
    body carries the truthy [nonce] [n]. *)
Definition nonce_issued (P : Platform) (w : World) (req : Request) (n : JsVal) : Prop :=
  exists res data,
    network P (fetch_count (trace w)) req = Ret res /\ ok res = true /\
    json res = Ret data /\ get data "nonce" = Ret n /\ truthy n = true.

(** The wallet, asked to sign [serverNonce], hands back the successful
    payload [authPayload]: MiniKit is there, installed or installable, and
    [walletAuth] answers with a [finalPayload] whose [status] is
    ['success']. *)
Definition wallet_signed (P : Platform) (serverNonce authPayload : JsVal) : Prop :=
  exists mk walletAuth result status,
    MiniKit P = Some mk /\
    (MiniKitProvider.isInstalled_check mk = true \/
     mk_install mk (MiniKitProvider.appId_of_env P) = Ret tt) /\
    mk_walletAuth mk = Some walletAuth /\
    walletAuth serverNonce = Ret result /\ truthy result = true /\
    get result "finalPayload" = Ret authPayload /\ truthy authPayload = true /\
    get authPayload "status" = Ret status /\ strict_eq_string status "success" = true.

(** The message of the wallet's payload carries the truthy nonce
    [signedNonce]. *)
Definition signed_nonce (P : Platform) (authPayload signedNonce : JsVal) : Prop :=
  exists m obj,
    get authPayload "message" = Ret m /\ truthy m = true /\
    AuthContext.messageObj_of P m = Ret obj /\
    get obj "nonce" = Ret signedNonce /\ truthy signedNonce = true.

(** Everything a handshake started from [w] is told goes well: the backend
    answers the nonce request (the first request) with the nonce
    [serverNonce], a string of at least 8 characters; the wallet signs it
    and hands back [authPayload], whose message carries [signedNonce]; and
    the backend answers the verification of that payload and nonce (the
    second request) with the token [tok] and the address [addr], both
    truthy and convertible to strings. *)
Definition handshake_goes_well (P : Platform) (w : World)
    (serverNonce authPayload signedNonce tok addr : JsVal) : Prop :=
  (forall req, nonce_request P req -> nonce_issued P w req serverNonce) /\
  MiniKitProvider.invalid_nonce serverNonce = false /\
  wallet_signed P serverNonce authPayload /\
  signed_nonce P authPayload signedNonce /\
  (forall req,
     verify_request P authPayload signedNonce req ->
     verified_at P (fetch_count (trace w) + 1) req tok addr) /\
  convertible P tok /\ convertible P addr.

(** The three steps of a handshake started from [w] have succeeded, and the
    backend has accepted the signature with the token [tok] and the address
    [addr]. *)
Definition handshake_succeeded (P : Platform) (w : World) (tok addr : JsVal) : Prop :=
  exists req serverNonce authPayload signedNonce req',
    nonce_request P req /\ nonce_issued P w req serverNonce /\
    MiniKitProvider.invalid_nonce serverNonce = false /\
    wallet_signed P serverNonce authPayload /\
    signed_nonce P authPayload signedNonce /\
    verify_request P authPayload signedNonce req' /\
    verified_at P (fetch_count (trace w) + 1) req' tok addr /\
    convertible P tok /\ convertible P addr.

(** The handshake, as far as it got: the nonce is fetched, then the wallet
    is asked to sign, then the signature is posted, then the session is
    stored (by [verifyWalletSignature], and again by [login]); where the
    address of the answer cannot be converted to a string, the storing ends
    after the token. *)
Inductive Handshake (P : Platform) : list Event -> Prop :=
| hs_not_started : Handshake P []
| hs_nonce_fetched req :
    nonce_request P req ->
    Handshake P [EFetch req]
| hs_signed req n :
    nonce_request P req ->
    Handshake P [EFetch req; EWalletAuth n]
| hs_posted req n req' payload signedNonce :
    nonce_request P req -> verify_request P payload signedNonce req' ->
    Handshake P [EFetch req; EWalletAuth n; EFetch req']
| hs_token_stored req n req' payload signedNonce token :
    nonce_request P req -> verify_request P payload signedNonce req' ->
    Handshake P [EFetch req; EWalletAuth n; EFetch req';
                 ESetItem SESSION_TOKEN_KEY token]
| hs_stored req n req' payload signedNonce token address :
    nonce_request P req -> verify_request P payload signedNonce req' ->
    Handshake P [EFetch req; EWalletAuth n; EFetch req';
                 ESetItem SESSION_TOKEN_KEY token; ESetItem WALLET_ADDRESS_KEY address;
                 ESetItem SESSION_TOKEN_KEY token; ESetItem WALLET_ADDRESS_KEY address].


(* ===================================================================== *)
(** ** Shapes of runs                                                     *)
(* ===================================================================== *)

(** A run of [c] from [w] returns, leaves localStorage and the AuthContext
    state alone, and issues exactly one request, of the given kind. *)
Definition one_request (c : M JsVal) (w : World) (kind : Request -> Prop) : Prop :=
  exists r req,
    c w = (Ret r, mkWorld (localStorage w) (authState w) (trace w ++ [EFetch req; ESettled])) /\
    kind req.

(** A double that is zero, positive or [+infinity]. *)
Definition sf_nonneg (x : spec_float) : Prop :=
  match x with
  | S754_zero _ | S754_finite false _ _ | S754_infinity false => True
  | _ => False
  end.

(** What [loginWithWallet] appends to the trace: nothing, the verification
    request alone, the request followed by the write of the token alone, or
    the request followed by the session writes of [verifyWalletSignature]
    and of [login] and the navigation. *)
Definition login_shape (P : Platform) (new : list Event) : Prop :=
  new = [] \/
  exists req payload n,
    verify_request P payload n req /\
    (new = [EFetch req; ESettled] \/
     (exists token, new = [EFetch req; ESettled; ESetItem SESSION_TOKEN_KEY token]) \/
     exists token address,
       new = [EFetch req; ESettled;
              ESetItem SESSION_TOKEN_KEY token; ESetItem WALLET_ADDRESS_KEY address;
              ESetItem SESSION_TOKEN_KEY token; ESetItem WALLET_ADDRESS_KEY address;
              ENavigate "/dashboard"]).


(* ===================================================================== *)
(** ** Positions on the grid of a double                                 *)
(* ===================================================================== *)

(** [binary_round_aux], the rounding of the double operations, works on a
    mantissa, an exponent and the location of the exact result between
    two mantissas.  The definitions below name what it manipulates. *)
Section Positions.
Local Open Scope Z_scope.

(** The position of a non-negative rational [N / D] on the grid of the
    integers and half-integers: [4 m] on the integer [m], [4 m + 2] on
    [m + 1/2], [4 m + 1] and [4 m + 3] strictly between. *)
Definition located (N D k : Z) : Prop :=
  (Z.even k = true /\ k * D = 4 * N) \/
  (Z.even k = false /\ (k - 1) * D < 4 * N < (k + 1) * D).

(** The code of a position: four times the mantissa plus the code of the
    location of the number in the unit interval above it. *)
Definition code_of_loc (l : location) : Z :=
  match l with
  | loc_Exact => 0
  | loc_Inexact Lt => 1
  | loc_Inexact Eq => 2
  | loc_Inexact Gt => 3
  end.

(** The same code, read from the round and sticky bits of a shift record. *)
Definition code_of_record (mrs : shr_record) : Z :=
  4 * shr_m mrs + (if shr_r mrs then 2 else 0) + (if shr_s mrs then 1 else 0).

(** One step of [shr_1] on codes. *)
Definition halve (k : Z) : Z := 2 * (k / 4) + (if k mod 4 =? 0 then 0 else 1).

(** The second half of [binary_round_aux]: rounding to nearest even, the
    renormalising shift and the overflow test. *)
Definition finish (mrs : shr_record) (e : Z) : spec_float :=
  let '(mrs'', e'') :=
    shr_fexp prec emax (round_nearest_even (shr_m mrs) (loc_of_shr_record mrs)) e loc_Exact in
  match shr_m mrs'' with
  | Z0 => S754_zero false
  | Zpos m => if Z.leb e'' (emax - prec) then S754_finite false m e'' else S754_infinity false
  | _ => S754_nan
  end.

End Positions.

(* ===================================================================== *)
(** ** The session held in memory and the session in localStorage          *)
(* ===================================================================== *)

(** The state of [AuthProvider] says what localStorage says: authenticated
    with the stored token and address, both non-empty, or logged out while
    localStorage does not hold both. *)
Definition state_matches_storage (st : gmap string string) (a : AuthState) : Prop :=
  (isAuthenticated a = true /\
   exists t ad, t <> "" /\ ad <> "" /\
     st !! SESSION_TOKEN_KEY = Some t /\ st !! WALLET_ADDRESS_KEY = Some ad /\
     sessionToken a = JStr t /\ walletAddress a = JStr ad) \/
  (isAuthenticated a = false /\ sessionToken a = JNull /\ walletAddress a = JNull /\
   ~ both_stored_nonempty st).

(** [verifyToken] accepts the token. *)
Definition token_valid (P : Platform) (t : string) : Prop :=
  exists a, forall w,
    result_of (AuthService.verifyToken P t) w =
      Ret (JObj [("isValid", JBool true); ("walletAddress", a)]).

(* ===================================================================== *)
(** ** src/components/ProtectedRoute.tsx and src/pages/Dashboard.tsx       *)
(* ===================================================================== *)

(** What a route wrapper renders. *)
Inductive Rendered : Type :=
| RLoadingFallback
| RNavigate (to : string)
| RChildren.

Module ProtectedRoute.

Definition render (a : AuthState) : Rendered :=
  if isLoading a then RLoadingFallback
  else if negb (isAuthenticated a) then RNavigate "/landing"
  else RChildren.

End ProtectedRoute.

Module Dashboard.
Section WithStorage.
Context {S : Storage}.

(** The effect that sends an unauthenticated visitor away. *)
Definition redirect_effect (isAuthenticated : bool) : M unit :=
  if negb isAuthenticated then emit (ENavigate "/landing") else ret tt.

Definition handleLogout : M unit :=
  AuthContext.logout ;;;
  emit (ENavigate "/landing").
End WithStorage.
End Dashboard.

(** The state [loginWithWallet], [getNonceForMiniKit] and [logout] leave
    after a failure: the previous one, not loading, with the error. *)
Definition failed_state (prev : AuthState) (err : JsVal) : AuthState :=
  mkAuthState (isAuthenticated prev) (walletAddress prev) (sessionToken prev) false err (nonce prev).

(* ===================================================================== *)
(** ** More about requests                                                 *)
(* ===================================================================== *)

(** A run of [c] sends exactly one request, before anything else it
    records, with the given HTTP method and the given value as its JSON
    body. *)
Definition sends_one {A} (c : M A) (w : World) (m : string) (b : option JsVal) : Prop :=
  exists req rest,
    appends c w (EFetch req :: ESettled :: rest) /\ requests rest = [] /\
    method req = m /\ body req = b.

(** [text (status)], the message a service builds from the status code. *)
Definition with_status (text : string) (res : Response) : JsVal :=
  JStr (text +:+ " (" +:+ string_of_nat (status res) +:+ ")").

(** The body of [res] is JSON whose [message] is the non-empty string [m]. *)
Definition says (res : Response) (m : string) : Prop :=
  m <> "" /\ exists data, json res = Ret data /\ get data "message" = Ret (JStr m).

(** The body of [res] is not JSON, or is JSON without a [message]. *)
Definition says_nothing (res : Response) : Prop :=
  (exists e, json res = Throw e) \/
  (exists data, json res = Ret data /\ get data "message" = Ret JUndefined).

(** A response with an error status and a JSON body holding a message. *)
Definition refusal : Response :=
  response_with 403 (JObj [("message", JStr "Campaign is closed")]).

(* ===================================================================== *)
(** ** The donation of CampaignDetail                                      *)
(* ===================================================================== *)

(** The request that records a donation, and the one that reloads the
    campaign. *)
Definition donate_request (P : Platform) (id : string) (amount : float) (txHash : string)
    (req : Request) : Prop :=
  url req = CampaignService.API_BASE P +:+ "/campaigns/" +:+ id +:+ "/donate" /\
  method req = "POST" /\
  body req = Some (JObj [("amount", JNum amount); ("txHash", JStr txHash)]).

Definition reload_request (P : Platform) (id : string) (req : Request) : Prop :=
  url req = CampaignService.API_BASE P +:+ "/campaigns/" +:+ id /\
  method req = "GET" /\ body req = None.

(** The backend answers [req], sent when [k] requests have been sent
    before it, with an OK status. *)
Definition accepted (P : Platform) (k : nat) (req : Request) : Prop :=
  exists res, network P k req = Ret res /\ ok res = true.

(** The backend answers [req], sent when [k] requests have been sent
    before it, with an OK status and the JSON body [c]. *)
Definition answered (P : Platform) (k : nat) (req : Request) (c : JsVal) : Prop :=
  exists res, network P k req = Ret res /\ ok res = true /\ json res = Ret c.

(* ===================================================================== *)
(** ** Regular expressions                                                 *)
(* ===================================================================== *)

(** The pattern of the amount field, [/^\d*\.?\d*$/], is built from single
    characters, the class [\d], sequence, [*] and [?], and is anchored at
    both ends: [test] asks whether the whole string belongs to the pattern.
    [regex_test] decides it by derivatives; [REmpty] and [RAlt] only occur
    in derivatives. *)
Inductive Regex : Type :=
| REmpty
| REps
| RChar (c : ascii)
| RDigit
| RSeq (r1 r2 : Regex)
| RAlt (r1 r2 : Regex)
| RStar (r : Regex)
| ROpt (r : Regex).

(** [\d]: the ten ASCII digits. *)
Definition is_digit (c : ascii) : bool :=
  (48 <=? nat_of_ascii c)%nat && (nat_of_ascii c <=? 57)%nat.

Fixpoint nullable (r : Regex) : bool :=
  match r with
  | REmpty | RChar _ | RDigit => false
  | REps | RStar _ | ROpt _ => true
  | RSeq r1 r2 => nullable r1 && nullable r2
  | RAlt r1 r2 => nullable r1 || nullable r2
  end.

Fixpoint deriv (c : ascii) (r : Regex) : Regex :=
  match r with
  | REmpty | REps => REmpty
  | RChar c' => if Ascii.eqb c c' then REps else REmpty
  | RDigit => if is_digit c then REps else REmpty
  | RSeq r1 r2 =>
      if nullable r1 then RAlt (RSeq (deriv c r1) r2) (deriv c r2)
      else RSeq (deriv c r1) r2
  | RAlt r1 r2 => RAlt (deriv c r1) (deriv c r2)
  | RStar r1 => RSeq (deriv c r1) (RStar r1)
  | ROpt r1 => deriv c r1
  end.

Fixpoint regex_test (r : Regex) (s : string) : bool :=
  match s with
  | EmptyString => nullable r
  | String c s' => regex_test (deriv c r) s'
  end.

(** The strings a pattern stands for. *)
Inductive lang : Regex -> string -> Prop :=
| lang_eps : lang REps ""
| lang_char c : lang (RChar c) (String c "")
| lang_digit c : is_digit c = true -> lang RDigit (String c "")
| lang_seq r1 r2 s1 s2 : lang r1 s1 -> lang r2 s2 -> lang (RSeq r1 r2) (s1 +:+ s2)
| lang_alt_l r1 r2 s : lang r1 s -> lang (RAlt r1 r2) s
| lang_alt_r r1 r2 s : lang r2 s -> lang (RAlt r1 r2) s
| lang_star_nil r : lang (RStar r) ""
| lang_star_cons r s1 s2 : lang r s1 -> lang (RStar r) s2 -> lang (RStar r) (s1 +:+ s2)
| lang_opt_none r : lang (ROpt r) ""
| lang_opt_some r s : lang r s -> lang (ROpt r) s.

Fixpoint all_digits (s : string) : bool :=
  match s with
  | EmptyString => true
  | String c s' => is_digit c && all_digits s'
  end.

(** Digits, with at most one point among them. *)
Definition decimal_text (s : string) : Prop :=
  exists a b, all_digits a = true /\ all_digits b = true /\
              (s = a +:+ b \/ s = a +:+ "." +:+ b).

(* ===================================================================== *)
(** ** src/components/WLDDonationForm.tsx: the other handlers              *)
(* ===================================================================== *)

(** [a?.k] *)
Definition get_opt (v : JsVal) (k : string) : JsVal :=
  match v with
  | JObj fields => match assoc k fields with Some x => x | None => JUndefined end
  | _ => JUndefined
  end.

Module WLDDonationFormHandlers.
Section WithPlatform.
Context {S : Storage}.
Variable P : Platform.

Definition VERIFYING : string := "WLDDonationForm.verifying".

(** [/^\d*\.?\d*$/] *)
Definition amount_pattern : Regex :=
  RSeq (RStar RDigit) (RSeq (ROpt (RChar ".")) (RStar RDigit)).

Definition handleAmountChange (value : string) : M unit :=
  if regex_test amount_pattern value then setState WLDDonationForm.AMOUNT (JStr value)
  else ret tt.

Definition handleVerifyTransaction (txHash : string) : M unit :=
  if String.eqb txHash "" then
    setState WLDDonationForm.ERROR (JStr "Please enter a transaction hash")
  else
    setState VERIFYING (JBool true) ;;;
    setState WLDDonationForm.ERROR JNull ;;;
    try_finally
      (try_catch
         (result <- WLDPaymentService.verifyTransaction P txHash ;;
          s <- lift (get result "success") ;;
          if negb (truthy s) then
            e <- lift (get result "error") ;;
            (err <- lift (new_Error P (js_or e (JStr "Transaction verification failed"))) ;; throw err)
          else
            transaction <- lift (get result "transaction") ;;
            if negb (strict_eq_string (get_opt transaction "status") "confirmed") then
              throw (mkError "Transaction is not confirmed yet. Please wait and try again.")
            else
              let amount := get_opt transaction "amount" in
              if truthy amount
              then
                amountText <- lift (ToString (NumberToString P) amount) ;;
                setState WLDDonationForm.AMOUNT (JStr amountText)
              else ret tt)
         (fun err => setState WLDDonationForm.ERROR (message_or err "Failed to verify transaction")))
      (setState VERIFYING (JBool false)).
End WithPlatform.
End WLDDonationFormHandlers.

(* ===================================================================== *)
(** ** CreateCampaignForm.tsx: the fields                                  *)
(* ===================================================================== *)

(** [{ ...prev, [name]: v }]: an own key keeps its place, a new one goes to
    the end. *)
Fixpoint set_field (name : string) (v : JsVal) (prev : list (string * JsVal))
    : list (string * JsVal) :=
  match prev with
  | [] => [(name, v)]
  | (k, x) :: rest =>
      if String.eqb name k then (k, v) :: rest else (k, x) :: set_field name v rest
  end.

(** [e.target] as far as [onChange] reads it. *)
Record ChangeEvent : Type := mkChangeEvent {
  target_name : string;
  target_value : string;
  target_type : string
}.

Module CreateCampaignFormFields.
Section WithPlatform.
Context {S : Storage}.
Variable P : Platform.

Definition MAX_TITLE_LENGTH : nat := 70.
Definition MAX_DESCRIPTION_LENGTH : nat := 750.

(** The initial [form] of [useState]. *)
Definition initial_form : list (string * JsVal) :=
  [("title", JStr ""); ("goal", JNum PrimFloat.zero); ("description", JStr "");
   ("image", JStr "")].

(** [onChange], as the function from the previous [form] to the next. *)
Definition onChange (e : ChangeEvent) (prev : list (string * JsVal)) : list (string * JsVal) :=
  if String.eqb (target_name e) "title" && (MAX_TITLE_LENGTH <? String.length (target_value e))%nat
  then prev
  else if String.eqb (target_name e) "description" &&
          (MAX_DESCRIPTION_LENGTH <? String.length (target_value e))%nat
  then prev
  else set_field (target_name e)
         (if String.eqb (target_type e) "number"
          then JNum (StringToNumber P (target_value e))
          else JStr (target_value e))
         prev.

(** The four inputs of the form: [name] and [type] of each. *)
Definition inputs : list (string * string) :=
  [("title", "text"); ("goal", "number"); ("description", "textarea"); ("image", "url")].

Definition from_input (e : ChangeEvent) : Prop :=
  In (target_name e, target_type e) inputs.

(** The form after a sequence of change events. *)
Definition form_after (events : list ChangeEvent) : list (string * JsVal) :=
  fold_left (fun form e => onChange e form) events initial_form.
End WithPlatform.
End CreateCampaignFormFields.

(** The request that creates a campaign. *)
Definition create_request (P : Platform) (form : CampaignPayload) (req : Request) : Prop :=
  url req = CampaignService.API_BASE P +:+ "/campaigns" /\
  method req = "POST" /\ body req = Some (payload_json form).

(** [await res.json().catch(() => ({}))], as a value. *)
Definition body_or_empty (res : Response) : JsVal :=
  match json res with Ret b => b | Throw _ => JObj [] end.

(** The backend answers [req], sent when [k] requests have been sent before
    it, with an OK status, and [id] is the [id] of its body (of [{}] when
    the body does not parse). *)
Definition created (P : Platform) (k : nat) (req : Request) (id : JsVal) : Prop :=
  exists res, network P k req = Ret res /\ ok res = true /\
              get (body_or_empty res) "id" = Ret id.

(** A 2xx answer whose body is not JSON, or is a value whose [id] is
    missing or falsy. *)
Definition accepted_without_id (res : Response) : Prop :=
  ok res = true /\
  ((exists e, json res = Throw e) \/
   exists data v, json res = Ret data /\ get data "id" = Ret v /\ truthy v = false).

Definition created_no_id : Response := response_with 201 (JObj [("ok", JBool true)]).

(* ===================================================================== *)
(** ** src/pages/LandingPage.tsx: the helper functions                     *)
(* ===================================================================== *)

Module LandingPageHelpers.

(** [calculateProgressPercentage], without the ['%'] it appends: ['0%']
    is [RInt 0]. *)
Definition calculateProgressPercentage (raised goal : float) : Progress.Rounded :=
  if PrimFloat.leb goal PrimFloat.zero then Progress.RInt 0
  else Progress.progressPercentage raised goal.

(** [s.slice(-n)] *)
Definition slice_last (n : nat) (s : string) : string :=
  String.substring (String.length s - n) n s.

(** [s.slice(0, n)] is [String.substring 0 n s]. *)
Definition formatAddress (address : string) : string :=
  if String.eqb address "" then "Anonymous"
  else String.substring 0 6 address +:+ "..." +:+ slice_last 4 address.

(** [isActivePath], for the [location.pathname] of the render. *)
Definition isActivePath (pathname path : string) : bool :=
  String.eqb pathname path ||
  (String.eqb path "/" && String.eqb pathname "/landing") ||
  (String.eqb path "/campaigns" && String.prefix "/campaigns/" pathname).

End LandingPageHelpers.

(* ===================================================================== *)
(** ** src/main.tsx and the App ID of MiniKitProvider                      *)
(* ===================================================================== *)

(** The same platform with another environment. *)
Definition with_env (P : Platform) (E : Env) : Platform :=
  mkPlatform E (network P) (atob P) (JSON_parse P) (Date_now P) (NumberToString P)
    (StringToNumber P) (MiniKit P) (NumberToString16 P) (parseFloat P) (Math_random P).

Module Main.

(** [if (envAppId) window.__ENV__ = { ...(window.__ENV__ || {}), WORLD_APP_ID: envAppId }] *)
Definition inject (E : Env) : Env :=
  let envAppId := env_or (VITE_WORLD_APP_ID E) (VITE_WORLD_ID_APP_ID E) in
  if env_truthy envAppId
  then mkEnv (VITE_AMPLIFY_API E) (VITE_APP_BACKEND_API_URL E) (VITE_WORLD_APP_API E)
         (VITE_APP_BACKEND_API_KEY E) (VITE_WORLD_APP_ID E) (VITE_WORLD_ID_APP_ID E)
         envAppId (DEV E)
  else E.

End Main.

(** [a || fallback], for a fallback that is a string. *)
Definition or_string (a : option string) (fallback : string) : string :=
  match a with
  | Some s => if String.eqb s "" then fallback else s
  | None => fallback
  end.

Module MiniKitProviderAppId.

(** The first effect of [MiniKitProvider]: the value it gives to
    [setAppIdToUse].  [appId] is the prop and [WORLD_APP_ID] is
    [import.meta.env.WORLD_APP_ID]; the prop is taken when truthy, then
    [window.__ENV__?.WORLD_APP_ID], then the environment, then the
    default. *)
Definition determinedAppId (appId : option string) (E : Env) (WORLD_APP_ID : option string)
    : string :=
  let envAppId :=
    env_or (VITE_WORLD_APP_ID E) (env_or (VITE_WORLD_ID_APP_ID E) WORLD_APP_ID) in
  let globalEnvAppId := window_ENV_WORLD_APP_ID E in
  or_string appId
    (or_string globalEnvAppId (or_string envAppId MiniKitProvider.DEFAULT_APP_ID)).

End MiniKitProviderAppId.

(* ===================================================================== *)
(** ** src/components/CampaignDetail.tsx: loading and what is rendered     *)
(* ===================================================================== *)

(** The three cells the page is chosen from; initially
    [campaign = null], [loading = true], [error = null]. *)
Record DetailState : Type := mkDetailState {
  detail_campaign : JsVal;
  detail_loading : bool;
  detail_error : JsVal
}.

Inductive DetailView : Type :=
| VLoading
| VError (e : JsVal)
| VNotFound
| VCampaign (c : JsVal).

Module CampaignDetailLoad.
Section WithPlatform.
Context {S : Storage}.
Variable P : Platform.

Definition LOADING : string := "CampaignDetail.loading".
Definition ERROR : string := "CampaignDetail.error".

(** The effect that runs when [id] changes. *)
Definition fetchCampaign (id : string) : M unit :=
  setState LOADING (JBool true) ;;;
  try_finally
    (try_catch
       (result <- CampaignService.fetchCampaign P id ;;
        s <- lift (get result "success") ;;
        c <- lift (get result "campaign") ;;
        if truthy s && truthy c then setState CampaignDetail.CAMPAIGN c
        else
          e <- lift (get result "error") ;;
          setState ERROR (js_or e (JStr "Failed to load campaign")))
       (fun err => setState ERROR (message_or err "An error occurred while fetching campaign")))
    (setState LOADING (JBool false)).

(** [handleDonationSuccess] of the updated component. *)
Definition handleDonationSuccess (id : string) : M unit :=
  try_catch
    (result <- CampaignService.fetchCampaign P id ;;
     s <- lift (get result "success") ;;
     c <- lift (get result "campaign") ;;
     if truthy s && truthy c then setState CampaignDetail.CAMPAIGN c else ret tt)
    (fun _ => ret tt).

(** The cells after the setters recorded in a trace. *)
Fixpoint after (t : list Event) (s : DetailState) : DetailState :=
  match t with
  | [] => s
  | ESetState cell v :: t' =>
      after t'
        (if String.eqb cell CampaignDetail.CAMPAIGN
         then mkDetailState v (detail_loading s) (detail_error s)
         else if String.eqb cell LOADING
         then mkDetailState (detail_campaign s) (truthy v) (detail_error s)
         else if String.eqb cell ERROR
         then mkDetailState (detail_campaign s) (detail_loading s) v
         else s)
  | _ :: t' => after t' s
  end.

(** The early returns of the component, in their order. *)
Definition render (s : DetailState) : DetailView :=
  if detail_loading s then VLoading
  else if truthy (detail_error s) then VError (detail_error s)
  else if negb (truthy (detail_campaign s)) then VNotFound
  else VCampaign (detail_campaign s).
End WithPlatform.
End CampaignDetailLoad.

(* ===================================================================== *)
(** ** src/components/EditCampaignForm.tsx: loading the form               *)
(* ===================================================================== *)

Module EditCampaignFormLoad.
Section WithPlatform.
Context {S : Storage}.
Variable P : Platform.

Definition LOADING : string := "EditCampaignForm.loading".
Definition CAMPAIGN : string := "EditCampaignForm.campaign".
Definition FORM_DATA : string := "EditCampaignForm.formData".

(** The object given to [setFormData] for a loaded campaign. *)
Definition formData_of (campaign : JsVal) : M JsVal :=
  title <- lift (get campaign "title") ;;
  description <- lift (get campaign "description") ;;
  goal <- lift (get campaign "goal") ;;
  image <- lift (get campaign "image") ;;
  status <- lift (get campaign "status") ;;
  ret (JObj [("title", title); ("description", description); ("goal", goal);
             ("image", js_or image (JStr "")); ("status", status)]).

Definition fetchCampaign (id : string) : M unit :=
  setState LOADING (JBool true) ;;;
  try_finally
    (try_catch
       (result <- CampaignService.fetchCampaign P id ;;
        s <- lift (get result "success") ;;
        c <- lift (get result "campaign") ;;
        if truthy s && truthy c then
          setState CAMPAIGN c ;;;
          formData <- formData_of c ;;
          setState FORM_DATA formData
        else
          e <- lift (get result "error") ;;
          setState EditCampaignForm.ERROR (js_or e (JStr "Failed to load campaign")))
       (fun err =>
          setState EditCampaignForm.ERROR
            (message_or err "An error occurred while fetching campaign")))
    (setState LOADING (JBool false)).
End WithPlatform.
End EditCampaignFormLoad.

(** The five fields the edit form keeps of a campaign. *)
Definition edited_fields (campaign : JsVal) : JsVal :=
  JObj [("title", get_opt campaign "title");
        ("description", get_opt campaign "description");
        ("goal", get_opt campaign "goal");
        ("image", js_or (get_opt campaign "image") (JStr ""));
        ("status", get_opt campaign "status")].

Definition stored_campaign : JsVal :=
  JObj [("id", JStr "c1"); ("title", JStr "Clean water"); ("description", JStr "A well");
        ("goal", JNum 40%float); ("raised", JNum 23%float); ("ownerId", JStr "0xabc");
        ("status", JStr "active"); ("donations", JArr [])].

(* ===================================================================== *)
(** ** src/components/CampaignTracker.tsx: the statistics                  *)
(* ===================================================================== *)

(** The campaigns are taken at their TypeScript type ([Campaign] and
    [Donation] of CampaignService.ts), with the fields the statistics
    read. *)
Module CampaignTracker.

Record Donation : Type := mkDonation { donor : string }.

Record Campaign : Type := mkCampaign {
  raised : float;
  status : string;
  donations : list Donation
}.

Record Stats : Type := mkStats {
  totalCampaigns : nat;
  totalRaised : float;
  activeCampaigns : nat;
  totalContributors : nat
}.

(** [campaigns.reduce((sum, c) => sum + (c.raised || 0), 0)] *)
Definition totalRaised_of (campaigns : list Campaign) : float :=
  fold_left
    (fun sum c =>
       PrimFloat.add sum (if truthy (JNum (raised c)) then raised c else PrimFloat.zero))
    campaigns PrimFloat.zero.

(** [campaigns.filter(c => c.status === 'active').length] *)
Fixpoint activeCampaigns_of (campaigns : list Campaign) : nat :=
  match campaigns with
  | [] => 0
  | c :: rest =>
      if String.eqb (status c) "active" then S (activeCampaigns_of rest)
      else activeCampaigns_of rest
  end.

(** The [Set] filled by the two nested [forEach]. *)
Definition allContributors (campaigns : list Campaign) : gset string :=
  fold_left
    (fun acc campaign =>
       fold_left (fun acc donation => {[donor donation]} ∪ acc) (donations campaign) acc)
    campaigns ∅.

(** The object given to [setStats]. *)
Definition stats_of (campaigns : list Campaign) : Stats :=
  mkStats (length campaigns) (totalRaised_of campaigns) (activeCampaigns_of campaigns)
    (size (allContributors campaigns)).

(** Every donor of every campaign, in order, with repetitions. *)
Definition donors (campaigns : list Campaign) : list string :=
  concat (map (fun c => map donor (donations c)) campaigns).

End CampaignTracker.

(* ===================================================================== *)
(** ** What signing in does to the session                                 *)
(* ===================================================================== *)

(** From [w] to [w'] nobody has been signed in: the user is as
    authenticated as before, and localStorage is untouched, or has gained the
    token key alone because the backend accepted the signature (the second
    request of the handshake) with an address that cannot be converted to a
    string. *)
Definition not_signed_in (P : Platform) (w w' : World) : Prop :=
  isAuthenticated (authState w') = isAuthenticated (authState w) /\
  (localStorage w' = localStorage w \/
   exists req tok addr t,
     verified_at P (fetch_count (trace w) + 1) req tok addr /\
     ToString (NumberToString P) tok = Ret t /\ ~ convertible P addr /\
     sets_token_only (localStorage w) (localStorage w') t).

(** From [w] to [w'] the user has been signed in: the state is
    authenticated with a truthy token and address, and both keys have been
    written with them. *)
Definition signed_in (P : Platform) (w w' : World) : Prop :=
  isAuthenticated (authState w') = true /\
  truthy (sessionToken (authState w')) = true /\
  truthy (walletAddress (authState w')) = true /\
  exists t a,
    ToString (NumberToString P) (sessionToken (authState w')) = Ret t /\
    ToString (NumberToString P) (walletAddress (authState w')) = Ret a /\
    sets_both (localStorage w) (localStorage w') t a.

(* ===================================================================== *)
(** * Theorems *)
(* ===================================================================== *)

Ltac break_match :=
  match goal with
  | |- context [match ?x with _ => _ end] =>
      lazymatch x with
      | context [match _ with _ => _ end] => fail
      | _ => destruct x eqn:?
      end
  end.

Create HintDb monad discriminated.
Create HintDb js discriminated.
Create HintDb ui discriminated.
#[local] Hint Unfold ret throw bind try_catch try_finally lift emit fetch getItem setItem
  removeItem setAuthState setState failure success_only message_or new_Error
  appends result_of storage_after js_or js_and : monad.
#[local] Hint Unfold AuthService.errorBody_of AuthService.getNonce
  AuthService.verifyWalletSignature AuthService.verifyWorldIdProof AuthService.logout
  AuthService.checkAuthStatus AuthService.verifyToken AuthService.invalid : js.
#[local] Hint Unfold CampaignService.json_or_empty
  CampaignService.throw_status CampaignService.createCampaign
  CampaignService.fetchAllCampaigns CampaignService.fetchCampaign
  CampaignService.updateCampaign CampaignService.deleteCampaign
  CampaignService.recordDonation CampaignService.fetchUserCampaigns : js.
#[local] Hint Unfold WLDPaymentService.getApiBase
  WLDPaymentService.donateWLD WLDPaymentService.getDonationInstructions
  WLDPaymentService.verifyTransaction : js.
#[local] Hint Unfold MiniKitProvider.triggerMiniKitWalletAuth : js.
#[local] Hint Unfold AuthContext.storeSessionData AuthContext.getStoredSessionData
  AuthContext.clearStoredSessionData AuthContext.login AuthContext.getNonceForMiniKit
  AuthContext.loginWithWallet AuthContext.logout AuthContext.checkSession : ui.

Ltac reduce :=
  cbn [fst snd trace localStorage authState message String.eqb Ascii.eqb Bool.eqb
       get assoc js_or truthy failure success_only
       access_fault quota_fault accessible ToString ToNumber] in *.

(** ** The headers of the three services *)

Lemma requests_app t1 t2 : requests (t1 ++ t2) = requests t1 ++ requests t2.
Proof.
  induction t1 as [|e t1 IH]; [reflexivity|].
  destruct e; cbn [app requests]; rewrite IH; reflexivity.
Qed.

Lemma truthy_JStr s : truthy (JStr s) = negb (String.eqb s "").
Proof. reflexivity. Qed.

Ltac headers_cases P w :=
  unfold api_key_header, authorization_header, js_or, js_and;
  autounfold with js monad; reduce;
  repeat match goal with
    | |- context [localStorage w !! ?k] => destruct (localStorage w !! k) as [?t|]
    | |- context [truthy (JStr ?t)] => rewrite (truthy_JStr t)
    | |- context [String.eqb ?t ""] => destruct (String.eqb t "") eqn:?
    | |- context [env_truthy ?k] => destruct (env_truthy k) eqn:?
    | |- context [match ?k with Some _ => _ | None => _ end] => destruct k eqn:?
    | _ => progress cbn -[String.append]
    end;
  try discriminate;
  eexists; (split; [reflexivity|]); cbn; auto.

Lemma AuthService_getHeaders_run P includeAuth w :
  exists hs, AuthService.getHeaders P includeAuth w = (Ret hs, w) /\
    assoc "Content-Type" hs = Some "application/json" /\
    assoc "x-api-key" hs = api_key_header (AuthService.API_KEY P) /\
    assoc "Authorization" hs = if includeAuth then authorization_header w else None.
Proof.
  unfold AuthService.getHeaders. destruct includeAuth; headers_cases P w.
Qed.

Lemma CampaignService_getHeaders_run P w :
  exists hs, CampaignService.getHeaders P w = (Ret hs, w) /\
    assoc "Content-Type" hs = Some "application/json" /\
    assoc "x-api-key" hs = api_key_header (CampaignService.API_KEY P) /\
    assoc "Authorization" hs = authorization_header w.
Proof.
  unfold CampaignService.getHeaders, AuthService.checkAuthStatus. headers_cases P w.
Qed.

Lemma WLDPaymentService_getHeaders_run P w :
  exists hs, WLDPaymentService.getHeaders P w = (Ret hs, w) /\
    assoc "Content-Type" hs = Some "application/json" /\
    assoc "x-api-key" hs = api_key_header (VITE_WORLD_APP_API (env P)) /\
    assoc "Authorization" hs = authorization_header w.
Proof.
  unfold WLDPaymentService.getHeaders, AuthService.checkAuthStatus. headers_cases P w.
Qed.

Ltac use_headers :=
  match goal with
  | |- context [AuthService.getHeaders ?P ?b ?w] =>
      destruct (AuthService_getHeaders_run P b w) as (?hs & -> & ?Hct & ?Hkey & ?Hauth)
  | |- context [CampaignService.getHeaders ?P ?w] =>
      destruct (CampaignService_getHeaders_run P w) as (?hs & -> & ?Hct & ?Hkey & ?Hauth)
  | |- context [WLDPaymentService.getHeaders ?P ?w] =>
      destruct (WLDPaymentService_getHeaders_run P w) as (?hs & -> & ?Hct & ?Hkey & ?Hauth)
  end.

(** Run a program symbolically: unfold it, then split on every answer of the
    platform and every test the code makes. *)
Ltac exec :=
  autounfold with js monad; reduce;
  repeat (first [use_headers | break_match]; reduce; try discriminate).

Ltac shape_solve :=
  eexists _, _; split;
  [ rewrite <- ?app_assoc; reflexivity
  | unfold request_to; cbn [url headers]; repeat split; auto using Endpoint ].

(** ** What one invocation of a service method does to the world *)


Lemma getNonce_shape P w :
  one_request (AuthService.getNonce P) w
    (request_to (AuthService.API_BASE P) "/auth/nonce"
       (api_key_header (AuthService.API_KEY P)) None).
Proof. unfold one_request. exec; shape_solve. Qed.

Lemma verifyWorldIdProof_shape P proof w :
  one_request (AuthService.verifyWorldIdProof P proof) w
    (request_to (AuthService.API_BASE P) "/verify-worldid"
       (api_key_header (AuthService.API_KEY P)) (authorization_header w)).
Proof. unfold one_request. exec; shape_solve. Qed.

Lemma createCampaign_shape P payload w :
  one_request (CampaignService.createCampaign P payload) w
    (request_to (CampaignService.API_BASE P) "/campaigns"
       (api_key_header (CampaignService.API_KEY P)) (authorization_header w)).
Proof. unfold one_request. exec; shape_solve. Qed.

Lemma fetchAllCampaigns_shape P w :
  one_request (CampaignService.fetchAllCampaigns P) w
    (request_to (CampaignService.API_BASE P) "/campaigns"
       (api_key_header (CampaignService.API_KEY P)) (authorization_header w)).
Proof. unfold one_request. exec; shape_solve. Qed.

Lemma fetchCampaign_shape P id w :
  one_request (CampaignService.fetchCampaign P id) w
    (request_to (CampaignService.API_BASE P) ("/campaigns/" +:+ id)
       (api_key_header (CampaignService.API_KEY P)) (authorization_header w)).
Proof. unfold one_request. exec; shape_solve. Qed.

Lemma updateCampaign_shape P id payload w :
  one_request (CampaignService.updateCampaign P id payload) w
    (request_to (CampaignService.API_BASE P) ("/campaigns/" +:+ id)
       (api_key_header (CampaignService.API_KEY P)) (authorization_header w)).
Proof. unfold one_request. exec; shape_solve. Qed.

Lemma deleteCampaign_shape P id w :
  one_request (CampaignService.deleteCampaign P id) w
    (request_to (CampaignService.API_BASE P) ("/campaigns/" +:+ id)
       (api_key_header (CampaignService.API_KEY P)) (authorization_header w)).
Proof. unfold one_request. exec; shape_solve. Qed.

Lemma recordDonation_shape P id amount txHash w :
  one_request (CampaignService.recordDonation P id amount txHash) w
    (request_to (CampaignService.API_BASE P) ("/campaigns/" +:+ id +:+ "/donate")
       (api_key_header (CampaignService.API_KEY P)) (authorization_header w)).
Proof. unfold one_request. exec; shape_solve. Qed.

Lemma fetchUserCampaigns_shape P address w :
  one_request (CampaignService.fetchUserCampaigns P address) w
    (request_to (CampaignService.API_BASE P) ("/users/" +:+ address +:+ "/campaigns")
       (api_key_header (CampaignService.API_KEY P)) (authorization_header w)).
Proof. unfold one_request. exec; shape_solve. Qed.

(** [verifyWalletSignature] ends in one of three ways.  It fails and leaves
    localStorage alone: then the answer was not an OK response with a truthy
    [token] and a truthy [walletAddress], or the token could not be converted
    to a string.  Or the answer was such a response and the token was stored,
    but the address could not be converted: it fails with the token key
    written.  Or both were stored, in this order, and it succeeds. *)
Lemma verifyWalletSignature_shape P payload nonce w :
  exists req, verify_request P payload nonce req /\
    ((exists e,
        AuthService.verifyWalletSignature P payload nonce w =
          (Ret (failure e),
           mkWorld (localStorage w) (authState w) (trace w ++ [EFetch req; ESettled])) /\
        forall tok addr, verified P w req tok addr ->
          exists err, ToString (NumberToString P) tok = Throw err)
     \/
     (exists tok addr t err,
        verified P w req tok addr /\
        ToString (NumberToString P) tok = Ret t /\
        ToString (NumberToString P) addr = Throw err /\
        AuthService.verifyWalletSignature P payload nonce w =
          (Ret (failure (message_or err "Network error during verification")),
           mkWorld (<[SESSION_TOKEN_KEY := t]> (localStorage w)) (authState w)
                   (trace w ++ [EFetch req; ESettled; ESetItem SESSION_TOKEN_KEY t])))
     \/
     (exists tok addr t a,
        verified P w req tok addr /\
        ToString (NumberToString P) tok = Ret t /\
        ToString (NumberToString P) addr = Ret a /\
        AuthService.verifyWalletSignature P payload nonce w =
          (Ret (JObj [("success", JBool true); ("token", tok); ("walletAddress", addr)]),
           mkWorld (<[WALLET_ADDRESS_KEY := a]> (<[SESSION_TOKEN_KEY := t]> (localStorage w)))
                   (authState w)
                   (trace w ++ [EFetch req; ESettled;
                                ESetItem SESSION_TOKEN_KEY t;
                                ESetItem WALLET_ADDRESS_KEY a])))).
Proof.
  unfold verify_request, verified, verified_at. exec; (eexists; split; cycle 1).
  all: rewrite <- ?app_assoc; cbn [app].
  all: repeat match goal with
         | H : negb _ = true |- _ => apply negb_true_iff in H
         | H : negb _ = false |- _ => apply negb_false_iff in H
         end.
  all: try solve
    [ right; right; do 4 eexists; split;
      [ do 2 eexists; repeat (split; [eassumption|]); eassumption
      | repeat (split; [eassumption|]); reflexivity ]
    | right; left; do 4 eexists; split;
      [ do 2 eexists; repeat (split; [eassumption|]); eassumption
      | repeat (split; [eassumption|]);
        match goal with H : String.eqb (message _) _ = _ |- _ => rewrite H end;
        reflexivity ]
    | left; eexists; split; [ reflexivity | ];
      intros ? ? (? & ? & ? & ? & ? & ? & ? & ? & ?);
      repeat match goal with
        | H : ?a = _, H' : ?a = _ |- _ => rewrite H in H'; inversion H'; subst; clear H'
        end;
      try congruence; eauto ].
  all: unfold request_to; cbn [url headers method body]; repeat split; auto using Endpoint.
Qed.

Lemma donateWLD_shape P id amount txHash w :
  exists r new,
    WLDPaymentService.donateWLD P id amount txHash w =
      (Ret r, mkWorld (localStorage w) (authState w) (trace w ++ new)) /\
    ((new = [] /\ env_truthy (VITE_AMPLIFY_API (env P)) = false) \/
     exists req, new = [EFetch req; ESettled] /\
       request_to (WLD_API_BASE P) ("/campaigns/" +:+ id +:+ "/donate")
         (api_key_header (VITE_WORLD_APP_API (env P))) (authorization_header w) req).
Proof.
  unfold WLD_API_BASE. destruct w as [st au t]. exec.
  all: first
    [ exists (failure (JStr "Backend API URL is not configured")), [];
      rewrite app_nil_r; split; [reflexivity | left; split; [reflexivity | assumption || reflexivity]]
    | eexists _, _; split; [rewrite <- ?app_assoc; reflexivity|];
      right; eexists; split; [reflexivity|];
      unfold request_to; cbn [url headers]; repeat split; auto using Endpoint ].
Qed.

Lemma one_request_appends c w kind :
  one_request c w kind ->
  exists r req, result_of c w = Ret r /\ appends c w [EFetch req; ESettled] /\
    storage_after c w = localStorage w /\ kind req.
Proof.
  intros (r & req & E & K). exists r, req.
  unfold result_of, appends, storage_after. rewrite E. auto.
Qed.

Lemma one_request_at_most_one c (kind : World -> Request -> Prop) :
  (forall w, one_request c w (kind w)) -> at_most_one_fetch c.
Proof.
  intros H w. destruct (one_request_appends _ _ _ (H w)) as (r & req & _ & A & _).
  exists [EFetch req; ESettled]. split; [exact A | cbn; lia].
Qed.

Lemma one_request_issues c w kind : one_request c w kind -> issues c w kind.
Proof.
  intros H. destruct (one_request_appends _ _ _ H) as (r & req & _ & A & _ & K).
  exists [EFetch req; ESettled]. split; [exact A | right; exists req; auto].
Qed.

Lemma verifyWalletSignature_appends P payload nonce w :
  exists r req rest,
    result_of (AuthService.verifyWalletSignature P payload nonce) w = Ret r /\
    appends (AuthService.verifyWalletSignature P payload nonce) w (EFetch req :: ESettled :: rest) /\
    requests rest = [] /\ verify_request P payload nonce req.
Proof.
  destruct (verifyWalletSignature_shape P payload nonce w)
    as (req & K & [(e & E & _) | [(tok & addr & t & err & _ & _ & _ & E)
                                 | (tok & addr & t & a & _ & _ & _ & E)]]);
    unfold result_of, appends; rewrite E; cbn [fst snd trace];
    eexists _, req, _;
    (split; [reflexivity | split; [reflexivity | split; [reflexivity | exact K]]]).
Qed.

(** C6. A single invocation of any of the eleven service methods issues at
    most one [fetch]: whatever the backend answers (a rejection, an error
    status, an unreadable body), the request is not issued again. *)
Theorem C6_at_most_one_fetch_per_invocation (P : Platform) :
  at_most_one_fetch (AuthService.getNonce P) /\
  (forall payload nonce, at_most_one_fetch (AuthService.verifyWalletSignature P payload nonce)) /\
  (forall proof, at_most_one_fetch (AuthService.verifyWorldIdProof P proof)) /\
  (forall payload, at_most_one_fetch (CampaignService.createCampaign P payload)) /\
  at_most_one_fetch (CampaignService.fetchAllCampaigns P) /\
  (forall id, at_most_one_fetch (CampaignService.fetchCampaign P id)) /\
  (forall id payload, at_most_one_fetch (CampaignService.updateCampaign P id payload)) /\
  (forall id, at_most_one_fetch (CampaignService.deleteCampaign P id)) /\
  (forall id amount txHash, at_most_one_fetch (CampaignService.recordDonation P id amount txHash)) /\
  (forall address, at_most_one_fetch (CampaignService.fetchUserCampaigns P address)) /\
  (forall id amount txHash, at_most_one_fetch (WLDPaymentService.donateWLD P id amount txHash)).
Proof.
  repeat apply conj.
  - eapply one_request_at_most_one; intros; eapply getNonce_shape.
  - intros payload nonce w.
    destruct (verifyWalletSignature_appends P payload nonce w)
      as (r & req & rest & _ & A & R & _).
    eexists; split; [exact A|]. unfold fetch_count. cbn. rewrite R. cbn. lia.
  - intros proof. eapply one_request_at_most_one; intros; eapply verifyWorldIdProof_shape.
  - intros payload. eapply one_request_at_most_one; intros; eapply createCampaign_shape.
  - eapply one_request_at_most_one; intros; eapply fetchAllCampaigns_shape.
  - intros id. eapply one_request_at_most_one; intros; eapply fetchCampaign_shape.
  - intros id payload. eapply one_request_at_most_one; intros; eapply updateCampaign_shape.
  - intros id. eapply one_request_at_most_one; intros; eapply deleteCampaign_shape.
  - intros id amount txHash.
    eapply one_request_at_most_one; intros; eapply recordDonation_shape.
  - intros address. eapply one_request_at_most_one; intros; eapply fetchUserCampaigns_shape.
  - intros id amount txHash w.
    destruct (donateWLD_shape P id amount txHash w)
      as (r & new & E & [[-> _] | (req & -> & _)]);
      eexists; (split; [unfold appends; rewrite E; reflexivity | cbn; lia]).
Qed.

(** ** C3: the requests of the service layer *)

(** C3, as stated, fails: with a session token in localStorage,
    [getNonce] still sends its request to [/auth/nonce] without an
    [Authorization] header (it builds its headers with [getHeaders(false)]). *)
Lemma C3_counterexample_no_bearer_on_nonce :
  localStorage world_logged_in !! SESSION_TOKEN_KEY = Some "session-abc" /\
  exists req,
    requests (trace (snd (AuthService.getNonce platform_offline world_logged_in))) = [req] /\
    url req = "https://api.worldfund.example/auth/nonce" /\
    assoc "Authorization" (headers req) = None.
Proof.
  split; [reflexivity|]. eexists; split; [reflexivity|]. split; reflexivity.
Qed.

(** C3 (amended). Every request of the service layer goes to the service's
    API base followed by one of the seven endpoint paths and carries
    [Content-Type: application/json]; [x-api-key] is attached exactly when
    the service's configured key is a non-empty string; [Authorization:
    Bearer <token>] is attached exactly when a non-empty session token is
    stored, except on [/auth/nonce] and [/auth/verify-signature], which
    never carry it. *)
Theorem C3_requests_of_the_service_layer (P : Platform) (w : World) :
  let auth := authorization_header w in
  let akey := api_key_header (AuthService.API_KEY P) in
  let ckey := api_key_header (CampaignService.API_KEY P) in
  let wkey := api_key_header (VITE_WORLD_APP_API (env P)) in
  let abase := AuthService.API_BASE P in
  let cbase := CampaignService.API_BASE P in
  issues (AuthService.getNonce P) w (request_to abase "/auth/nonce" akey None) /\
  (forall payload nonce,
     issues (AuthService.verifyWalletSignature P payload nonce) w
       (request_to abase "/auth/verify-signature" akey None)) /\
  (forall proof,
     issues (AuthService.verifyWorldIdProof P proof) w
       (request_to abase "/verify-worldid" akey auth)) /\
  (forall payload,
     issues (CampaignService.createCampaign P payload) w
       (request_to cbase "/campaigns" ckey auth)) /\
  issues (CampaignService.fetchAllCampaigns P) w (request_to cbase "/campaigns" ckey auth) /\
  (forall id,
     issues (CampaignService.fetchCampaign P id) w
       (request_to cbase ("/campaigns/" +:+ id) ckey auth)) /\
  (forall id payload,
     issues (CampaignService.updateCampaign P id payload) w
       (request_to cbase ("/campaigns/" +:+ id) ckey auth)) /\
  (forall id,
     issues (CampaignService.deleteCampaign P id) w
       (request_to cbase ("/campaigns/" +:+ id) ckey auth)) /\
  (forall id amount txHash,
     issues (CampaignService.recordDonation P id amount txHash) w
       (request_to cbase ("/campaigns/" +:+ id +:+ "/donate") ckey auth)) /\
  (forall address,
     issues (CampaignService.fetchUserCampaigns P address) w
       (request_to cbase ("/users/" +:+ address +:+ "/campaigns") ckey auth)) /\
  (forall id amount txHash,
     issues (WLDPaymentService.donateWLD P id amount txHash) w
       (request_to (WLD_API_BASE P) ("/campaigns/" +:+ id +:+ "/donate") wkey auth)).
Proof.
  cbv zeta. repeat apply conj.
  - apply one_request_issues, getNonce_shape.
  - intros payload nonce.
    destruct (verifyWalletSignature_appends P payload nonce w)
      as (r & req & rest & _ & A & R & K & _).
    eexists; split; [exact A|]. right. exists req. cbn. rewrite R. auto.
  - intros proof. apply one_request_issues, verifyWorldIdProof_shape.
  - intros payload. apply one_request_issues, createCampaign_shape.
  - apply one_request_issues, fetchAllCampaigns_shape.
  - intros id. apply one_request_issues, fetchCampaign_shape.
  - intros id payload. apply one_request_issues, updateCampaign_shape.
  - intros id. apply one_request_issues, deleteCampaign_shape.
  - intros id amount txHash. apply one_request_issues, recordDonation_shape.
  - intros address. apply one_request_issues, fetchUserCampaigns_shape.
  - intros id amount txHash.
    destruct (donateWLD_shape P id amount txHash w)
      as (r & new & E & [[-> _] | (req & -> & K)]);
      eexists; (split; [unfold appends; rewrite E; reflexivity|]).
    + left; reflexivity.
    + right; exists req; auto.
Qed.

(** ** C7: what is checked on a response body *)

Ltac exec_rw rw :=
  autounfold with js monad; reduce;
  repeat (first [use_headers | rw | break_match];
          cbn [negb] in *; reduce; try discriminate).

Ltac negb_hyps :=
  repeat match goal with
    | H : negb _ = true |- _ => apply negb_true_iff in H
    | H : negb _ = false |- _ => apply negb_false_iff in H
    end.


Lemma getNonce_on_ok P w res :
  answers P w res -> ok res = true ->
  ((exists n, result_of (AuthService.getNonce P) w =
                Ret (JObj [("success", JBool true); ("nonce", n)])) \/
   fails_with_message (AuthService.getNonce P) w) /\
  (forall n,
     result_of (AuthService.getNonce P) w = Ret (JObj [("success", JBool true); ("nonce", n)])
     <-> exists data, json res = Ret data /\ get data "nonce" = Ret n /\ truthy n = true).
Proof.
  intros H Hok. unfold fails_with_message.
  exec_rw ltac:(first [rewrite H | rewrite Hok]); negb_hyps.
  all: split;
    [ first [ left; eexists; reflexivity | right; eexists; reflexivity ]
    | intros ?; split;
      [ intros E; inversion E; subst; eauto
      | intros (data & Hj & Hg & Ht); congruence ] ].
Qed.

Lemma verifyWalletSignature_on_ok P w res payload nonce :
  answers P w res -> ok res = true ->
  ((exists t a, result_of (AuthService.verifyWalletSignature P payload nonce) w =
                  Ret (JObj [("success", JBool true); ("token", t); ("walletAddress", a)])) \/
   fails_with_message (AuthService.verifyWalletSignature P payload nonce) w) /\
  (forall t a,
     result_of (AuthService.verifyWalletSignature P payload nonce) w =
       Ret (JObj [("success", JBool true); ("token", t); ("walletAddress", a)])
     <-> exists data, json res = Ret data /\
           get data "token" = Ret t /\ truthy t = true /\
           get data "walletAddress" = Ret a /\ truthy a = true /\
           convertible P t /\ convertible P a).
Proof.
  intros H Hok. unfold fails_with_message, convertible.
  exec_rw ltac:(first [rewrite H | rewrite Hok]); negb_hyps.
  all: split;
    [ first [ left; eexists _, _; reflexivity | right; eexists; reflexivity ]
    | intros ? ?; split;
      [ intros E; inversion E; subst; eauto 12
      | intros (data & Hj & Hg & Ht & Hg' & Ht' & (s1 & Hs1) & (s2 & Hs2)); congruence ] ].
Qed.



(** ** C9: the two session keys go together *)

Lemma keys_differ : SESSION_TOKEN_KEY <> WALLET_ADDRESS_KEY.
Proof. discriminate. Qed.

Lemma sets_both_insert (st : gmap string string) t a :
  sets_both st (<[WALLET_ADDRESS_KEY := a]> (<[SESSION_TOKEN_KEY := t]> st)) t a.
Proof.
  pose proof keys_differ. repeat split.
  - rewrite lookup_insert_ne by congruence. apply lookup_insert_eq.
  - apply lookup_insert_eq.
  - intros k H1 H2. rewrite !lookup_insert_ne by congruence. reflexivity.
Qed.

Lemma sets_both_insert_twice (st : gmap string string) t a :
  sets_both st
    (<[WALLET_ADDRESS_KEY := a]> (<[SESSION_TOKEN_KEY := t]>
       (<[WALLET_ADDRESS_KEY := a]> (<[SESSION_TOKEN_KEY := t]> st)))) t a.
Proof.
  pose proof keys_differ. repeat split.
  - rewrite lookup_insert_ne by congruence. apply lookup_insert_eq.
  - apply lookup_insert_eq.
  - intros k H1 H2. rewrite !lookup_insert_ne by congruence. reflexivity.
Qed.

Lemma sets_token_only_insert (st : gmap string string) t :
  sets_token_only st (<[SESSION_TOKEN_KEY := t]> st) t.
Proof.
  split; [apply lookup_insert_eq|].
  intros k H. rewrite lookup_insert_ne by congruence. reflexivity.
Qed.

Lemma storeSessionData_writes_pair P token address w :
  exists w',
    AuthContext.storeSessionData P token address w = (Ret tt, w') /\
    authState w' = authState w /\
    requests (trace w') = requests (trace w) /\
    writes_pair P (localStorage w) (localStorage w') token address.
Proof.
  unfold AuthContext.storeSessionData, writes_pair. autounfold with monad. reduce.
  destruct (ToString (NumberToString P) token) as [t|e]; reduce.
  - destruct (ToString (NumberToString P) address) as [a|e]; reduce.
    + eexists; split; [reflexivity|]. cbn [authState trace localStorage].
      split; [reflexivity|]. split.
      * rewrite !requests_app. cbn. rewrite !app_nil_r. reflexivity.
      * apply sets_both_insert.
    + eexists; split; [reflexivity|]. cbn [authState trace localStorage].
      split; [reflexivity|]. split.
      * rewrite !requests_app. cbn. rewrite !app_nil_r. reflexivity.
      * apply sets_token_only_insert.
  - eexists; split; [reflexivity|]. auto.
Qed.

Lemma clears_both_delete (st : gmap string string) :
  clears_both st (delete WALLET_ADDRESS_KEY (delete SESSION_TOKEN_KEY st)).
Proof.
  pose proof keys_differ. repeat split.
  - rewrite lookup_delete_ne by congruence. apply lookup_delete_eq.
  - apply lookup_delete_eq.
  - intros k H1 H2. rewrite !lookup_delete_ne by congruence. reflexivity.
Qed.

Lemma clears_both_twice (st st' st'' : gmap string string) :
  clears_both st st' -> clears_both st' st'' -> clears_both st st''.
Proof.
  intros (_ & _ & H) (A & B & H'). repeat split; auto.
  intros k H1 H2. rewrite H' by assumption. auto.
Qed.

(** C9, as stated, fails: after [verifyWalletSignature] has stored a truthy
    but empty-printing token, both keys are present in localStorage and
    [checkAuthStatus] reports [isAuthenticated = false]. *)
Lemma C9_counterexample_both_present_not_authenticated :
  localStorage world_after_odd_verify !! SESSION_TOKEN_KEY = Some "" /\
  localStorage world_after_odd_verify !! WALLET_ADDRESS_KEY = Some "0xabc" /\
  result_of AuthService.checkAuthStatus world_after_odd_verify =
    Ret (JObj [("isAuthenticated", JBool false); ("token", JNull);
               ("walletAddress", JStr "0xabc")]).
Proof. repeat split; reflexivity. Qed.

Lemma checkAuthStatus_authenticated w :
  exists b t a,
    AuthService.checkAuthStatus w =
      (Ret (JObj [("isAuthenticated", JBool b); ("token", t); ("walletAddress", a)]), w) /\
    (b = true <-> both_stored_nonempty (localStorage w)).
Proof.
  unfold AuthService.checkAuthStatus, try_catch, bind, getItem, ret. reduce.
  eexists _, _, _. split; [reflexivity|].
  unfold both_stored_nonempty, js_and.
  destruct (localStorage w !! SESSION_TOKEN_KEY) as [t|];
    destruct (localStorage w !! WALLET_ADDRESS_KEY) as [a|];
    rewrite ?truthy_JStr; cbn [truthy].
  - destruct (String.eqb t "") eqn:Et; cbn [negb]; rewrite ?truthy_JStr, ?Et; cbn [negb].
    + apply String.eqb_eq in Et.
      split; [discriminate|]. intros (t' & a' & Ht & Hn & _). congruence.
    + apply String.eqb_neq in Et.
      destruct (String.eqb a "") eqn:Ea; cbn [negb].
      * apply String.eqb_eq in Ea.
        split; [discriminate|]. intros (t' & a' & _ & _ & Ha & Hn). congruence.
      * apply String.eqb_neq in Ea.
        split; [|reflexivity]. intros _. exists t, a. auto.
  - destruct (String.eqb t "") eqn:Et; cbn [negb truthy]; rewrite ?truthy_JStr, ?Et;
      cbn [negb truthy];
      (split; [discriminate|]); intros (t' & a' & _ & _ & Ha & _); discriminate.
  - split; [discriminate|]. intros (t' & a' & Ht & _); discriminate.
  - split; [discriminate|]. intros (t' & a' & Ht & _); discriminate.
Qed.

(** The token key can be left written alone: an OK verification answer whose
    [walletAddress] cannot be converted to a string makes
    [verifyWalletSignature] store the token, fail on the address and return
    [success = false]; [storeSessionData] does the same without a word. *)
Lemma session_token_stored_alone :
  result_of (AuthService.verifyWalletSignature platform_half_session signed_payload
               (JStr "c0ffee-1234-5678")) world0 =
    Ret (failure (JStr "Cannot convert object to primitive value")) /\
  localStorage world_after_half_verify !! SESSION_TOKEN_KEY = Some "tok" /\
  localStorage world_after_half_verify !! WALLET_ADDRESS_KEY = None /\
  storage_after (AuthContext.storeSessionData platform_offline (JStr "tok") unconvertible)
    world0 = <[SESSION_TOKEN_KEY := "tok"]> ∅.
Proof. repeat split; reflexivity. Qed.

(** C9 (amended). The operations that store session state
    ([storeSessionData], [login], [verifyWalletSignature] on an accepted
    answer) write the token key, then the address key, each after converting
    the value to a string: both keys are set when both conversions succeed,
    the token key alone when the address cannot be converted (and then
    [verifyWalletSignature] returns [success = false]), and neither when the
    token cannot; a [verifyWalletSignature] that fails for another reason
    writes neither.  Clearing ([clearStoredSessionData],
    [AuthService.logout], [AuthContext.logout]) removes both; and
    [checkAuthStatus] reports [isAuthenticated = true] exactly when both keys
    are stored with non-empty values.  All this is on a localStorage whose
    operations go through; where an operation itself throws, the writing
    and the clearing stop there, silently: none, one (the token) or both of
    the keys have been written or removed. *)
Theorem C9_session_keys_are_a_pair (P : Platform) (w : World) :
  (forall token address,
     writes_pair P (localStorage w)
       (storage_after (AuthContext.storeSessionData P token address) w) token address) /\
  (forall token address shouldNavigate,
     writes_pair P (localStorage w)
       (storage_after (AuthContext.login P token address shouldNavigate) w) token address) /\
  (forall payload nonce,
     (exists tok addr t a,
        result_of (AuthService.verifyWalletSignature P payload nonce) w =
          Ret (JObj [("success", JBool true); ("token", tok); ("walletAddress", addr)]) /\
        ToString (NumberToString P) tok = Ret t /\
        ToString (NumberToString P) addr = Ret a /\
        sets_both (localStorage w)
          (storage_after (AuthService.verifyWalletSignature P payload nonce) w) t a) \/
     (exists e,
        result_of (AuthService.verifyWalletSignature P payload nonce) w = Ret (failure e) /\
        storage_after (AuthService.verifyWalletSignature P payload nonce) w = localStorage w) \/
     (exists req tok addr t err,
        result_of (AuthService.verifyWalletSignature P payload nonce) w =
          Ret (failure (message_or err "Network error during verification")) /\
        verified P w req tok addr /\
        ToString (NumberToString P) tok = Ret t /\
        ToString (NumberToString P) addr = Throw err /\
        sets_token_only (localStorage w)
          (storage_after (AuthService.verifyWalletSignature P payload nonce) w) t)) /\
  clears_both (localStorage w) (storage_after AuthContext.clearStoredSessionData w) /\
  clears_both (localStorage w) (storage_after AuthService.logout w) /\
  clears_both (localStorage w) (storage_after AuthContext.logout w) /\
  (exists b t a,
     result_of AuthService.checkAuthStatus w =
       Ret (JObj [("isAuthenticated", JBool b); ("token", t); ("walletAddress", a)]) /\
     storage_after AuthService.checkAuthStatus w = localStorage w /\
     (b = true <-> both_stored_nonempty (localStorage w))) /\
  (forall (S : Storage) token address,
     result_of (AuthContext.storeSessionData P token address) w = Ret tt /\
     (storage_after (AuthContext.storeSessionData P token address) w = localStorage w \/
      (exists t,
         sets_token_only (localStorage w)
           (storage_after (AuthContext.storeSessionData P token address) w) t) \/
      (exists t a,
         sets_both (localStorage w)
           (storage_after (AuthContext.storeSessionData P token address) w) t a))) /\
  (forall S : Storage,
     result_of AuthContext.clearStoredSessionData w = Ret tt /\
     (storage_after AuthContext.clearStoredSessionData w = localStorage w \/
      clears_token_only (localStorage w) (storage_after AuthContext.clearStoredSessionData w) \/
      clears_both (localStorage w) (storage_after AuthContext.clearStoredSessionData w))).
Proof.
  split; [|split; [|split; [|split; [|split; [|split; [|split; [|split]]]]]]].
  - intros token address.
    destruct (storeSessionData_writes_pair P token address w) as (w' & E & _ & _ & H).
    unfold storage_after. rewrite E. exact H.
  - intros token address shouldNavigate.
    destruct (storeSessionData_writes_pair P token address w) as (w' & E & _ & _ & H).
    unfold storage_after, AuthContext.login, bind. rewrite E.
    destruct shouldNavigate; exact H.
  - intros payload nonce.
    destruct (verifyWalletSignature_shape P payload nonce w)
      as (req & K & [(e & E & _) | [(tok & addr & t & err & V & Ht & Ha & E)
                                   | (tok & addr & t & a & V & Ht & Ha & E)]]);
      unfold result_of, storage_after; rewrite E; cbn [fst snd localStorage].
    + right; left. eauto.
    + right; right. exists req, tok, addr, t, err.
      repeat (split; [first [reflexivity | assumption]|]). apply sets_token_only_insert.
    + left. exists tok, addr, t, a.
      repeat (split; [first [reflexivity | assumption]|]). apply sets_both_insert.
  - apply clears_both_delete.
  - apply clears_both_delete.
  - unfold storage_after, AuthContext.logout, AuthContext.clearStoredSessionData.
    autounfold with js monad. reduce.
    exact (clears_both_twice _ _ _ (clears_both_delete _) (clears_both_delete _)).
  - destruct (checkAuthStatus_authenticated w) as (b & t & a & E & H).
    exists b, t, a. unfold result_of, storage_after. rewrite E. auto.
  - intros S token address.
    unfold result_of, storage_after, AuthContext.storeSessionData. autounfold with monad.
    repeat (break_match; cbn [fst snd localStorage authState trace] in *);
      (split; [reflexivity|]);
      first [ left; reflexivity
            | right; left; eexists; apply sets_token_only_insert
            | right; right; eexists _, _; apply sets_both_insert ].
  - intros S.
    unfold result_of, storage_after, AuthContext.clearStoredSessionData. autounfold with monad.
    repeat (break_match; cbn [fst snd localStorage authState trace] in *);
      (split; [reflexivity|]);
      first [ left; reflexivity
            | right; left; split;
              [ apply lookup_delete_eq
              | intros k Hk; rewrite lookup_delete_ne by congruence; reflexivity ]
            | right; right; apply clears_both_delete ].
Qed.

(** ** C10: verifyToken *)

(** C10, as stated, fails: a token whose payload has [exp = 0] (present, and
    [exp * 1000 < Date.now()]) and a wallet address is reported valid, since
    the expiry test is guarded by the truthiness of [exp]. *)
Lemma C10_counterexample_exp_zero :
  split_on "." token_exp0 =
    ["eyJhbGciOiJIUzI1NiJ9"; "eyJleHAiOjAsIndhbGxldEFkZHJlc3MiOiIweGFiYyJ9"; "c2ln"] /\
  atob platform_jwt "eyJleHAiOjAsIndhbGxldEFkZHJlc3MiOiIweGFiYyJ9" = Ret (payload_text "0") /\
  JSON_parse platform_jwt (payload_text "0") = Ret payload_exp0 /\
  has_field payload_exp0 "exp" = true /\
  expired platform_jwt (JNum 0%float) = Ret true /\
  result_of (AuthService.verifyToken platform_jwt token_exp0) world0 =
    Ret (JObj [("isValid", JBool true); ("walletAddress", JStr "0xabc")]).
Proof. repeat split; reflexivity. Qed.

Ltac eqb_hyps :=
  repeat match goal with
    | H : String.eqb _ _ = true |- _ => apply String.eqb_eq in H
    | H : String.eqb _ _ = false |- _ => apply String.eqb_neq in H
    end.

Lemma verifyToken_cases P token w :
  snd (AuthService.verifyToken P token w) = w /\
  ((exists a, result_of (AuthService.verifyToken P token) w =
                Ret (JObj [("isValid", JBool true); ("walletAddress", a)])) \/
   (exists s, result_of (AuthService.verifyToken P token) w =
                Ret (JObj [("isValid", JBool false); ("error", JStr s)]))).
Proof.
  unfold AuthService.verifyToken.
  destruct (split_on "." token) as [|p0 [|p1 [|p2 [|p3 l]]]] eqn:Hs;
    cbn [length Nat.eqb negb nth].
  all: exec.
  all: split; [reflexivity|].
  all: first [ left; eexists; reflexivity | right; eexists; reflexivity ].
Qed.

(** C10 (amended). [verifyToken] never throws and changes nothing; it
    returns [isValid = true] with the payload's [walletAddress] exactly when
    the token splits on ['.'] into three parts with a non-empty middle one,
    that part decodes ([atob]) to text that parses ([JSON.parse]) to a value
    on which properties can be read, [exp] is falsy (absent, [0], [null],
    ...) or converts to a number that satisfies
    [not (exp * 1000 < Date.now())], and [walletAddress] is truthy; in every
    other case it returns [isValid = false] with a string [error].  A truthy
    [exp] that cannot be converted to a number (an object with a [toString]
    member of its own) is such a case: the multiplication throws and the
    token is refused with the message of the [TypeError]. *)
Theorem C10_verifyToken (P : Platform) (token : string) (w : World) :
  snd (AuthService.verifyToken P token w) = w /\
  ((exists a, result_of (AuthService.verifyToken P token) w =
                Ret (JObj [("isValid", JBool true); ("walletAddress", a)])) \/
   (exists s, result_of (AuthService.verifyToken P token) w =
                Ret (JObj [("isValid", JBool false); ("error", JStr s)]))) /\
  (forall a,
     result_of (AuthService.verifyToken P token) w =
       Ret (JObj [("isValid", JBool true); ("walletAddress", a)])
     <-> exists p0 p1 p2 decoded payload exp,
           split_on "." token = [p0; p1; p2] /\ p1 <> "" /\
           atob P p1 = Ret decoded /\
           JSON_parse P decoded = Ret payload /\
           get payload "exp" = Ret exp /\
           (truthy exp = false \/ expired P exp = Ret false) /\
           get payload "walletAddress" = Ret a /\ truthy a = true) /\
  (forall p0 p1 p2 decoded payload exp e,
     split_on "." token = [p0; p1; p2] -> p1 <> "" ->
     atob P p1 = Ret decoded ->
     JSON_parse P decoded = Ret payload ->
     get payload "exp" = Ret exp ->
     truthy exp = true -> expired P exp = Throw e ->
     result_of (AuthService.verifyToken P token) w =
       Ret (AuthService.invalid (message_or e "Network error during token validation"))) /\
  expired P unconvertible = Throw TypeError_primitive.
Proof.
  set (u := expired P unconvertible).
  unfold expired, AuthService.verifyToken.
  destruct (split_on "." token) as [|p0 [|p1 [|p2 [|p3 l]]]] eqn:Hs;
    cbn [length Nat.eqb negb nth].
  all: exec; negb_hyps.
  all: split; [reflexivity|].
  all: split;
    [ first [ left; eexists; reflexivity | right; eexists; reflexivity ] | ].
  all: split; [ | split; [ | reflexivity ] ].
  all: try solve
    [ intros ? ? ? ? ? ? ? Hq; try discriminate Hq; inversion Hq; subst;
      intros Hne Ha Hj He Hx Ht;
      repeat match goal with
        | H : ?a = _, H' : ?a = _ |- _ => rewrite H in H'; inversion H'; subst; clear H'
        end;
      try match goal with
        | H : ToNumber _ _ ?x = _, H' : match ToNumber _ _ ?x with _ => _ end = _ |- _ =>
            rewrite H in H'; inversion H'; subst
        end;
      try congruence; try solve [exfalso; eqb_hyps; congruence];
      repeat match goal with
        | H : String.eqb _ _ = _ |- _ => rewrite H
        end; reflexivity ].
  all: eqb_hyps.
  all: intros ?; split;
      [ intros E; inversion E; subst;
        do 6 eexists; (split; [reflexivity|]); repeat (split; [eassumption|]);
        (split; [ first [ left; eassumption
                        | right;
                          match goal with H : ToNumber _ _ _ = _ |- _ => rewrite H end;
                          f_equal; assumption ] | ]);
        repeat (split; [eassumption|]); eassumption
      | intros (q0 & q1 & q2 & decoded & payload & exp & Hq & Hne & Ha & Hj & He & Hx & Hg & Ht);
        try discriminate; inversion Hq; subst;
        repeat match goal with
          | H : ?a = _, H' : ?a = _ |- _ => rewrite H in H'; inversion H'; subst; clear H'
          end;
        try congruence;
        destruct Hx as [Hx|Hx]; try congruence;
        match goal with H : ToNumber _ _ _ = _ |- _ => rewrite H in Hx end;
        congruence ].
Qed.

Lemma C10_witness :
  result_of (AuthService.verifyToken platform_jwt token_exp2100) world0 =
    Ret (JObj [("isValid", JBool true); ("walletAddress", JStr "0xabc")]).
Proof.
  apply (C10_verifyToken platform_jwt token_exp2100 world0).
  exists "eyJhbGciOiJIUzI1NiJ9",
         "eyJleHAiOjQxMDI0NDQ4MDAsIndhbGxldEFkZHJlc3MiOiIweGFiYyJ9", "c2ln",
         (payload_text "4102444800"), payload_exp2100, (JNum 4102444800%float).
  repeat split; try reflexivity; try discriminate. right. reflexivity.
Defined.

(** ** C2: failures are returned, not thrown *)


Lemma one_request_returns c w kind : one_request c w kind -> exists r, result_of c w = Ret r.
Proof. intros (r & req & E & _). exists r. unfold result_of. now rewrite E. Qed.

(** A method whose whole body is a [try] with a handler that returns. *)
Lemma try_catch_returns {A} (body : M A) (h : JsError -> A) :
  never_throws (try_catch body (fun e => ret (h e))).
Proof.
  intros w. unfold result_of, try_catch, ret. destruct (body w) as [[a|e] w']; eauto.
Qed.

Lemma backend_methods_never_throw (S : Storage) P : backend_methods P never_throws.
Proof.
  unfold backend_methods; repeat apply conj; intros; apply try_catch_returns.
Qed.

Lemma local_methods_never_throw (S : Storage) P : local_methods P never_throws.
Proof.
  unfold local_methods; repeat apply conj; intros.
  1, 2, 4: apply try_catch_returns.
  intros w. eexists; reflexivity.
Qed.

(** [checkAuthStatus] reads localStorage in its [try] and touches it again
    in its [catch]: where reading throws, so does the handler. *)
Lemma checkAuthStatus_run (S : Storage) w :
  match access_fault w with
  | Some e => AuthService.checkAuthStatus w = (Throw e, w)
  | None => exists r, AuthService.checkAuthStatus w = (Ret r, w)
  end.
Proof.
  unfold AuthService.checkAuthStatus. autounfold with monad.
  destruct (access_fault w) as [e|] eqn:E; rewrite ?E; [reflexivity|].
  eexists; reflexivity.
Qed.

Ltac unfold_headers :=
  autounfold with js;
  unfold AuthService.getHeaders, CampaignService.getHeaders, WLDPaymentService.getHeaders;
  autounfold with js.

Lemma storage_fault_is_returned (S : Storage) P w e :
  access_fault w = Some e ->
  token_reading_methods P (fun c => fails_at_once c w) /\
  fails_at_once AuthService.logout w.
Proof.
  intros H. unfold token_reading_methods, fails_at_once.
  repeat apply conj; intros; unfold_headers;
    exec_rw ltac:(rewrite H); eexists; reflexivity.
Qed.

Lemma backend_methods_network_down (S : Storage) P w e :
  network_down P w e -> backend_methods P (fun c => fails_with_message c w).
Proof.
  intros H. unfold backend_methods, fails_with_message; repeat apply conj; intros;
    unfold_headers; exec_rw ltac:(rewrite H); eexists; reflexivity.
Qed.

Lemma backend_methods_error_status_unparseable (S : Storage) P w res e :
  answers P w res -> ok res = false -> json res = Throw e ->
  backend_methods P (fun c => fails_with_message c w).
Proof.
  intros H Hok Hj. unfold backend_methods, fails_with_message; repeat apply conj; intros;
    unfold_headers;
    exec_rw ltac:(first [rewrite H | rewrite Hok | rewrite Hj]); eexists; reflexivity.
Qed.

Lemma body_reading_methods_unparseable (S : Storage) P w res e :
  answers P w res -> ok res = true -> json res = Throw e ->
  body_reading_methods P (fun c => fails_with_message c w).
Proof.
  intros H Hok Hj. unfold body_reading_methods, fails_with_message; repeat apply conj; intros;
    unfold_headers;
    exec_rw ltac:(first [rewrite H | rewrite Hok | rewrite Hj]); eexists; reflexivity.
Qed.

Lemma tolerant_methods_unparseable P w res e :
  answers P w res -> ok res = true -> json res = Throw e ->
  (forall payload,
     result_of (CampaignService.createCampaign P payload) w =
       Ret (JObj [("success", JBool true); ("id", JUndefined)])) /\
  (forall id payload,
     result_of (CampaignService.updateCampaign P id payload) w = Ret success_only) /\
  (forall id, result_of (CampaignService.deleteCampaign P id) w = Ret success_only) /\
  (forall id amount txHash,
     result_of (CampaignService.recordDonation P id amount txHash) w = Ret success_only).
Proof.
  intros H Hok Hj. repeat apply conj; intros;
    exec_rw ltac:(first [rewrite H | rewrite Hok | rewrite Hj]); reflexivity.
Qed.

Lemma verifyToken_undecodable P token w p0 p1 p2 e :
  split_on "." token = [p0; p1; p2] -> p1 <> "" ->
  (atob P p1 = Throw e \/ exists decoded, atob P p1 = Ret decoded /\ JSON_parse P decoded = Throw e) ->
  exists s, result_of (AuthService.verifyToken P token) w =
              Ret (JObj [("isValid", JBool false); ("error", JStr s)]).
Proof.
  intros Hs Hne Hd. unfold AuthService.verifyToken. rewrite Hs.
  cbn [length Nat.eqb negb nth].
  apply String.eqb_neq in Hne. 
  destruct Hd as [Ha | (decoded & Ha & Hj)];
    exec_rw ltac:(first [rewrite Hne | rewrite Ha | rewrite Hj]); eexists; reflexivity.
Qed.


(** [checkAuthStatus] does throw: on a storage that cannot be read it
    rejects with the storage's error. *)
Lemma checkAuthStatus_rejects_on_blocked_storage :
  @AuthService.checkAuthStatus blocked_storage world0 =
    (Throw (mkError "The operation is insecure."), world0).
Proof. reflexivity. Qed.


(** ** C8: the progress percentage *)

Import Progress.

(** C8, as stated, fails: with [raised = 23] and [goal = 40] the exact value
    of [100 * raised / goal] is 57.5, which rounds to 58 (and so does the
    double [100 * 23 / 40]), but the components compute [(23 / 40) * 100]
    in doubles, which is 57.49999999999999..., and display 57. *)
Lemma C8_counterexample_23_of_40 :
  denotes 23%float (inject_Z 23) /\
  denotes 40%float (inject_Z 40) /\
  spec_progress (inject_Z 23) (inject_Z 40) = 58%Z /\
  Math_min (Math_round (PrimFloat.div (PrimFloat.mul 100%float 23%float) 40%float)) 100 =
    RInt 58 /\
  progressPercentage 23%float 40%float = RInt 57.
Proof. repeat split; vm_compute; reflexivity. Qed.


Lemma shr_1_nonneg mrs : (0 <= shr_m mrs)%Z -> (0 <= shr_m (shr_1 mrs))%Z.
Proof.
  destruct mrs as [m r s]; cbn [shr_m]. intros H.
  destruct m as [|p|p]; [| destruct p | lia ]; cbn; lia.
Qed.

Lemma iter_pos_shr_1_nonneg p mrs :
  (0 <= shr_m mrs)%Z -> (0 <= shr_m (SpecFloat.iter_pos shr_1 p mrs))%Z.
Proof.
  revert mrs. induction p as [p IH|p IH|]; intros mrs H; cbn [SpecFloat.iter_pos].
  - apply IH, IH, shr_1_nonneg, H.
  - apply IH, IH, H.
  - apply shr_1_nonneg, H.
Qed.

Lemma shr_fexp_nonneg m e l :
  (0 <= m)%Z -> (0 <= shr_m (fst (shr_fexp prec emax m e l)))%Z.
Proof.
  intros H. unfold shr_fexp, shr.
  assert (H0 : (0 <= shr_m (shr_record_of_loc m l))%Z)
    by (destruct l as [|[]]; exact H).
  destruct (fexp prec emax (Zdigits2 m + e) - e)%Z; cbn [fst]; auto.
  apply iter_pos_shr_1_nonneg, H0.
Qed.

Lemma round_nearest_even_nonneg m l : (0 <= m)%Z -> (0 <= round_nearest_even m l)%Z.
Proof.
  intros H. unfold round_nearest_even.
  destruct l as [|[]]; try destruct (Z.even m); lia.
Qed.

Lemma binary_round_aux_sign sx mx ex lx :
  (0 <= mx)%Z ->
  match binary_round_aux prec emax sx mx ex lx with
  | S754_zero s | S754_infinity s | S754_finite s _ _ => s = sx
  | S754_nan => False
  end.
Proof.
  intros H. unfold binary_round_aux.
  pose proof (shr_fexp_nonneg mx ex lx H) as H1.
  destruct (shr_fexp prec emax mx ex lx) as [mrs' e']. cbn [fst] in H1.
  pose proof (shr_fexp_nonneg _ e' loc_Exact
                (round_nearest_even_nonneg _ (loc_of_shr_record mrs') H1)) as H2.
  destruct (shr_fexp prec emax _ e' loc_Exact) as [mrs'' e'']. cbn [fst] in H2.
  destruct (shr_m mrs'') as [|p|p]; [reflexivity | | lia].
  destruct (e'' <=? emax - prec)%Z; reflexivity.
Qed.

Lemma binary_round_aux_nonneg mx ex lx :
  (0 <= mx)%Z -> sf_nonneg (binary_round_aux prec emax false mx ex lx).
Proof.
  intros H. pose proof (binary_round_aux_sign false mx ex lx H) as S.
  destruct (binary_round_aux prec emax false mx ex lx); cbn; subst; auto.
Qed.

Lemma SFdiv_core_binary_nonneg mx ex my ey :
  (0 <= fst (fst (SFdiv_core_binary prec emax (Z.pos mx) ex (Z.pos my) ey)))%Z.
Proof.
  unfold SFdiv_core_binary.
  set (s := (ex - ey - _)%Z).
  set (m' := match s with Z.pos _ => Z.shiftl (Z.pos mx) s | 0%Z => Z.pos mx | Z.neg _ => 0%Z end).
  assert (Hm : (0 <= m')%Z).
  { subst m'. destruct s; try lia. apply Z.shiftl_nonneg. lia. }
  pose proof (Z.div_pos m' (Z.pos my) Hm ltac:(lia)) as Hq.
  unfold Z.div in Hq.
  destruct (Z.div_eucl m' (Z.pos my)) as [q r]. exact Hq.
Qed.

Lemma SF64div_nonneg x y :
  sf_nonneg x ->
  (exists m e, y = S754_finite false m e) \/ y = S754_infinity false ->
  sf_nonneg (SF64div x y) \/
  (SF64div x y = S754_nan /\ x = S754_infinity false /\ y = S754_infinity false).
Proof.
  intros Hx Hy. unfold SF64div, SFdiv.
  destruct x as [sx|[|]| |[|] mx ex]; cbn in Hx; try contradiction;
    destruct Hy as [(my & ey & ->) | ->]; cbn; auto.
  left. pose proof (SFdiv_core_binary_nonneg mx ex my ey) as H.
  destruct (SFdiv_core_binary prec emax (Z.pos mx) ex (Z.pos my) ey) as [[mz ez] lz].
  cbn [fst] in H. apply binary_round_aux_nonneg, H.
Qed.

Lemma SF64mul_nonneg x m e :
  sf_nonneg x -> sf_nonneg (SF64mul x (S754_finite false m e)).
Proof.
  intros Hx. unfold SF64mul, SFmul.
  destruct x as [sx|[|]| |[|] mx ex]; cbn in Hx; try contradiction; cbn; auto.
  apply binary_round_aux_nonneg. lia.
Qed.

Lemma Math_round_nonneg x :
  sf_nonneg (Prim2SF x) ->
  (exists z, Math_round x = RInt z /\ (0 <= z)%Z) \/ Math_round x = RInf false.
Proof.
  unfold Math_round. destruct (Prim2SF x) as [s|[|]| |[|] m e]; cbn; try contradiction; auto.
  - intros _. left. exists 0%Z. split; [reflexivity | lia].
  - intros _. left. destruct (0 <=? e)%Z eqn:He; eexists; (split; [reflexivity|]).
    + apply Z.leb_le in He. apply Z.mul_nonneg_nonneg; [lia | apply Z.pow_nonneg; lia].
    + apply Z.leb_gt in He. apply Z.div_pos.
      * pose proof (Z.pow_nonneg 2 (- e)). lia.
      * apply Z.pow_pos_nonneg; lia.
Qed.

Lemma positive_double goal :
  PrimFloat.ltb 0%float goal = true ->
  (exists m e, Prim2SF goal = S754_finite false m e) \/ Prim2SF goal = S754_infinity false.
Proof.
  rewrite ltb_spec. change (Prim2SF 0%float) with (S754_zero false).
  destruct (Prim2SF goal) as [s|[|]| |[|] m e]; cbn; try discriminate; eauto.
Qed.

Lemma nonnegative_double raised :
  PrimFloat.leb 0%float raised = true -> sf_nonneg (Prim2SF raised).
Proof.
  rewrite leb_spec. change (Prim2SF 0%float) with (S754_zero false).
  destruct (Prim2SF raised) as [s|[|]| |[|] m e]; cbn; try discriminate; auto.
Qed.

Lemma progressPercentage_range raised goal :
  PrimFloat.ltb 0%float goal = true -> PrimFloat.leb 0%float raised = true ->
  (exists z, progressPercentage raised goal = RInt z /\ (0 <= z <= 100)%Z) \/
  (progressPercentage raised goal = RNaN /\
   Prim2SF raised = S754_infinity false /\ Prim2SF goal = S754_infinity false).
Proof.
  intros Hg Hr. apply positive_double in Hg. apply nonnegative_double in Hr.
  unfold progressPercentage.
  destruct (SF64div_nonneg _ _ Hr Hg) as [Hq | (Hq & Hr' & Hg')].
  - left. rewrite <- div_spec in Hq.
    pose proof (SF64mul_nonneg _ 7036874417766400 (-46) Hq) as Hp.
    change (S754_finite false 7036874417766400 (-46)) with (Prim2SF 100%float) in Hp.
    rewrite <- mul_spec in Hp.
    destruct (Math_round_nonneg _ Hp) as [(z & -> & Hz) | ->]; cbn [Math_min].
    + exists (Z.min z 100). split; [reflexivity | lia].
    + exists 100%Z. split; [reflexivity | lia].
  - right. split; [| auto].
    unfold Math_round. rewrite mul_spec, div_spec, Hq. reflexivity.
Qed.

Lemma progressPercentage_at_most_100 raised goal :
  match progressPercentage raised goal with
  | RInt z => (z <= 100)%Z
  | RInf false => False
  | _ => True
  end.
Proof.
  unfold progressPercentage, Math_min.
  destruct (Math_round _) as [|[|]|z]; auto; lia.
Qed.

(** *** Monotonicity of the double evaluation

    The operations of the formula are correctly rounded, and each is
    monotone; the lemmas follow [binary_round_aux] step by step. *)
Section DoubleRounding.
Local Open Scope Z_scope.

Lemma located_mono N1 D1 k1 N2 D2 k2 :
  0 < D1 -> 0 < D2 -> located N1 D1 k1 -> located N2 D2 k2 ->
  N1 * D2 <= N2 * D1 -> k1 <= k2.
Proof.
  intros H1 H2 L1 L2 H.
  destruct (Z.le_gt_cases k1 k2) as [|G]; [assumption|exfalso].
  assert (P : 0 < D1 * D2) by nia.
  destruct L1 as [[E1 L1]|[E1 [L1 L1']]], L2 as [[E2 L2]|[E2 [L2 L2']]].
  - assert (k1 * (D1 * D2) = 4 * (N1 * D2)) by (replace (k1 * (D1 * D2)) with (k1 * D1 * D2) by ring; rewrite L1; ring).
    assert (k2 * (D1 * D2) = 4 * (N2 * D1)) by (replace (k2 * (D1 * D2)) with (k2 * D2 * D1) by ring; rewrite L2; ring).
    nia.
  - assert (k1 * (D1 * D2) = 4 * (N1 * D2)) by (replace (k1 * (D1 * D2)) with (k1 * D1 * D2) by ring; rewrite L1; ring).
    assert (4 * (N2 * D1) < (k2 + 1) * (D1 * D2)) by nia.
    nia.
  - assert (k2 * (D1 * D2) = 4 * (N2 * D1)) by (replace (k2 * (D1 * D2)) with (k2 * D2 * D1) by ring; rewrite L2; ring).
    assert ((k1 - 1) * (D1 * D2) < 4 * (N1 * D2)) by nia.
    nia.
  - assert (k1 = k2 + 1 \/ k2 + 2 <= k1) as [->|] by lia.
    + rewrite Z.even_add in E1. rewrite E2 in E1. discriminate.
    + assert ((k1 - 1) * (D1 * D2) < 4 * (N1 * D2)) by nia.
      assert (4 * (N2 * D1) < (k2 + 1) * (D1 * D2)) by nia.
      nia.
Qed.

Lemma even_code m c : Z.even (4 * m + c) = Z.even c.
Proof.
  rewrite Z.even_add, Z.even_mul. cbn. now destruct (Z.even c).
Qed.

Lemma located_bounds N D m c :
  0 < D -> 0 <= c <= 3 -> located N D (4 * m + c) -> m * D <= N < (m + 1) * D.
Proof.
  intros HD Hc [[Ev L]|[Ev L]]; rewrite even_code in Ev;
    assert (c = 0 \/ c = 1 \/ c = 2 \/ c = 3) as [-> | [-> | [-> | ->]]] by lia;
    try discriminate Ev; nia.
Qed.

Lemma halve_code m c :
  0 <= c <= 3 -> halve (4 * m + c) = 2 * m + (if c =? 0 then 0 else 1).
Proof.
  intros Hc. unfold halve.
  replace (4 * m + c) with (c + m * 4) by ring.
  rewrite Z.div_add, Z.mod_add by lia.
  rewrite (Z.div_small c 4), (Z.mod_small c 4) by lia. ring.
Qed.

Lemma located_halve N D m c :
  0 < D -> 0 <= c <= 3 -> located N D (4 * m + c) -> located N (2 * D) (halve (4 * m + c)).
Proof.
  intros HD Hc L. rewrite halve_code by assumption.
  destruct L as [[Ev L]|[Ev L]]; rewrite even_code in Ev;
    assert (c = 0 \/ c = 1 \/ c = 2 \/ c = 3) as [-> | [-> | [-> | ->]]] by lia;
    try discriminate Ev; cbn [Z.eqb]; unfold located.
  - left. rewrite Z.add_0_r, Z.even_mul. split; [reflexivity | lia].
  - right. rewrite Z.even_add, Z.even_mul. split; [reflexivity | lia].
  - right. rewrite Z.even_add, Z.even_mul. split; [reflexivity | lia].
  - right. rewrite Z.even_add, Z.even_mul. split; [reflexivity | lia].
Qed.

Lemma code_of_record_form mrs :
  exists c, 0 <= c <= 3 /\ code_of_record mrs = 4 * shr_m mrs + c.
Proof.
  destruct mrs as [m [|] [|]]; unfold code_of_record; cbn [shr_m shr_r shr_s];
    eexists; (split; [| rewrite <- Z.add_assoc; reflexivity]); cbn; lia.
Qed.

Lemma code_shr_1 mrs :
  0 <= shr_m mrs -> code_of_record (shr_1 mrs) = halve (code_of_record mrs).
Proof.
  destruct (code_of_record_form mrs) as (c & Hc & E). rewrite E, halve_code by assumption.
  revert E. destruct mrs as [m r s]. unfold code_of_record. cbn [shr_m shr_r shr_s].
  intros E H.
  destruct m as [|[p|p|]|p]; try lia; destruct r, s; cbn -[Z.mul Z.add] in *;
    assert (c = 0 \/ c = 1 \/ c = 2 \/ c = 3) as [-> | [-> | [-> | ->]]] by lia; cbn [Z.eqb]; lia.
Qed.

Lemma located_shr_1 N D mrs :
  0 < D -> 0 <= shr_m mrs -> located N D (code_of_record mrs) ->
  located N (2 * D) (code_of_record (shr_1 mrs)).
Proof.
  intros HD Hm L. rewrite code_shr_1 by assumption.
  destruct (code_of_record_form mrs) as (c & Hc & E). rewrite E in *.
  now apply located_halve.
Qed.

Lemma located_iter_shr_1 p : forall N D mrs,
  0 < D -> 0 <= shr_m mrs -> located N D (code_of_record mrs) ->
  located N (D * 2 ^ Z.pos p) (code_of_record (SpecFloat.iter_pos shr_1 p mrs)) /\
  0 <= shr_m (SpecFloat.iter_pos shr_1 p mrs).
Proof.
  induction p as [p IH|p IH|]; intros N D mrs HD Hm L; cbn [SpecFloat.iter_pos].
  - pose proof (located_shr_1 N D mrs HD Hm L) as L1.
    pose proof (shr_1_nonneg mrs Hm) as M1.
    destruct (IH N (2 * D) _ ltac:(lia) M1 L1) as [L2 M2].
    assert (P : 0 < 2 ^ Z.pos p) by (apply Z.pow_pos_nonneg; lia).
    destruct (IH N (2 * D * 2 ^ Z.pos p) _ ltac:(nia) M2 L2) as [L3 M3].
    split; [|assumption].
    replace (D * 2 ^ Z.pos p~1) with (2 * D * 2 ^ Z.pos p * 2 ^ Z.pos p); [assumption|].
    replace (Z.pos p~1) with (Z.pos p + Z.pos p + 1) by lia.
    rewrite !Z.pow_add_r by lia. change (2 ^ 1) with 2. ring.
  - assert (P : 0 < 2 ^ Z.pos p) by (apply Z.pow_pos_nonneg; lia).
    destruct (IH N D _ HD Hm L) as [L2 M2].
    destruct (IH N (D * 2 ^ Z.pos p) _ ltac:(nia) M2 L2) as [L3 M3].
    split; [|assumption].
    replace (D * 2 ^ Z.pos p~0) with (D * 2 ^ Z.pos p * 2 ^ Z.pos p); [assumption|].
    replace (Z.pos p~0) with (Z.pos p + Z.pos p) by lia.
    rewrite !Z.pow_add_r by lia. ring.
  - split; [|apply shr_1_nonneg, Hm].
    change (2 ^ 1) with 2. rewrite Z.mul_comm. now apply located_shr_1.
Qed.

Lemma digits2_pos_bounds p :
  2 ^ (Z.pos (digits2_pos p) - 1) <= Z.pos p < 2 ^ Z.pos (digits2_pos p).
Proof.
  induction p as [p IH|p IH|]; cbn [digits2_pos]; [| |cbn; lia].
  all: rewrite Pos2Z.inj_succ; set (d := Z.pos (digits2_pos p)) in *.
  all: replace (Z.succ d - 1) with (Z.succ (d - 1)) by lia.
  all: rewrite !Z.pow_succ_r by lia; lia.
Qed.

Lemma Zdigits2_bounds m :
  0 < m -> 1 <= Zdigits2 m /\ 2 ^ (Zdigits2 m - 1) <= m < 2 ^ Zdigits2 m.
Proof.
  destruct m as [|p|p]; try lia. intros _. cbn [Zdigits2].
  split; [lia | apply digits2_pos_bounds].
Qed.

Lemma fexp64 x : fexp prec emax x = Z.max (x - 53) (-1074).
Proof. reflexivity. Qed.

Lemma code_of_record_of_loc m l :
  code_of_record (shr_record_of_loc m l) = 4 * m + code_of_loc l.
Proof. destruct l as [|[]]; unfold code_of_record; cbn; lia. Qed.

(** The first shift of [binary_round_aux] moves a fine enough position to
    the exponent of the format, and keeps it a position of the same number. *)
Lemma shr_fexp_located N D m e l mrs e' :
  0 < D -> 0 <= m -> located N D (4 * m + code_of_loc l) ->
  e <= Z.max (Zdigits2 m + e - 53) (-1074) ->
  shr_fexp prec emax m e l = (mrs, e') ->
  e' = Z.max (Zdigits2 m + e - 53) (-1074) /\
  located N (D * 2 ^ (e' - e)) (code_of_record mrs) /\ 0 <= shr_m mrs.
Proof.
  intros HD Hm L Hfine. unfold shr_fexp, shr. rewrite fexp64.
  rewrite <- code_of_record_of_loc in L.
  assert (M0 : 0 <= shr_m (shr_record_of_loc m l)) by (destruct l as [|[]]; exact Hm).
  destruct (Z.max (Zdigits2 m + e - 53) (-1074) - e) as [|p|p] eqn:En; intros [= <- <-].
  - split; [lia|]. replace (e - e) with 0 by lia. rewrite Z.pow_0_r, Z.mul_1_r. auto.
  - split; [lia|]. replace (e + Z.pos p - e) with (Z.pos p) by lia.
    now apply located_iter_shr_1.
  - lia.
Qed.

Lemma pow2_pos n : 0 <= n -> 0 < 2 ^ n.
Proof. intros. apply Z.pow_pos_nonneg; lia. Qed.

Lemma pow2_split a b : 0 <= a -> 0 <= b -> 2 ^ (a + b) = 2 ^ a * 2 ^ b.
Proof. intros. apply Z.pow_add_r; assumption. Qed.

(** After the first shift the mantissa has at most 53 bits, and exactly 53
    above the smallest exponent. *)
Lemma shr_fexp_range N D m e l mrs e' :
  0 < D -> 0 <= m -> located N D (4 * m + code_of_loc l) ->
  e <= Z.max (Zdigits2 m + e - 53) (-1074) ->
  shr_fexp prec emax m e l = (mrs, e') ->
  0 <= shr_m mrs < 2 ^ 53 /\ (-1074 < e' -> 2 ^ 52 <= shr_m mrs).
Proof.
  intros HD Hm L Hfine E.
  destruct (shr_fexp_located N D m e l mrs e' HD Hm L Hfine E) as (He' & L' & M').
  assert (Hl : 0 <= code_of_loc l <= 3) by (destruct l as [|[]]; cbn; lia).
  pose proof (located_bounds N D m _ HD Hl L) as B.
  destruct (code_of_record_form mrs) as (c & Hc & Ec). rewrite Ec in L'.
  set (S := 2 ^ (e' - e)) in *.
  assert (HS : 0 < S) by (apply pow2_pos; lia).
  pose proof (located_bounds N (D * S) _ _ ltac:(nia) Hc L') as B'.
  set (m' := shr_m mrs) in *.
  assert (Hm' : m' * S <= m).
  { assert (m' * S * D < (m + 1) * D) by nia.
    assert (m' * S < m + 1) by nia. lia. }
  destruct (Z.eq_dec m 0) as [->|Hm0].
  - cbn [Zdigits2] in *. assert (m' = 0) by nia. split; [lia|]. lia.
  - destruct (Zdigits2_bounds m ltac:(lia)) as (Hd & Hlo & Hhi).
    set (d := Zdigits2 m) in *.
    destruct (Z.le_gt_cases 53 d) as [Hd53|Hd53].
    + assert (HS' : 2 ^ (d - 53) <= S).
      { apply Z.pow_le_mono_r; lia. }
      assert (HP : 0 < 2 ^ (d - 53)) by (apply pow2_pos; lia).
      assert (Hd' : 2 ^ d = 2 ^ 53 * 2 ^ (d - 53)).
      { rewrite <- pow2_split by lia. f_equal. lia. }
      assert (Hd'' : 2 ^ (d - 1) = 2 ^ 52 * 2 ^ (d - 53)).
      { rewrite <- pow2_split by lia. f_equal. lia. }
      split.
      * split; [assumption|]. nia.
      * intros Hmin. assert (e' - e = d - 53) by lia.
        assert (S = 2 ^ (d - 53)) by (unfold S; f_equal; lia).
        assert ((m' + 1) * S * D > 2 ^ 52 * S * D) by nia.
        assert ((m' + 1) * S > 2 ^ 52 * S) by nia.
        nia.
    + assert (2 ^ d <= 2 ^ 53) by (apply Z.pow_le_mono_r; lia).
      split; [split; [assumption|nia]|]. lia.
Qed.

Lemma located_below_digits N D m c :
  0 < D -> 0 <= m -> 0 <= c <= 3 -> located N D (4 * m + c) -> N < 2 ^ Zdigits2 m * D.
Proof.
  intros HD Hm Hc L. pose proof (located_bounds N D m c HD Hc L) as B.
  destruct (Z.eq_dec m 0) as [->|Hm0]; [cbn in *; lia|].
  destruct (Zdigits2_bounds m ltac:(lia)) as (_ & _ & Hhi). nia.
Qed.

(** Two fine positions of numbers [v1 <= v2] (here
    [vi = Ni / Di * 2 ^ ei]) are moved by the first shift to exponents
    in the same order, and to codes in the same order when the exponents
    agree. *)
Lemma shr_fexp_compare N1 D1 m1 e1 l1 mrs1 e1' N2 D2 m2 e2 l2 mrs2 e2' b :
  0 < D1 -> 0 <= m1 -> located N1 D1 (4 * m1 + code_of_loc l1) ->
  e1 <= Z.max (Zdigits2 m1 + e1 - 53) (-1074) ->
  shr_fexp prec emax m1 e1 l1 = (mrs1, e1') ->
  0 < D2 -> 0 <= m2 -> located N2 D2 (4 * m2 + code_of_loc l2) ->
  e2 <= Z.max (Zdigits2 m2 + e2 - 53) (-1074) ->
  shr_fexp prec emax m2 e2 l2 = (mrs2, e2') ->
  b <= e1 -> b <= e2 ->
  N1 * D2 * 2 ^ (e1 - b) <= N2 * D1 * 2 ^ (e2 - b) ->
  e1' <= e2' /\ (e1' = e2' -> code_of_record mrs1 <= code_of_record mrs2).
Proof.
  intros HD1 Hm1 L1 F1 E1 HD2 Hm2 L2 F2 E2 Hb1 Hb2 Hv.
  destruct (shr_fexp_located _ _ _ _ _ _ _ HD1 Hm1 L1 F1 E1) as (He1 & L1' & M1).
  destruct (shr_fexp_located _ _ _ _ _ _ _ HD2 Hm2 L2 F2 E2) as (He2 & L2' & M2).
  assert (Hl1 : 0 <= code_of_loc l1 <= 3) by (destruct l1 as [|[]]; cbn; lia).
  assert (Hl2 : 0 <= code_of_loc l2 <= 3) by (destruct l2 as [|[]]; cbn; lia).
  set (P1 := 2 ^ (e1 - b)) in *. set (P2 := 2 ^ (e2 - b)) in *.
  assert (HP1 : 0 < P1) by (apply pow2_pos; lia).
  assert (HP2 : 0 < P2) by (apply pow2_pos; lia).
  split.
  - destruct (Z.eq_dec m1 0) as [->|Hm0]; [cbn [Zdigits2] in *; lia|].
    destruct (Zdigits2_bounds m1 ltac:(lia)) as (Hd1 & Hlo1 & _).
    pose proof (located_bounds _ _ _ _ HD1 Hl1 L1) as B1.
    pose proof (located_below_digits _ _ _ _ HD2 Hm2 Hl2 L2) as B2.
    assert (Hd2 : 0 <= Zdigits2 m2) by (destruct m2; cbn; lia).
    set (d1 := Zdigits2 m1) in *. set (d2 := Zdigits2 m2) in *.
    assert (HA : 0 < 2 ^ (d1 - 1)) by (apply pow2_pos; lia).
    assert (HB : 0 < 2 ^ d2) by (apply pow2_pos; lia).
    assert (H1 : 2 ^ (d1 - 1) * P1 * (D1 * D2) <= N1 * D2 * P1).
    { assert (H : 2 ^ (d1 - 1) * D1 <= N1) by nia.
      replace (2 ^ (d1 - 1) * P1 * (D1 * D2)) with (2 ^ (d1 - 1) * D1 * (D2 * P1)) by ring.
      replace (N1 * D2 * P1) with (N1 * (D2 * P1)) by ring.
      apply Z.mul_le_mono_nonneg_r; [nia | exact H]. }
    assert (H2 : N2 * D1 * P2 < 2 ^ d2 * P2 * (D1 * D2)).
    { replace (N2 * D1 * P2) with (N2 * (D1 * P2)) by ring.
      replace (2 ^ d2 * P2 * (D1 * D2)) with (2 ^ d2 * D2 * (D1 * P2)) by ring.
      apply Z.mul_lt_mono_pos_r; [nia | exact B2]. }
    assert (H3 : 2 ^ (d1 - 1) * P1 < 2 ^ d2 * P2).
    { apply (Z.mul_lt_mono_pos_r (D1 * D2)); [nia | lia]. }
    unfold P1, P2 in H3. rewrite <- !pow2_split in H3 by lia.
    apply Z.pow_lt_mono_r_iff in H3; lia.
  - intros Heq.
    set (Q1 := 2 ^ (e1' - e1)) in *. set (Q2 := 2 ^ (e2' - e2)) in *.
    assert (HQ1 : 0 < Q1) by (apply pow2_pos; lia).
    assert (HQ2 : 0 < Q2) by (apply pow2_pos; lia).
    assert (HDQ1 : 0 < D1 * Q1) by (apply Z.mul_pos_pos; assumption).
    assert (HDQ2 : 0 < D2 * Q2) by (apply Z.mul_pos_pos; assumption).
    apply (located_mono N1 (D1 * Q1) _ N2 (D2 * Q2) _ HDQ1 HDQ2 L1' L2').
    assert (HR : P1 * Q1 = P2 * Q2).
    { unfold P1, P2, Q1, Q2. rewrite <- !pow2_split by lia. f_equal. lia. }
    assert (HQ : 0 <= Q1 * Q2) by (apply Z.mul_nonneg_nonneg; lia).
    pose proof (Z.mul_le_mono_nonneg_r _ _ (Q1 * Q2) HQ Hv) as H.
    replace (N1 * D2 * P1 * (Q1 * Q2)) with (N1 * (D2 * Q2) * (P1 * Q1)) in H by ring.
    replace (N2 * D1 * P2 * (Q1 * Q2)) with (N2 * (D1 * Q1) * (P1 * Q1)) in H by (rewrite HR; ring).
    assert (HPQ : 0 < P1 * Q1) by (apply Z.mul_pos_pos; assumption).
    apply Z.mul_le_mono_pos_r in H; assumption.
Qed.

Lemma binary_round_aux_finish m e l :
  binary_round_aux prec emax false m e l =
    finish (fst (shr_fexp prec emax m e l)) (snd (shr_fexp prec emax m e l)).
Proof.
  unfold binary_round_aux, finish. destruct (shr_fexp prec emax m e l) as [mrs e']. reflexivity.
Qed.

Lemma round_nearest_even_record mrs :
  shr_m mrs <= round_nearest_even (shr_m mrs) (loc_of_shr_record mrs) <= shr_m mrs + 1.
Proof.
  destruct mrs as [m [|] [|]]; cbn; try destruct (Z.even m); lia.
Qed.

Lemma round_nearest_even_mono mrs1 mrs2 :
  code_of_record mrs1 <= code_of_record mrs2 ->
  round_nearest_even (shr_m mrs1) (loc_of_shr_record mrs1) <=
  round_nearest_even (shr_m mrs2) (loc_of_shr_record mrs2).
Proof.
  intros H.
  pose proof (round_nearest_even_record mrs1) as B1.
  pose proof (round_nearest_even_record mrs2) as B2.
  destruct (Z.eq_dec (shr_m mrs1) (shr_m mrs2)) as [E|E].
  - clear B1 B2. destruct mrs1 as [m1 r1 s1], mrs2 as [m2 r2 s2].
    unfold code_of_record in H. cbn [shr_m shr_r shr_s] in *. subst m2.
    destruct r1, s1, r2, s2; cbn in *; try destruct (Z.even m1); lia.
  - destruct (code_of_record_form mrs1) as (c1 & Hc1 & E1).
    destruct (code_of_record_form mrs2) as (c2 & Hc2 & E2). lia.
Qed.

Lemma Zdigits2_le_53 m : 0 <= m < 2 ^ 53 -> Zdigits2 m <= 53.
Proof.
  intros [H0 H]. destruct (Z.eq_dec m 0) as [->|Hm]; [cbn; lia|].
  destruct (Zdigits2_bounds m ltac:(lia)) as (Hd & Hlo & _).
  assert (Hlt : 2 ^ (Zdigits2 m - 1) < 2 ^ 53) by lia.
  apply Z.pow_lt_mono_r_iff in Hlt; lia.
Qed.

Lemma finish_eq mrs e :
  0 <= shr_m mrs < 2 ^ 53 -> -1074 <= e ->
  finish mrs e =
    let mr := round_nearest_even (shr_m mrs) (loc_of_shr_record mrs) in
    if mr =? 2 ^ 53 then
      if e + 1 <=? 971 then S754_finite false 4503599627370496 (e + 1) else S754_infinity false
    else
      match mr with
      | Z0 => S754_zero false
      | Zpos p => if e <=? 971 then S754_finite false p e else S754_infinity false
      | Zneg _ => S754_nan
      end.
Proof.
  intros Hm He. unfold finish. cbv zeta.
  pose proof (round_nearest_even_record mrs) as B.
  set (mr := round_nearest_even (shr_m mrs) (loc_of_shr_record mrs)) in *.
  unfold shr_fexp, shr. rewrite fexp64.
  destruct (Z.eqb_spec mr (2 ^ 53)) as [->|Hne].
  - change (Zdigits2 (2 ^ 53)) with 54.
    replace (Z.max (54 + e - 53) (-1074) - e) with 1 by lia.
    reflexivity.
  - assert (Hd : Zdigits2 mr <= 53) by (apply Zdigits2_le_53; lia).
    destruct (Z.max (Zdigits2 mr + e - 53) (-1074) - e) as [|p|p] eqn:En; try lia.
    all: cbn [shr_record_of_loc shr_m]; reflexivity.
Qed.

Lemma SFleb_finite p1 e1 p2 e2 :
  e1 < e2 \/ (e1 = e2 /\ Z.pos p1 <= Z.pos p2) ->
  SFleb (S754_finite false p1 e1) (S754_finite false p2 e2) = true.
Proof.
  unfold SFleb, SFcompare. intros [H|[-> H]].
  - apply Z.compare_lt_iff in H. now rewrite H.
  - rewrite Z.compare_refl. fold (Pos.compare p1 p2).
    destruct (Pos.compare_spec p1 p2); try reflexivity. lia.
Qed.

(** [finish] is monotone on the results of the first shift. *)
Lemma finish_mono mrs1 e1 mrs2 e2 :
  0 <= shr_m mrs1 < 2 ^ 53 -> -1074 <= e1 ->
  0 <= shr_m mrs2 < 2 ^ 53 -> -1074 <= e2 ->
  e1 <= e2 ->
  (e1 = e2 -> code_of_record mrs1 <= code_of_record mrs2) ->
  (e1 < e2 -> 2 ^ 52 <= shr_m mrs2) ->
  SFleb (finish mrs1 e1) (finish mrs2 e2) = true.
Proof.
  intros M1 E1 M2 E2 Hle Heq Hlt.
  rewrite !finish_eq by assumption. cbv zeta.
  pose proof (round_nearest_even_record mrs1) as B1.
  pose proof (round_nearest_even_record mrs2) as B2.
  assert (Hmono : e1 = e2 ->
                  round_nearest_even (shr_m mrs1) (loc_of_shr_record mrs1) <=
                  round_nearest_even (shr_m mrs2) (loc_of_shr_record mrs2))
    by (intros H; apply round_nearest_even_mono, Heq, H).
  set (mr1 := round_nearest_even (shr_m mrs1) (loc_of_shr_record mrs1)) in *.
  set (mr2 := round_nearest_even (shr_m mrs2) (loc_of_shr_record mrs2)) in *.
  change (2 ^ 53) with 9007199254740992 in *. change (2 ^ 52) with 4503599627370496 in *.
  destruct (Z.eqb_spec mr1 9007199254740992) as [H1|H1],
           (Z.eqb_spec mr2 9007199254740992) as [H2|H2];
    repeat match goal with
      | |- context [Z.leb ?a ?b] => destruct (Z.leb_spec a b)
      end;
    try (destruct mr1 as [|p1|p1]; try lia);
    try (destruct mr2 as [|p2|p2]; try lia);
    repeat match goal with
      | |- context [Z.leb ?a ?b] => destruct (Z.leb_spec a b)
      end;
    try reflexivity; try lia;
    try (apply SFleb_finite; lia).
Qed.

(** Rounding is monotone: fine positions of two numbers [v1 <= v2] are
    rounded to doubles in the same order. *)
Lemma binary_round_aux_mono N1 D1 m1 e1 l1 N2 D2 m2 e2 l2 b :
  0 < D1 -> 0 <= m1 -> located N1 D1 (4 * m1 + code_of_loc l1) ->
  e1 <= Z.max (Zdigits2 m1 + e1 - 53) (-1074) ->
  0 < D2 -> 0 <= m2 -> located N2 D2 (4 * m2 + code_of_loc l2) ->
  e2 <= Z.max (Zdigits2 m2 + e2 - 53) (-1074) ->
  b <= e1 -> b <= e2 ->
  N1 * D2 * 2 ^ (e1 - b) <= N2 * D1 * 2 ^ (e2 - b) ->
  SFleb (binary_round_aux prec emax false m1 e1 l1)
        (binary_round_aux prec emax false m2 e2 l2) = true.
Proof.
  intros HD1 Hm1 L1 F1 HD2 Hm2 L2 F2 Hb1 Hb2 Hv.
  rewrite !binary_round_aux_finish.
  destruct (shr_fexp prec emax m1 e1 l1) as [mrs1 e1'] eqn:E1.
  destruct (shr_fexp prec emax m2 e2 l2) as [mrs2 e2'] eqn:E2.
  cbn [fst snd].
  destruct (shr_fexp_located _ _ _ _ _ _ _ HD1 Hm1 L1 F1 E1) as (He1 & _ & _).
  destruct (shr_fexp_located _ _ _ _ _ _ _ HD2 Hm2 L2 F2 E2) as (He2 & _ & _).
  destruct (shr_fexp_range _ _ _ _ _ _ _ HD1 Hm1 L1 F1 E1) as (R1 & _).
  destruct (shr_fexp_range _ _ _ _ _ _ _ HD2 Hm2 L2 F2 E2) as (R2 & N2').
  destruct (shr_fexp_compare _ _ _ _ _ _ _ _ _ _ _ _ _ _ b
              HD1 Hm1 L1 F1 E1 HD2 Hm2 L2 F2 E2 Hb1 Hb2 Hv) as (Hle & Hcode).
  apply finish_mono; try assumption; try lia.
Qed.

(** On valid non-negative doubles the order of [SFleb] is the order of the
    values [m * 2 ^ e]. *)
Lemma valid_binary_finite m e :
  valid_binary (S754_finite false m e) = true ->
  Z.max (Z.pos (digits2_pos m) + e - 53) (-1074) = e /\ e <= 971.
Proof.
  unfold SpecFloat.valid_binary, bounded, canonical_mantissa. rewrite fexp64.
  intros H. apply andb_true_iff in H. destruct H as [H1 H2].
  apply Z.eqb_eq in H1. apply Z.leb_le in H2. split; [exact H1 | exact H2].
Qed.

Lemma SFleb_finite_inv p1 e1 p2 e2 :
  SFleb (S754_finite false p1 e1) (S754_finite false p2 e2) = true ->
  e1 < e2 \/ (e1 = e2 /\ Z.pos p1 <= Z.pos p2).
Proof.
  unfold SFleb, SFcompare.
  destruct (Z.compare_spec e1 e2) as [->|H|H]; [|left; exact H | discriminate].
  fold (Pos.compare p1 p2). intros H. right. split; [reflexivity|].
  destruct (Pos.compare_spec p1 p2); try discriminate; lia.
Qed.

Lemma SFleb_value m1 e1 m2 e2 b :
  valid_binary (S754_finite false m1 e1) = true ->
  valid_binary (S754_finite false m2 e2) = true ->
  SFleb (S754_finite false m1 e1) (S754_finite false m2 e2) = true ->
  b <= e1 -> b <= e2 ->
  Z.pos m1 * 2 ^ (e1 - b) <= Z.pos m2 * 2 ^ (e2 - b).
Proof.
  intros V1 V2 H Hb1 Hb2.
  apply valid_binary_finite in V1, V2. destruct V1 as [V1 _], V2 as [V2 _].
  pose proof (digits2_pos_bounds m1) as B1. pose proof (digits2_pos_bounds m2) as B2.
  set (d1 := Z.pos (digits2_pos m1)) in *. set (d2 := Z.pos (digits2_pos m2)) in *.
  destruct (SFleb_finite_inv _ _ _ _ H) as [Hlt|[-> Hle]].
  - assert (Hd1 : d1 <= 53) by lia. assert (Hd2 : d2 = 53) by lia.
    rewrite Hd2 in B2. change (2 ^ (53 - 1)) with (2 ^ 52) in B2.
    assert (H1 : 2 ^ d1 <= 2 ^ 53) by (apply Z.pow_le_mono_r; lia).
    assert (HP : 0 < 2 ^ (e1 - b)) by (apply pow2_pos; lia).
    assert (H2 : 2 * 2 ^ (e1 - b) <= 2 ^ (e2 - b)).
    { change 2 with (2 ^ 1) at 1. rewrite <- pow2_split by lia.
      apply Z.pow_le_mono_r; lia. }
    change (2 ^ 53) with (2 * 2 ^ 52) in H1.
    assert (Z.pos m1 * 2 ^ (e1 - b) <= 2 ^ 52 * (2 * 2 ^ (e1 - b))) by nia.
    assert (2 ^ 52 * (2 * 2 ^ (e1 - b)) <= 2 ^ 52 * 2 ^ (e2 - b)) by nia.
    assert (2 ^ 52 * 2 ^ (e2 - b) <= Z.pos m2 * 2 ^ (e2 - b)) by nia.
    lia.
  - apply Z.mul_le_mono_nonneg_r; [apply Z.pow_nonneg; lia | exact Hle].
Qed.

Lemma Zdigits2_lower m j : 0 <= j -> 2 ^ j <= m -> j + 1 <= Zdigits2 m.
Proof.
  intros Hj H. assert (Hm : 0 < m) by (pose proof (pow2_pos j Hj); lia).
  destruct (Zdigits2_bounds m Hm) as (Hd & _ & Hhi).
  assert (Hlt : 2 ^ j < 2 ^ Zdigits2 m) by lia.
  apply Z.pow_lt_mono_r_iff in Hlt; lia.
Qed.

Lemma SFleb_zero_l s y : sf_nonneg y -> SFleb (S754_zero s) y = true.
Proof. destruct y as [|[|]| |[|]]; cbn; auto; contradiction. Qed.

Lemma SFleb_infinity_r x : sf_nonneg x -> SFleb x (S754_infinity false) = true.
Proof. destruct x as [|[|]| |[|]]; cbn; auto; contradiction. Qed.

Lemma located_exact n : located n 1 (4 * n + code_of_loc loc_Exact).
Proof.
  left. cbn [code_of_loc]. rewrite Z.add_0_r, Z.even_mul. split; [reflexivity | lia].
Qed.

(** Multiplication by a positive normal double is monotone on the
    non-negative doubles. *)
Lemma SF64mul_mono x1 x2 mc ec :
  valid_binary x1 = true -> valid_binary x2 = true ->
  sf_nonneg x1 -> SFleb x1 x2 = true -> 2 ^ 52 <= Z.pos mc ->
  SFleb (SF64mul x1 (S754_finite false mc ec)) (SF64mul x2 (S754_finite false mc ec)) = true.
Proof.
  intros V1 V2 P1 H Hc. unfold SF64mul, SFmul.
  destruct x1 as [s1|[|]| |[|] m1 e1]; cbn in P1; try contradiction;
    destruct x2 as [s2|[|]| |[|] m2 e2]; try discriminate H; cbn [xorb];
    try reflexivity;
    try (apply SFleb_zero_l; first [exact I | apply binary_round_aux_nonneg; lia]);
    try (apply SFleb_infinity_r, binary_round_aux_nonneg; lia).
  set (b := Z.min e1 e2).
  pose proof (SFleb_value m1 e1 m2 e2 b V1 V2 H ltac:(lia) ltac:(lia)) as Hv.
  assert (Hfine : forall m e, e + ec <= Z.max (Zdigits2 (Z.pos (m * mc)) + (e + ec) - 53) (-1074)).
  { intros m e. assert (53 <= Zdigits2 (Z.pos (m * mc))); [|lia].
    apply (Zdigits2_lower _ 52); [lia|]. rewrite Pos2Z.inj_mul. nia. }
  apply (binary_round_aux_mono (Z.pos (m1 * mc)) 1 _ _ _ (Z.pos (m2 * mc)) 1 _ _ _ (b + ec));
    try apply located_exact; try apply Hfine; try lia.
  replace (e1 + ec - (b + ec)) with (e1 - b) by lia.
  replace (e2 + ec - (b + ec)) with (e2 - b) by lia.
  rewrite !Pos2Z.inj_mul, !Z.mul_1_r.
  replace (Z.pos m1 * Z.pos mc * 2 ^ (e1 - b)) with (Z.pos m1 * 2 ^ (e1 - b) * Z.pos mc) by ring.
  replace (Z.pos m2 * Z.pos mc * 2 ^ (e2 - b)) with (Z.pos m2 * 2 ^ (e2 - b) * Z.pos mc) by ring.
  apply Z.mul_le_mono_nonneg_r; [lia | exact Hv].
Qed.

Lemma new_location_located nb r q :
  0 < nb -> 0 <= r < nb ->
  located (q * nb + r) nb (4 * q + code_of_loc (new_location nb r)).
Proof.
  intros Hnb Hr. unfold new_location, new_location_even, new_location_odd, located.
  destruct (Z.even nb) eqn:Ev; destruct (Z.eqb_spec r 0) as [->|Hr0]; cbn [code_of_loc].
  1, 3: left; rewrite even_code; split; [reflexivity | lia].
  - destruct (Z.compare_spec (2 * r) nb); cbn [code_of_loc]; rewrite even_code;
      [left | right | right]; (split; [reflexivity | lia]).
  - assert (Hodd : 2 * r <> nb).
    { intros <-. rewrite Z.even_mul in Ev. discriminate Ev. }
    destruct (Z.compare_spec (2 * r + 1) nb); cbn [code_of_loc]; rewrite even_code;
      right; (split; [reflexivity | lia]).
Qed.

(** The quotient computed by [SFdiv_core_binary] is a fine position of
    [mx * 2 ^ ex / (my * 2 ^ ey)]. *)
Lemma SFdiv_core_binary_located mx ex my ey q e' l :
  SFdiv_core_binary prec emax (Z.pos mx) ex (Z.pos my) ey = (q, e', l) ->
  e' <= ex - ey /\ 0 <= q /\
  located (Z.pos mx * 2 ^ (ex - ey - e')) (Z.pos my) (4 * q + code_of_loc l) /\
  e' <= Z.max (Zdigits2 q + e' - 53) (-1074).
Proof.
  unfold SFdiv_core_binary. rewrite fexp64.
  set (d1 := Zdigits2 (Z.pos mx)). set (d2 := Zdigits2 (Z.pos my)).
  set (e0 := Z.min (Z.max (d1 + ex - (d2 + ey) - 53) (-1074)) (ex - ey)).
  set (s := ex - ey - e0).
  assert (Hs : 0 <= s) by (unfold s, e0; lia).
  set (m' := match s with Z.pos _ => Z.shiftl (Z.pos mx) s | 0 => Z.pos mx | Z.neg _ => 0 end).
  assert (Hm' : m' = Z.pos mx * 2 ^ s).
  { unfold m'. destruct s as [|p|p]; [cbn; lia | apply Z.shiftl_mul_pow2; lia | lia]. }
  clearbody m'.
  pose proof (Z_div_mod m' (Z.pos my) ltac:(lia)) as Hdiv.
  destruct (Z.div_eucl m' (Z.pos my)) as [q0 r0]. destruct Hdiv as [Hq Hr].
  intros [= <- <- <-].
  assert (HP : 0 < 2 ^ s) by (apply pow2_pos; exact Hs).
  assert (Hq0 : 0 <= q0) by nia.
  split; [unfold e0; lia|]. split; [exact Hq0|]. split.
  - fold s. rewrite <- Hm', Hq. rewrite (Z.mul_comm (Z.pos my) q0).
    apply new_location_located; lia.
  - destruct (Z.le_gt_cases e0 (-1074)) as [Hlow|Hhigh]; [lia|].
    assert (He0 : e0 <= d1 + ex - (d2 + ey) - 53) by (unfold e0 in *; lia).
    destruct (Zdigits2_bounds (Z.pos mx) ltac:(lia)) as (Hd1 & Hlo1 & _).
    destruct (Zdigits2_bounds (Z.pos my) ltac:(lia)) as (Hd2 & _ & Hhi2).
    fold d1 in Hd1, Hlo1. fold d2 in Hd2, Hhi2.
    assert (Hs' : d2 + 52 <= d1 - 1 + s) by (unfold s; lia).
    set (j := d1 - 1 + s - d2) in *.
    assert (Hj : 0 <= j) by (unfold j; lia).
    assert (Hpow : 2 ^ (d1 - 1) * 2 ^ s = 2 ^ j * 2 ^ d2).
    { rewrite <- !pow2_split by lia. f_equal. unfold j. lia. }
    assert (HPj : 0 < 2 ^ j) by (apply pow2_pos; exact Hj).
    assert (HPd : 0 < 2 ^ d2) by (apply pow2_pos; lia).
    assert (Hge : 2 ^ j <= q0).
    { assert (H1 : 2 ^ j * 2 ^ d2 <= m') by (rewrite <- Hpow, Hm'; nia).
      assert (H2 : m' < (q0 + 1) * 2 ^ d2) by nia.
      assert (H3 : 2 ^ j * 2 ^ d2 < (q0 + 1) * 2 ^ d2) by lia.
      apply Z.mul_lt_mono_pos_r in H3; lia. }
    pose proof (Zdigits2_lower q0 j Hj Hge) as Hdq. unfold j in Hdq. unfold s in Hdq. lia.
Qed.

(** Division by a positive finite double is monotone on the non-negative
    doubles. *)
Lemma SF64div_mono x1 x2 my ey :
  valid_binary x1 = true -> valid_binary x2 = true ->
  sf_nonneg x1 -> SFleb x1 x2 = true ->
  SFleb (SF64div x1 (S754_finite false my ey)) (SF64div x2 (S754_finite false my ey)) = true.
Proof.
  intros V1 V2 P1 H. unfold SF64div, SFdiv.
  assert (Hnn : forall m e,
             sf_nonneg (let '(mz, ez, lz) := SFdiv_core_binary prec emax (Z.pos m) e (Z.pos my) ey in
                        binary_round_aux prec emax false mz ez lz)).
  { intros m e. pose proof (SFdiv_core_binary_nonneg m e my ey) as Hq.
    destruct (SFdiv_core_binary prec emax (Z.pos m) e (Z.pos my) ey) as [[mz ez] lz].
    apply binary_round_aux_nonneg, Hq. }
  destruct x1 as [s1|[|]| |[|] m1 e1]; cbn in P1; try contradiction;
    destruct x2 as [s2|[|]| |[|] m2 e2]; try discriminate H; cbn [xorb];
    try reflexivity;
    try (apply SFleb_zero_l; first [exact I | apply Hnn]);
    try (apply SFleb_infinity_r, Hnn).
  destruct (SFdiv_core_binary prec emax (Z.pos m1) e1 (Z.pos my) ey) as [[q1 e1'] l1] eqn:E1.
  destruct (SFdiv_core_binary prec emax (Z.pos m2) e2 (Z.pos my) ey) as [[q2 e2'] l2] eqn:E2.
  destruct (SFdiv_core_binary_located _ _ _ _ _ _ _ E1) as (Hs1 & Hq1 & L1 & F1).
  destruct (SFdiv_core_binary_located _ _ _ _ _ _ _ E2) as (Hs2 & Hq2 & L2 & F2).
  set (b := Z.min e1' e2').
  pose proof (SFleb_value m1 e1 m2 e2 (ey + b) V1 V2 H ltac:(lia) ltac:(lia)) as Hv.
  apply (binary_round_aux_mono (Z.pos m1 * 2 ^ (e1 - ey - e1')) (Z.pos my) q1 e1' l1
                               (Z.pos m2 * 2 ^ (e2 - ey - e2')) (Z.pos my) q2 e2' l2 b);
    try assumption; try lia.
  replace (Z.pos m1 * 2 ^ (e1 - ey - e1') * Z.pos my * 2 ^ (e1' - b))
    with (Z.pos m1 * (2 ^ (e1 - ey - e1') * 2 ^ (e1' - b)) * Z.pos my) by ring.
  replace (Z.pos m2 * 2 ^ (e2 - ey - e2') * Z.pos my * 2 ^ (e2' - b))
    with (Z.pos m2 * (2 ^ (e2 - ey - e2') * 2 ^ (e2' - b)) * Z.pos my) by ring.
  rewrite <- !pow2_split by lia.
  replace (e1 - ey - e1' + (e1' - b)) with (e1 - (ey + b)) by lia.
  replace (e2 - ey - e2' + (e2' - b)) with (e2 - (ey + b)) by lia.
  apply Z.mul_le_mono_nonneg_r; [lia | exact Hv].
Qed.

(** [Math.round] of the double [m * 2 ^ e], on a common denominator
    [2 ^ (- b)]. *)
Lemma Math_round_formula m e b :
  b <= e -> b <= 0 ->
  (if 0 <=? e then m * 2 ^ e else (2 * m + 2 ^ (- e)) / 2 ^ (- e + 1)) =
  (2 * (m * 2 ^ (e - b)) + 2 ^ (- b)) / (2 * 2 ^ (- b)).
Proof.
  intros Hbe Hb0.
  assert (HD : 0 < 2 ^ (- b)) by (apply pow2_pos; lia).
  destruct (Z.leb_spec 0 e) as [He|He].
  - replace (e - b) with (e + - b) by lia. rewrite pow2_split by lia.
    replace (2 * (m * (2 ^ e * 2 ^ (- b))) + 2 ^ (- b))
      with (m * 2 ^ e * (2 * 2 ^ (- b)) + 2 ^ (- b)) by ring.
    rewrite Z.div_add_l by lia. rewrite Z.div_small by lia. lia.
  - assert (HP : 0 < 2 ^ (e - b)) by (apply pow2_pos; lia).
    assert (HE : 0 < 2 ^ (- e)) by (apply pow2_pos; lia).
    replace (- b) with (- e + (e - b)) by lia. rewrite (pow2_split (- e) (e - b)) by lia.
    replace (- e + 1) with (1 + - e) by lia. rewrite (pow2_split 1 (- e)) by lia.
    change (2 ^ 1) with 2.
    replace (2 * (m * 2 ^ (e - b)) + 2 ^ (- e) * 2 ^ (e - b))
      with ((2 * m + 2 ^ (- e)) * 2 ^ (e - b)) by ring.
    replace (2 * (2 ^ (- e) * 2 ^ (e - b))) with (2 * 2 ^ (- e) * 2 ^ (e - b)) by ring.
    rewrite Z.div_mul_cancel_r by lia. reflexivity.
Qed.

(** [Math.min(Math.round(p), 100)] is monotone on the non-negative doubles. *)
Lemma Math_round_mono p1 p2 z1 z2 :
  sf_nonneg (Prim2SF p1) -> SFleb (Prim2SF p1) (Prim2SF p2) = true ->
  Math_min (Math_round p1) 100 = RInt z1 -> Math_min (Math_round p2) 100 = RInt z2 ->
  z1 <= z2.
Proof.
  intros P1 H.
  assert (P2 : sf_nonneg (Prim2SF p2)).
  { destruct (Prim2SF p1) as [s1|[|]| |[|] m1 e1]; cbn in P1; try contradiction;
      destruct (Prim2SF p2) as [s2|[|]| |[|] m2 e2]; try discriminate H; exact I. }
  pose proof (Math_round_nonneg p2 P2) as N2.
  pose proof (Prim2SF_valid p1) as V1. pose proof (Prim2SF_valid p2) as V2.
  assert (Hif : forall (c : bool) a b, (if c then RInt a else RInt b) = RInt (if c then a else b))
    by (intros [|]; reflexivity).
  unfold Math_round in *.
  destruct (Prim2SF p1) as [s1|[|]| |[|] m1 e1]; cbn in P1; try contradiction;
    destruct (Prim2SF p2) as [s2|[|]| |[|] m2 e2]; try discriminate H;
    rewrite ?Hif in *; cbn [Math_min]; intros [= <-] [= <-]; try lia.
  - destruct N2 as [(z & [= <-] & Hz) | [=]]. lia.
  - set (b := Z.min (Z.min e1 e2) 0).
    pose proof (SFleb_value m1 e1 m2 e2 b V1 V2 H ltac:(lia) ltac:(lia)) as Hv.
    rewrite (Math_round_formula (Z.pos m1) e1 b), (Math_round_formula (Z.pos m2) e2 b) by lia.
    apply Z.min_le_compat_r, Z.div_le_mono; [|lia].
    pose proof (pow2_pos (- b) ltac:(lia)). lia.
Qed.

(** The displayed percentage is monotonically non-decreasing in [raised]
    for a fixed positive [goal], in double-precision arithmetic. *)
Lemma progressPercentage_monotone r1 r2 goal z1 z2 :
  PrimFloat.ltb 0%float goal = true ->
  PrimFloat.leb 0%float r1 = true -> PrimFloat.leb r1 r2 = true ->
  progressPercentage r1 goal = RInt z1 -> progressPercentage r2 goal = RInt z2 ->
  z1 <= z2.
Proof.
  intros Hg H1 H12. unfold progressPercentage.
  pose proof (nonnegative_double r1 H1) as P1.
  rewrite leb_spec in H12.
  destruct (positive_double goal Hg) as [(mg & eg & Eg) | Eg].
  - apply Math_round_mono.
    + rewrite mul_spec. change (Prim2SF 100%float) with (S754_finite false 7036874417766400 (-46)).
      apply SF64mul_nonneg. rewrite div_spec, Eg.
      destruct (SF64div_nonneg (Prim2SF r1) (S754_finite false mg eg) P1 ltac:(eauto))
        as [H|(_ & _ & [=])]; exact H.
    + rewrite !mul_spec. change (Prim2SF 100%float) with (S754_finite false 7036874417766400 (-46)).
      apply SF64mul_mono; try apply Prim2SF_valid; [| | lia].
      * rewrite div_spec, Eg.
        destruct (SF64div_nonneg (Prim2SF r1) (S754_finite false mg eg) P1 ltac:(eauto))
          as [H|(_ & _ & [=])]; exact H.
      * rewrite !div_spec, Eg. apply SF64div_mono; try apply Prim2SF_valid; assumption.
  - unfold Math_round. rewrite !mul_spec, !div_spec, Eg.
    destruct (Prim2SF r1) as [s1|[|]| |[|] m1 e1]; cbn in P1; try contradiction;
      destruct (Prim2SF r2) as [s2|[|]| |[|] m2 e2]; try discriminate H12;
      cbn; intros [= <-] [= <-]; lia.
Qed.

End DoubleRounding.

Lemma spec_progress_monotone (r1 r2 g : Q) :
  (0 < g)%Q -> (r1 <= r2)%Q ->
  (spec_progress r1 g <= spec_progress r2 g)%Z /\ (spec_progress r2 g <= 100)%Z.
Proof.
  intros Hg Hr. unfold spec_progress, spec_round. split; [|lia].
  apply Z.min_le_compat_r, Qfloor_resp_le, Qplus_le_l.
  unfold Qdiv. apply Qmult_le_compat_r.
  - apply Qmult_le_l; [reflexivity | exact Hr].
  - apply Qinv_le_0_compat, Qlt_le_weak, Hg.
Qed.

(** C8 (amended). For [goal > 0] and [raised >= 0] the percentage displayed
    by CampaignCard, CampaignDetail and CampaignTracker is
    [min(Math.round((raised / goal) * 100), 100)] with the quotient and the
    product each rounded to a double: an integer between 0 and 100 (not a
    number only when both operands are infinite), for no input whatsoever
    a value above 100, and monotonically non-decreasing in [raised] for a
    fixed [goal].  It can differ from [min(round(100 * raised / goal), 100)]
    computed exactly, which is monotonically non-decreasing in [raised]
    and at most 100 as well. *)
Theorem C8_progress_percentage :
  (forall raised goal,
     PrimFloat.ltb 0%float goal = true -> PrimFloat.leb 0%float raised = true ->
     (exists z, progressPercentage raised goal = RInt z /\ (0 <= z <= 100)%Z) \/
     (progressPercentage raised goal = RNaN /\
      Prim2SF raised = S754_infinity false /\ Prim2SF goal = S754_infinity false)) /\
  (forall raised goal,
     match progressPercentage raised goal with
     | RInt z => (z <= 100)%Z
     | RInf false => False
     | _ => True
     end) /\
  (forall r1 r2 goal z1 z2,
     PrimFloat.ltb 0%float goal = true ->
     PrimFloat.leb 0%float r1 = true -> PrimFloat.leb r1 r2 = true ->
     progressPercentage r1 goal = RInt z1 -> progressPercentage r2 goal = RInt z2 ->
     (z1 <= z2)%Z) /\
  (forall r1 r2 g : Q,
     (0 < g)%Q -> (r1 <= r2)%Q ->
     (spec_progress r1 g <= spec_progress r2 g)%Z /\ (spec_progress r2 g <= 100)%Z).
Proof.
  split; [exact progressPercentage_range|].
  split; [exact progressPercentage_at_most_100|].
  split; [exact progressPercentage_monotone | exact spec_progress_monotone].
Qed.

Lemma C8_witness :
  (exists z, progressPercentage 23%float 40%float = RInt z /\ (0 <= z <= 100)%Z) /\
  (progressPercentage 22%float 40%float = RInt 55 /\
   progressPercentage 23%float 40%float = RInt 57 /\ (55 <= 57)%Z) /\
  (spec_progress (inject_Z 22) (inject_Z 40) <= spec_progress (inject_Z 23) (inject_Z 40))%Z.
Proof.
  destruct C8_progress_percentage as (Hrange & _ & Hdouble & Hmono).
  split; [|split].
  - destruct (Hrange 23%float 40%float eq_refl eq_refl) as [H | (H & _)].
    + exact H.
    + vm_compute in H. discriminate H.
  - split; [reflexivity | split; [reflexivity|]].
    apply (Hdouble 22%float 23%float 40%float 55%Z 57%Z); reflexivity.
  - apply (Hmono (inject_Z 22) (inject_Z 23) (inject_Z 40)).
    + reflexivity.
    + discriminate.
Defined.

(** ** C4: the server-issued nonce *)

(** C4, as stated, fails: with a well-formed nonce but no MiniKit object,
    [triggerMiniKitWalletAuth] throws before it reaches [walletAuth]; the
    nonce is passed to nobody. *)
Lemma C4_counterexample_valid_nonce_not_passed :
  MiniKitProvider.invalid_nonce server_nonce = false /\
  MiniKit platform_offline = None /\
  MiniKitProvider.triggerMiniKitWalletAuth platform_offline server_nonce world0 =
    (Throw (mkError "MiniKit is not available"), world0) /\
  wallet_calls (trace world0) = [].
Proof. repeat split; reflexivity. Qed.

Lemma trigger_invalid_nonce P n w :
  MiniKitProvider.invalid_nonce n = true ->
  MiniKitProvider.triggerMiniKitWalletAuth P n w =
    (Throw (mkError "A valid server-issued nonce is required to trigger wallet auth."), w).
Proof. intros H. unfold MiniKitProvider.triggerMiniKitWalletAuth. now rewrite H. Qed.

(** What [triggerMiniKitWalletAuth] appends: nothing, an install, the
    wallet call with the nonce it was given, or both in this order; it
    returns a payload only after the wallet call. *)
Lemma trigger_shape P n w :
  exists r new,
    MiniKitProvider.triggerMiniKitWalletAuth P n w =
      (r, mkWorld (localStorage w) (authState w) (trace w ++ new)) /\
    ((new = [] /\ exists e, r = Throw e) \/
     (new = [EMiniKitInstall (MiniKitProvider.appId_of_env P)] /\ exists e, r = Throw e) \/
     new = [EWalletAuth n] \/
     new = [EMiniKitInstall (MiniKitProvider.appId_of_env P); EWalletAuth n]).
Proof.
  destruct w as [st au t]. exec.
  all: first
    [ eexists _, []; rewrite app_nil_r; split; [reflexivity | left; eauto]
    | eexists _, _; split; [rewrite <- ?app_assoc; reflexivity | cbn [app]; eauto 6] ].
Qed.

Lemma trigger_ready P n w :
  MiniKitProvider.invalid_nonce n = false -> MiniKit_ready P ->
  exists new, appends (MiniKitProvider.triggerMiniKitWalletAuth P n) w new /\
              wallet_calls new = [n].
Proof.
  intros Hn (mk & walletAuth & Hmk & Hinst & Hwa).
  destruct Hinst as [Hi | Hi];
    exec_rw ltac:(first [rewrite Hn | rewrite Hmk | rewrite Hwa | rewrite Hi]).
  all: eexists; (split; [rewrite <- ?app_assoc; reflexivity | reflexivity]).
Qed.

Ltac use_verify :=
  match goal with
  | |- context [AuthService.verifyWalletSignature ?P ?p ?n ?w] =>
      let req := fresh "req" in
      let E := fresh "E" in
      destruct (verifyWalletSignature_shape P p n w)
        as (req & ?K & [(?e & E & ?Hnot)
                       | [(?tok & ?addr & ?t & ?err & ?V & ?Hts & ?Has & E)
                         | (?tok & ?addr & ?t & ?a & ?V & ?Hts & ?Has & E)]]);
      rewrite E; clear E; unfold message_or;
      try match goal with
        | V : verified _ _ _ _ _ |- _ =>
            let Ht := fresh "Ht" in
            let Ha := fresh "Ha" in
            pose proof V as (_ & _ & _ & _ & _ & _ & Ht & _ & Ha);
            rewrite ?Ht, ?Ha
        end
  end.

(** Run a component handler: the service calls it makes are replaced by
    what is known of them. *)
Ltac exec_ui sub :=
  autounfold with ui monad; reduce;
  repeat (first [ sub
                | match goal with
                  | H : truthy ?x = _ |- context [truthy ?x] => rewrite H
                  | H : ToString ?f ?x = _ |- context [ToString ?f ?x] => rewrite H
                  end
                | break_match ];
          cbn [negb andb orb] in *; reduce; try discriminate).

(** [loginWithWallet] either fails before any request, or posts to the
    verification endpoint the truthy nonce it read from the signed message. *)
Lemma loginWithWallet_cases P authResult w :
  exists new, appends (AuthContext.loginWithWallet P authResult) w new /\
    ((new = [] /\ exists e, result_of (AuthContext.loginWithWallet P authResult) w = Throw e) \/
     (exists m obj n req rest,
        get authResult "message" = Ret m /\ truthy m = true /\
        AuthContext.messageObj_of P m = Ret obj /\
        get obj "nonce" = Ret n /\ truthy n = true /\
        new = EFetch req :: ESettled :: rest /\ requests rest = [] /\
        verify_request P authResult n req)).
Proof.
  destruct w as [st au t].
  exec_ui ltac:(idtac; use_verify); negb_hyps.
  all: first
    [ exists []; split; [cbn [trace]; symmetry; apply app_nil_r | left; split; eauto ]
    | eexists; split; [cbn [trace]; rewrite <- ?app_assoc; cbn [app]; reflexivity|];
      right; do 5 eexists;
      repeat (split; [first [eassumption | reflexivity]|]); eassumption ].
Qed.

Lemma loginWithWallet_nonce_absent P authResult w m obj n :
  get authResult "message" = Ret m -> truthy m = true ->
  AuthContext.messageObj_of P m = Ret obj ->
  get obj "nonce" = Ret n -> truthy n = false ->
  result_of (AuthContext.loginWithWallet P authResult) w =
    Throw (mkError "Nonce missing in signed message from wallet") /\
  appends (AuthContext.loginWithWallet P authResult) w [] /\
  storage_after (AuthContext.loginWithWallet P authResult) w = localStorage w.
Proof.
  intros Hm Htm Ho Hn Htn.
  exec_ui ltac:(first [rewrite Hm | rewrite Htm | rewrite Ho | rewrite Hn | rewrite Htn]).
  repeat split. cbn [trace]. symmetry; apply app_nil_r.
Qed.

(** C4 (amended). [triggerMiniKitWalletAuth] throws, without touching the
    wallet, if the nonce is missing, not a string or shorter than 8
    characters; it never hands [walletAuth] anything but the nonce it was
    given, and hands it exactly that nonce whenever the nonce is well formed
    and MiniKit is there to be asked (defined, installed or installable, and
    exposing [commandsAsync.walletAuth]).  [loginWithWallet] posts to the
    verification endpoint only the truthy nonce it read from the
    wallet-signed message, and fails without any request when that nonce is
    absent or falsy. *)
Theorem C4_server_issued_nonce (P : Platform) (w : World) :
  (forall n,
     MiniKitProvider.invalid_nonce n = true ->
     MiniKitProvider.triggerMiniKitWalletAuth P n w =
       (Throw (mkError "A valid server-issued nonce is required to trigger wallet auth."), w)) /\
  (forall n,
     exists new, appends (MiniKitProvider.triggerMiniKitWalletAuth P n) w new /\
       (wallet_calls new = [] \/ wallet_calls new = [n])) /\
  (forall n,
     MiniKitProvider.invalid_nonce n = false -> MiniKit_ready P ->
     exists new, appends (MiniKitProvider.triggerMiniKitWalletAuth P n) w new /\
       wallet_calls new = [n]) /\
  (forall authResult,
     exists new, appends (AuthContext.loginWithWallet P authResult) w new /\
       ((new = [] /\
         exists e, result_of (AuthContext.loginWithWallet P authResult) w = Throw e) \/
        (exists m obj n req rest,
           get authResult "message" = Ret m /\ truthy m = true /\
           AuthContext.messageObj_of P m = Ret obj /\
           get obj "nonce" = Ret n /\ truthy n = true /\
           new = EFetch req :: ESettled :: rest /\ requests rest = [] /\
           verify_request P authResult n req))) /\
  (forall authResult m obj n,
     get authResult "message" = Ret m -> truthy m = true ->
     AuthContext.messageObj_of P m = Ret obj ->
     get obj "nonce" = Ret n -> truthy n = false ->
     result_of (AuthContext.loginWithWallet P authResult) w =
       Throw (mkError "Nonce missing in signed message from wallet") /\
     appends (AuthContext.loginWithWallet P authResult) w [] /\
     storage_after (AuthContext.loginWithWallet P authResult) w = localStorage w).
Proof.
  split; [intros n; apply trigger_invalid_nonce|].
  split.
  { intros n. destruct (trigger_shape P n w) as (r & new & E & Hnew).
    exists new. split; [unfold appends; rewrite E; reflexivity|].
    destruct Hnew as [[-> _] | [[-> _] | [-> | ->]]]; cbn; auto. }
  split; [intros n; apply trigger_ready|].
  split; [intros authResult; apply loginWithWallet_cases|].
  intros authResult m obj n. apply loginWithWallet_nonce_absent.
Qed.

Lemma C4_witness :
  (exists new,
     appends (MiniKitProvider.triggerMiniKitWalletAuth platform_wallet server_nonce) world0 new /\
     wallet_calls new = [server_nonce]) /\
  result_of (AuthContext.loginWithWallet platform_wallet payload_without_nonce) world0 =
    Throw (mkError "Nonce missing in signed message from wallet").
Proof.
  destruct (C4_server_issued_nonce platform_wallet world0) as (_ & _ & Hready & _ & Habsent).
  split.
  - apply Hready; [reflexivity|].
    exists minikit_installed, wallet_signs. repeat split; auto.
  - refine (proj1 (Habsent payload_without_nonce
                     (JObj [("statement", JStr "Sign in")])
                     (JObj [("statement", JStr "Sign in")]) JUndefined _ _ _ _ _));
      reflexivity.
Defined.

(** ** What the steps of the handshake append to the trace *)

Lemma getNonce_request P w : one_request (AuthService.getNonce P) w (nonce_request P).
Proof.
  unfold one_request, nonce_request. exec.
  all: eexists _, _; split; [rewrite <- ?app_assoc; reflexivity|].
  all: unfold request_to; cbn [url headers method body]; repeat split; auto using Endpoint.
Qed.

Ltac use_getNonce :=
  match goal with
  | |- context [AuthService.getNonce ?P ?w] =>
      let E := fresh "E" in
      destruct (getNonce_request P w) as (?r & ?req & E & ?K); rewrite E; clear E
  end.

Lemma getNonceForMiniKit_trace P w :
  exists req, nonce_request P req /\
    appends (AuthContext.getNonceForMiniKit P) w [EFetch req; ESettled].
Proof.
  exec_ui ltac:(idtac; use_getNonce).
  all: eexists; split; [eassumption | reflexivity].
Qed.


Lemma loginWithWallet_trace P authResult w :
  exists new, appends (AuthContext.loginWithWallet P authResult) w new /\ login_shape P new.
Proof.
  destruct w as [st au t]. unfold login_shape.
  exec_ui ltac:(idtac; use_verify); try congruence.
  all: first
    [ exists []; split; [cbn [trace]; symmetry; apply app_nil_r | left; reflexivity ]
    | eexists; split; [cbn [trace]; rewrite <- ?app_assoc; cbn [app]; reflexivity|];
      right; do 3 eexists; split; [eassumption|];
      first [ left; reflexivity
            | right; left; eexists; reflexivity
            | right; right; eexists _, _; reflexivity ] ].
Qed.

Lemma trigger_trace P n w :
  exists new, appends (MiniKitProvider.triggerMiniKitWalletAuth P n) w new /\
    ((new = [] /\
      exists e, result_of (MiniKitProvider.triggerMiniKitWalletAuth P n) w = Throw e) \/
     (new = [EMiniKitInstall (MiniKitProvider.appId_of_env P)] /\
      exists e, result_of (MiniKitProvider.triggerMiniKitWalletAuth P n) w = Throw e) \/
     new = [EWalletAuth n] \/
     new = [EMiniKitInstall (MiniKitProvider.appId_of_env P); EWalletAuth n]).
Proof.
  destruct (trigger_shape P n w) as (r & new & E & H).
  exists new. unfold appends, result_of. rewrite E. split; [reflexivity | exact H].
Qed.

(** ** C5: one attempt at a time *)

Create HintDb page discriminated.
#[local] Hint Unfold MiniKitProvider.window_triggerWalletAuth LandingPage.handleConnectWallet
  WLDDonationForm.handleSubmit CampaignDetail.handleDonate EditCampaignForm.handleSubmit
  CreateCampaignForm.onSubmit : page.

(** Replace a call by what is known of the trace it appends. *)
Ltac call_step :=
  match goal with
  | |- context [AuthContext.getNonceForMiniKit ?P ?w] =>
      let H := fresh "Happ" in
      destruct (getNonceForMiniKit_trace P w) as (?req & ?K & H);
      unfold appends in H;
      destruct (AuthContext.getNonceForMiniKit P w) as [?r ?w'] eqn:?;
      cbn [snd] in H
  | |- context [MiniKitProvider.triggerMiniKitWalletAuth ?P ?n ?w] =>
      let H := fresh "Happ" in
      let Hs := fresh "Hs" in
      destruct (trigger_trace P n w) as (?new & H & Hs);
      unfold appends, result_of in H, Hs;
      destruct (MiniKitProvider.triggerMiniKitWalletAuth P n w) as [?r ?w'] eqn:?;
      cbn [fst snd] in H, Hs;
      destruct Hs as [[-> [?e ->]] | [[-> [?e ->]] | [-> | ->]]]
  | |- context [AuthContext.loginWithWallet ?P ?a ?w] =>
      let H := fresh "Happ" in
      destruct (loginWithWallet_trace P a w)
        as (?new & H & [-> | (?req & ?payload & ?n & ?K &
                               [-> | [(?token & ->) | (?token & ?address & ->)]])]);
      unfold appends in H;
      destruct (AuthContext.loginWithWallet P a w) as [?r ?w'] eqn:?;
      cbn [snd] in H
  end.

Ltac exec_page sub :=
  autounfold with page monad; reduce;
  repeat (first [ sub
                | match goal with
                  | H : trace ?w = _ |- context [trace ?w] => rewrite H
                  end
                | break_match ];
          cbn [negb andb orb] in *; reduce; try discriminate).

Ltac guarded_solve :=
  eexists; split;
  [ cbn [trace]; rewrite <- ?app_assoc; cbn [app]; reflexivity
  | split; vm_compute; reflexivity ].

Lemma window_trigger_in_progress P w :
  MiniKitProvider.window_triggerWalletAuth P true w = (Ret (JBool false), w).
Proof. reflexivity. Qed.

Lemma window_trigger_guarded P :
  guarded_by (fun flag => flag) MiniKitProvider.ATTEMPTING
    (MiniKitProvider.window_triggerWalletAuth P false).
Proof.
  intros [st au t]. unfold appends.
  exec_page ltac:(idtac; call_step); guarded_solve.
Qed.

Lemma handleConnectWallet_not_reentrant P isConnectingWallet authIsLoading windowTrigger w :
  LandingPage.connect_disabled isConnectingWallet authIsLoading = true ->
  LandingPage.handleConnectWallet P isConnectingWallet authIsLoading windowTrigger w =
    (Ret tt, w).
Proof.
  unfold LandingPage.connect_disabled, LandingPage.handleConnectWallet. now intros ->.
Qed.

Lemma handleConnectWallet_guarded P authIsLoading windowTrigger :
  guarded_by (fun connecting => LandingPage.connect_disabled connecting authIsLoading)
    LandingPage.CONNECTING
    (LandingPage.handleConnectWallet P false false windowTrigger).
Proof.
  intros [st au t]. unfold appends.
  exec_page ltac:(idtac; call_step); guarded_solve.
Qed.

Ltac call_service :=
  match goal with
  | |- context [WLDPaymentService.donateWLD ?P ?i ?a ?t ?w] =>
      let E := fresh "E" in
      destruct (donateWLD_shape P i a t w) as (?r & ?new & E & [[-> _] | (?req & -> & _)]);
      rewrite E; clear E
  | |- context [CampaignService.recordDonation ?P ?i ?a ?t ?w] =>
      let E := fresh "E" in
      destruct (recordDonation_shape P i a t w) as (?r & ?req & E & _); rewrite E; clear E
  | |- context [CampaignService.fetchCampaign ?P ?i ?w] =>
      let E := fresh "E" in
      destruct (fetchCampaign_shape P i w) as (?r & ?req & E & _); rewrite E; clear E
  | |- context [CampaignService.updateCampaign ?P ?i ?p ?w] =>
      let E := fresh "E" in
      destruct (updateCampaign_shape P i p w) as (?r & ?req & E & _); rewrite E; clear E
  | |- context [CampaignService.createCampaign ?P ?p ?w] =>
      let E := fresh "E" in
      destruct (createCampaign_shape P p w) as (?r & ?req & E & _); rewrite E; clear E
  end.

Lemma WLDDonationForm_guarded P campaignId isAuthenticated amount txHash minAmount callback :
  guarded_by WLDDonationForm.submit_disabled WLDDonationForm.LOADING
    (WLDDonationForm.handleSubmit P campaignId isAuthenticated amount txHash minAmount callback).
Proof.
  intros [st au t]. unfold appends.
  exec_page ltac:(idtac; call_service); guarded_solve.
Qed.

Lemma CampaignDetail_guarded P id donationAmount donationTxHash :
  guarded_by CampaignDetail.submit_disabled CampaignDetail.DONATING
    (CampaignDetail.handleDonate P id donationAmount donationTxHash).
Proof.
  intros [st au t]. unfold appends.
  exec_page ltac:(idtac; call_service); guarded_solve.
Qed.

Lemma EditCampaignForm_guarded P id formData :
  guarded_by EditCampaignForm.submit_disabled EditCampaignForm.SUBMITTING
    (EditCampaignForm.handleSubmit P id formData).
Proof.
  intros [st au t]. unfold appends.
  exec_page ltac:(idtac; call_service); guarded_solve.
Qed.

Lemma CreateCampaignForm_guarded P form :
  guarded_by CreateCampaignForm.submit_disabled CreateCampaignForm.LOADING
    (CreateCampaignForm.onSubmit P form).
Proof.
  intros [st au t]. unfold appends.
  exec_page ltac:(idtac; call_service); guarded_solve.
Qed.

(** The flag at the moment a run is suspended: where the control is
    disabled at every awaited event, the cell it reads is set. *)
Lemma busy_while_awaited disabled cell cur pre e post :
  busy_while disabled cell cur (pre ++ e :: post) = true ->
  awaited e = true ->
  disabled (cell_after cell cur pre) = true.
Proof.
  revert cur. induction pre as [|x pre IH]; intros cur H He; cbn [app] in H.
  - destruct e; try discriminate He; cbn [busy_while cell_after] in *;
      apply andb_true_iff in H; tauto.
  - destruct x; cbn [busy_while cell_after] in *;
      try (apply andb_true_iff in H; destruct H as [_ H]);
      try match goal with |- context [String.eqb ?a ?b] => destruct (String.eqb a b) end;
      eauto.
Qed.

Lemma cell_after_awaited cell cur pre e :
  awaited e = true -> cell_after cell cur (pre ++ [e]) = cell_after cell cur pre.
Proof.
  intros He. revert cur. induction pre as [|x pre IH]; intros cur; cbn [app cell_after].
  - destruct e; try discriminate He; reflexivity.
  - destruct x; try apply IH.
    destruct (String.eqb cell0 cell); apply IH.
Qed.

Lemma guarded_by_suspended {A} disabled cell (c : M A) w pre :
  guarded_by disabled cell c -> suspended c w pre ->
  disabled (cell_after cell false pre) = true.
Proof.
  intros G (pre0 & e & post & -> & He & H).
  destruct (G w) as (new & Hn & Hb & _).
  unfold appends in *. rewrite Hn in H. apply app_inv_head in H. subst new.
  rewrite <- app_assoc in Hb. cbn [app] in Hb.
  rewrite cell_after_awaited by assumption.
  eapply busy_while_awaited; eauto.
Qed.

Lemma sets_cell_prefix cell cur pre post :
  sets_cell cell (pre ++ post) = false -> cell_after cell cur pre = cur.
Proof.
  revert cur. induction pre as [|x pre IH]; intros cur H; cbn [app sets_cell cell_after] in *;
    [reflexivity|].
  destruct x; auto.
  destruct (String.eqb cell0 cell); [discriminate | auto].
Qed.

Lemma never_sets_suspended {A} cell (c : M A) w pre :
  never_sets cell c -> suspended c w pre -> cell_after cell false pre = false.
Proof.
  intros N (pre0 & e & post & -> & He & H).
  destruct (N w) as (new & Hn & Hs).
  unfold appends in *. rewrite Hn in H. apply app_inv_head in H. subst new.
  eapply sets_cell_prefix; eauto.
Qed.

(** The connect button's own flow never touches the flag of
    [window.__triggerWalletAuth]. *)
Lemma handleConnectWallet_leaves_trigger_flag P :
  never_sets MiniKitProvider.ATTEMPTING (LandingPage.handleConnectWallet P false false None).
Proof.
  intros [st au t]. unfold appends.
  exec_page ltac:(idtac; call_step);
    (eexists; split;
     [ cbn [trace]; rewrite <- ?app_assoc; cbn [app]; reflexivity
     | vm_compute; reflexivity ]).
Qed.

(** A trigger whose flag is clear starts an attempt wherever it is called:
    it sets its flag and sends the nonce request. *)
Lemma window_trigger_starts P w :
  exists req rest,
    appends (MiniKitProvider.window_triggerWalletAuth P false) w
      (ESetState MiniKitProvider.ATTEMPTING (JBool true) :: EFetch req :: rest) /\
    nonce_request P req.
Proof.
  destruct w as [st au t]. unfold appends.
  exec_page ltac:(idtac; call_step);
    (eexists _, _; split;
     [ cbn [trace]; rewrite <- ?app_assoc; cbn [app]; reflexivity
     | eassumption ]).
Qed.

(** C5, as stated, fails: the connect button and [window.__triggerWalletAuth]
    keep different flags.  While the attempt started by the button (in the
    standard flow) is waiting for its nonce, [isAttemptingAuthViaWindow] is
    still clear, and [window.__triggerWalletAuth] called then does not return
    [false]: it runs a second handshake, two more requests, and returns
    [true]. *)
Lemma C5_counterexample_second_attempt_starts :
  suspended (LandingPage.handleConnectWallet platform_signin false false None)
    world_signed_out connect_in_flight /\
  cell_after MiniKitProvider.ATTEMPTING false connect_in_flight = false /\
  result_of (MiniKitProvider.window_triggerWalletAuth platform_signin
               (cell_after MiniKitProvider.ATTEMPTING false connect_in_flight))
    world_connect_in_flight = Ret (JBool true) /\
  fetch_count (trace world_connect_in_flight) = 1%nat /\
  fetch_count (trace (snd (MiniKitProvider.window_triggerWalletAuth platform_signin
                             (cell_after MiniKitProvider.ATTEMPTING false connect_in_flight)
                             world_connect_in_flight))) = 3%nat.
Proof.
  split; [|repeat split; vm_compute; reflexivity].
  exists [ESetState LandingPage.CONNECTING (JBool true); ESetState LandingPage.PAGE_ERROR JNull],
         (EFetch nonce_request_example).
  eexists. split; [reflexivity|]. split; [reflexivity|].
  unfold appends. vm_compute. reflexivity.
Qed.

(** C5 (amended). A handler refuses a second attempt through the flag that
    the render which created it has captured, and through that flag only.
    [window.__triggerWalletAuth] created while [isAttemptingAuthViaWindow]
    is set returns [false] at once and does nothing, and
    [handleConnectWallet] created while [isConnectingWallet] or the auth
    loading flag is set returns without acting.  An attempt that does start
    sets its own flag before its first request and clears it only after the
    last one has settled; so whenever it is suspended (waiting for the
    network, the wallet or MiniKit) its flag is set, and the same handler
    created by a render at that moment refuses.  The guard goes no further:
    a trigger whose flag is clear starts an attempt wherever it is called,
    and the attempt of the connect button (standard flow) leaves the
    trigger's flag clear all along.  Each donation or campaign form keeps
    its submit button disabled from before its first request until after
    its last one has settled. *)
Theorem C5_one_attempt_at_a_time (P : Platform) :
  (forall w,
     MiniKitProvider.window_triggerWalletAuth P true w = (Ret (JBool false), w)) /\
  guarded_by (fun flag => flag) MiniKitProvider.ATTEMPTING
    (MiniKitProvider.window_triggerWalletAuth P false) /\
  (forall w pre,
     suspended (MiniKitProvider.window_triggerWalletAuth P false) w pre ->
     forall w',
       MiniKitProvider.window_triggerWalletAuth P
         (cell_after MiniKitProvider.ATTEMPTING false pre) w' = (Ret (JBool false), w')) /\
  (forall isConnectingWallet authIsLoading windowTrigger w,
     LandingPage.connect_disabled isConnectingWallet authIsLoading = true ->
     LandingPage.handleConnectWallet P isConnectingWallet authIsLoading windowTrigger w =
       (Ret tt, w)) /\
  (forall authIsLoading windowTrigger,
     guarded_by (fun connecting => LandingPage.connect_disabled connecting authIsLoading)
       LandingPage.CONNECTING
       (LandingPage.handleConnectWallet P false false windowTrigger)) /\
  (forall windowTrigger w pre,
     suspended (LandingPage.handleConnectWallet P false false windowTrigger) w pre ->
     forall authIsLoading windowTrigger' w',
       LandingPage.handleConnectWallet P
         (cell_after LandingPage.CONNECTING false pre) authIsLoading windowTrigger' w' =
         (Ret tt, w')) /\
  (forall w,
     exists req rest,
       appends (MiniKitProvider.window_triggerWalletAuth P false) w
         (ESetState MiniKitProvider.ATTEMPTING (JBool true) :: EFetch req :: rest) /\
       nonce_request P req) /\
  (forall w pre,
     suspended (LandingPage.handleConnectWallet P false false None) w pre ->
     cell_after MiniKitProvider.ATTEMPTING false pre = false) /\
  (forall campaignId isAuthenticated amount txHash minAmount callback,
     guarded_by WLDDonationForm.submit_disabled WLDDonationForm.LOADING
       (WLDDonationForm.handleSubmit P campaignId isAuthenticated amount txHash minAmount
          callback)) /\
  (forall id donationAmount donationTxHash,
     guarded_by CampaignDetail.submit_disabled CampaignDetail.DONATING
       (CampaignDetail.handleDonate P id donationAmount donationTxHash)) /\
  (forall id formData,
     guarded_by EditCampaignForm.submit_disabled EditCampaignForm.SUBMITTING
       (EditCampaignForm.handleSubmit P id formData)) /\
  (forall form,
     guarded_by CreateCampaignForm.submit_disabled CreateCampaignForm.LOADING
       (CreateCampaignForm.onSubmit P form)).
Proof.
  split; [apply window_trigger_in_progress|].
  split; [apply window_trigger_guarded|].
  split.
  { intros w pre H w'.
    rewrite (guarded_by_suspended (fun flag => flag) _ _ w pre (window_trigger_guarded P) H).
    reflexivity. }
  split; [apply handleConnectWallet_not_reentrant|].
  split; [intros; apply handleConnectWallet_guarded|].
  split.
  { intros windowTrigger w pre H authIsLoading windowTrigger' w'.
    pose proof (guarded_by_suspended _ _ _ w pre
                  (handleConnectWallet_guarded P false windowTrigger) H) as G.
    unfold LandingPage.connect_disabled in G. rewrite orb_false_r in G.
    unfold LandingPage.handleConnectWallet. rewrite G. reflexivity. }
  split; [apply window_trigger_starts|].
  split.
  { intros w pre H.
    exact (never_sets_suspended _ _ w pre (handleConnectWallet_leaves_trigger_flag P) H). }
  split; [intros; apply WLDDonationForm_guarded|].
  split; [intros; apply CampaignDetail_guarded|].
  split; [intros; apply EditCampaignForm_guarded|].
  intros; apply CreateCampaignForm_guarded.
Qed.

(** The handshake of the connect button on a backend that accepts it: while
    the nonce request is in flight the button's own handler, created then,
    refuses. *)
Lemma C5_witness :
  suspended (LandingPage.handleConnectWallet platform_signin false false None)
    world_signed_out connect_in_flight /\
  LandingPage.handleConnectWallet platform_signin
    (cell_after LandingPage.CONNECTING false connect_in_flight) false None
    world_connect_in_flight = (Ret tt, world_connect_in_flight).
Proof.
  destruct (C5_one_attempt_at_a_time platform_signin) as (_ & _ & _ & _ & _ & H & _).
  assert (suspended (LandingPage.handleConnectWallet platform_signin false false None)
            world_signed_out connect_in_flight) as Hs;
    [ | split; [exact Hs | exact (H None world_signed_out connect_in_flight Hs false None _)] ].
  exists [ESetState LandingPage.CONNECTING (JBool true); ESetState LandingPage.PAGE_ERROR JNull],
         (EFetch nonce_request_example).
  eexists. split; [reflexivity|]. split; [reflexivity|].
  unfold appends. vm_compute. reflexivity.
Defined.

(** ** C1: the handshake and the moment the session is stored *)

Lemma truthy_has_field data k v :
  get data k = Ret v -> truthy v = true -> has_field data k = true.
Proof.
  destruct data; cbn; try discriminate; try (intros [= <-]; discriminate).
  destruct (assoc k fields); [reflexivity | intros [= <-]; discriminate].
Qed.

Lemma handleConnectWallet_handshake P isConnectingWallet authIsLoading windowTrigger w :
  exists new,
    appends (LandingPage.handleConnectWallet P isConnectingWallet authIsLoading windowTrigger)
      w new /\
    Handshake P (core new).
Proof.
  destruct w as [st au t]. unfold appends.
  exec_page ltac:(idtac; call_step).
  all: first
    [ exists []; split; [cbn [trace]; symmetry; apply app_nil_r | cbn [core]; constructor ]
    | eexists; split;
      [ cbn [trace]; rewrite <- ?app_assoc; cbn [app]; reflexivity
      | cbn [core]; econstructor; eassumption ] ].
Qed.

(** What [verifyWalletSignature] writes, and when. *)
Lemma verifyWalletSignature_session P payload n w :
  exists req, verify_request P payload n req /\
    ((exists tok addr t a,
        verified P w req tok addr /\
        ToString (NumberToString P) tok = Ret t /\
        ToString (NumberToString P) addr = Ret a /\
        appends (AuthService.verifyWalletSignature P payload n) w
          [EFetch req; ESettled;
           ESetItem SESSION_TOKEN_KEY t; ESetItem WALLET_ADDRESS_KEY a] /\
        sets_both (localStorage w)
          (storage_after (AuthService.verifyWalletSignature P payload n) w) t a /\
        result_of (AuthService.verifyWalletSignature P payload n) w =
          Ret (JObj [("success", JBool true); ("token", tok); ("walletAddress", addr)]))
     \/
     (exists tok addr t err,
        verified P w req tok addr /\
        ToString (NumberToString P) tok = Ret t /\
        ToString (NumberToString P) addr = Throw err /\
        appends (AuthService.verifyWalletSignature P payload n) w
          [EFetch req; ESettled; ESetItem SESSION_TOKEN_KEY t] /\
        sets_token_only (localStorage w)
          (storage_after (AuthService.verifyWalletSignature P payload n) w) t /\
        result_of (AuthService.verifyWalletSignature P payload n) w =
          Ret (failure (message_or err "Network error during verification")))
     \/
     ((forall tok addr, verified P w req tok addr -> ~ convertible P tok) /\
      appends (AuthService.verifyWalletSignature P payload n) w [EFetch req; ESettled] /\
      storage_after (AuthService.verifyWalletSignature P payload n) w = localStorage w /\
      exists e, result_of (AuthService.verifyWalletSignature P payload n) w =
                  Ret (failure e))) /\
    (((exists e, network P (fetch_count (trace w)) req = Throw e) \/
      (exists res, network P (fetch_count (trace w)) req = Ret res /\
         (ok res = false \/
          exists data, json res = Ret data /\
            (has_field data "token" = false \/ has_field data "walletAddress" = false)))) ->
     appends (AuthService.verifyWalletSignature P payload n) w [EFetch req; ESettled] /\
     storage_after (AuthService.verifyWalletSignature P payload n) w = localStorage w /\
     exists e, result_of (AuthService.verifyWalletSignature P payload n) w = Ret (failure e)).
Proof.
  assert (early : forall req tok addr,
            verified P w req tok addr ->
            ((exists e, network P (fetch_count (trace w)) req = Throw e) \/
             (exists res, network P (fetch_count (trace w)) req = Ret res /\
                (ok res = false \/
                 exists data, json res = Ret data /\
                   (has_field data "token" = false \/
                    has_field data "walletAddress" = false)))) -> False).
  { intros req tok addr (res & data & Hn & Hok & Hj & Hgt & Ht & Hga & Ha)
      [(e & He) | (res' & Hn' & [Hok' | (data' & Hj' & Hf)])]; try congruence.
    assert (data' = data) by congruence. subst data'.
    pose proof (truthy_has_field _ _ _ Hgt Ht).
    pose proof (truthy_has_field _ _ _ Hga Ha).
    destruct Hf; congruence. }
  destruct (verifyWalletSignature_shape P payload n w)
    as (req & K & [(e & E & Hnot) | [(tok & addr & t & err & V & Ht & Ha & E)
                                    | (tok & addr & t & a & V & Ht & Ha & E)]]);
    exists req; (split; [exact K|]);
    unfold appends, storage_after, result_of; rewrite E; cbn [fst snd trace localStorage].
  - split; [right; right|]; [split|]; eauto.
    intros tok addr V (s & Hs). destruct (Hnot _ _ V) as (err & Herr). congruence.
  - split.
    + right; left. exists tok, addr, t, err.
      repeat (split; [first [assumption | reflexivity]|]).
      split; [apply sets_token_only_insert | reflexivity].
    + intros H. destruct (early _ _ _ V H).
  - split.
    + left. exists tok, addr, t, a.
      repeat (split; [first [assumption | reflexivity]|]).
      split; [apply sets_both_insert | reflexivity].
    + intros H. destruct (early _ _ _ V H).
Qed.

Lemma getNonceForMiniKit_run P w :
  exists req, nonce_request P req /\
    ((exists n,
        nonce_issued P w req n /\
        AuthContext.getNonceForMiniKit P w =
          (Ret n,
           mkWorld (localStorage w)
             (mkAuthState (isAuthenticated (authState w)) (walletAddress (authState w))
                (sessionToken (authState w)) false JNull n)
             (trace w ++ [EFetch req; ESettled]))) \/
     ((forall n, ~ nonce_issued P w req n) /\
      exists e,
        AuthContext.getNonceForMiniKit P w =
          (Throw e,
           mkWorld (localStorage w) (failed_state (authState w) (JStr (message e)))
             (trace w ++ [EFetch req; ESettled])))).
Proof.
  destruct w as [st au t]. unfold nonce_request, nonce_issued, failed_state, isError_message.
  autounfold with ui js monad. reduce.
  repeat (first [use_headers | break_match]; cbn [negb andb orb] in *; reduce; try discriminate).
  all: negb_hyps.
  all: cbn [isAuthenticated walletAddress sessionToken nonce error message].
  all: (eexists; split; cycle 1).
  all: try first
    [ right; split; [ | eexists; reflexivity ];
      intros ? (? & ? & ? & ? & ? & ? & ?);
      repeat match goal with
        | H : ?a = _, H' : ?a = _ |- _ => rewrite H in H'; inversion H'; subst; clear H'
        end; congruence
    | left; eexists; split;
      [ do 2 eexists; repeat (split; [first [eassumption | reflexivity]|]); eassumption
      | reflexivity ] ].
  all: unfold request_to; cbn [url headers method body]; repeat split; auto using Endpoint.
Qed.

Lemma signed_nonce_unique P authResult n n' :
  signed_nonce P authResult n -> signed_nonce P authResult n' -> n = n'.
Proof.
  intros (m & obj & A & _ & B & C & _) (m' & obj' & A' & _ & B' & C' & _). congruence.
Qed.

Lemma verified_unique P w req tok addr tok' addr' :
  verified P w req tok addr -> verified P w req tok' addr' -> tok = tok' /\ addr = addr'.
Proof.
  intros (res & data & A & _ & B & C & _ & D & _) (res' & data' & A' & _ & B' & C' & _ & D' & _).
  split; congruence.
Qed.

Lemma loginWithWallet_run P authResult w :
  (exists n req tok addr t a,
     signed_nonce P authResult n /\ verify_request P authResult n req /\
     verified P w req tok addr /\
     ToString (NumberToString P) tok = Ret t /\
     ToString (NumberToString P) addr = Ret a /\
     AuthContext.loginWithWallet P authResult w =
       (Ret tt,
        mkWorld (<[WALLET_ADDRESS_KEY := a]> (<[SESSION_TOKEN_KEY := t]>
                   (<[WALLET_ADDRESS_KEY := a]> (<[SESSION_TOKEN_KEY := t]> (localStorage w)))))
          (mkAuthState true addr tok false JNull JNull)
          (trace w ++ [EFetch req; ESettled;
                       ESetItem SESSION_TOKEN_KEY t; ESetItem WALLET_ADDRESS_KEY a;
                       ESetItem SESSION_TOKEN_KEY t; ESetItem WALLET_ADDRESS_KEY a;
                       ENavigate "/dashboard"]))) \/
  (exists n req tok addr t err e,
     signed_nonce P authResult n /\ verify_request P authResult n req /\
     verified P w req tok addr /\
     ToString (NumberToString P) tok = Ret t /\
     ToString (NumberToString P) addr = Throw err /\
     AuthContext.loginWithWallet P authResult w =
       (Throw e,
        mkWorld (<[SESSION_TOKEN_KEY := t]> (localStorage w))
          (failed_state (authState w) (message_or e "Wallet login failed"))
          (trace w ++ [EFetch req; ESettled; ESetItem SESSION_TOKEN_KEY t]))) \/
  (exists e new,
     AuthContext.loginWithWallet P authResult w =
       (Throw e,
        mkWorld (localStorage w)
          (failed_state (authState w) (message_or e "Wallet login failed"))
          (trace w ++ new)) /\
     ((new = [] /\ forall n, ~ signed_nonce P authResult n) \/
      exists n req,
        signed_nonce P authResult n /\ verify_request P authResult n req /\
        new = [EFetch req; ESettled] /\
        forall tok addr, verified P w req tok addr -> ~ convertible P tok)).
Proof.
  destruct w as [st au t]. unfold failed_state.
  exec_ui ltac:(idtac; use_verify); try congruence.
  all: cbn [isAuthenticated walletAddress sessionToken nonce].
  all: negb_hyps.
  all: try solve
    [ left; do 6 eexists;
      split; [do 2 eexists; repeat (split; [eassumption|]); eassumption|];
      repeat (split; [eassumption|]);
      rewrite <- ?app_assoc; reflexivity
    | right; left; do 7 eexists;
      split; [do 2 eexists; repeat (split; [eassumption|]); eassumption|];
      repeat (split; [eassumption|]);
      match goal with |- (Throw ?x, _) = (Throw ?e, _) => unify e x end;
      cbn [message];
      repeat match goal with H : (_ =? "")%string = _ |- _ => rewrite H; clear H end;
      rewrite <- ?app_assoc; reflexivity
    | right; right;
      match goal with |- exists e new, (Throw ?x, _) = _ /\ _ => exists x end;
      cbn [message];
      repeat match goal with H : (_ =? "")%string = _ |- _ => rewrite H; clear H end;
      first
        [ exists []; rewrite app_nil_r; split; [reflexivity|]; left; split; [reflexivity|];
          intros ? (? & ? & ? & ? & ? & ? & ?);
          repeat match goal with
            | H : ?a = _, H' : ?a = _ |- _ => rewrite H in H'; inversion H'; subst; clear H'
            end; congruence
        | eexists; split; [reflexivity|]; right; do 2 eexists;
          split; [do 2 eexists; repeat (split; [eassumption|]); eassumption|];
          split; [eassumption|]; split; [reflexivity|];
          intros ? ? V (? & ?);
          match goal with
          | Hnot : forall _ _, verified _ _ _ _ _ -> _ |- _ =>
              destruct (Hnot _ _ V) as (? & ?); congruence
          end ] ].
Qed.

Lemma trigger_good P n p w :
  MiniKitProvider.invalid_nonce n = false -> wallet_signed P n p ->
  exists install,
    (install = [] \/ install = [EMiniKitInstall (MiniKitProvider.appId_of_env P)]) /\
    MiniKitProvider.triggerMiniKitWalletAuth P n w =
      (Ret p, mkWorld (localStorage w) (authState w) (trace w ++ install ++ [EWalletAuth n])).
Proof.
  intros Hn (mk & walletAuth & result & status & Hmk & Hinst & Hwa & Hr & Htr & Hp & Htp & Hst & Hs).
  destruct w as [st au t].
  destruct Hinst as [Hi | Hi];
    exec_rw ltac:(first [rewrite Hn | rewrite Hmk | rewrite Hwa | rewrite Hi | rewrite Hr
                        | rewrite Htr | rewrite Hp | rewrite Htp | rewrite Hst | rewrite Hs]).
  all: first [ exists []; split; [left; reflexivity | reflexivity]
             | eexists [_]; split; [right; reflexivity | rewrite <- ?app_assoc; reflexivity] ].
Qed.

Lemma trigger_returns P n r w w' :
  MiniKitProvider.triggerMiniKitWalletAuth P n w = (Ret r, w') ->
  MiniKitProvider.invalid_nonce n = false /\ wallet_signed P n r.
Proof.
  unfold wallet_signed, MiniKitProvider.triggerMiniKitWalletAuth.
  destruct (MiniKitProvider.invalid_nonce n) eqn:Hn; [discriminate|].
  destruct (MiniKit P) as [mk|] eqn:Hmk; [|discriminate].
  destruct (mk_walletAuth mk) as [walletAuth|] eqn:Hwa.
  - exec; intros H; try discriminate H; injection H as <- <-.
    all: negb_hyps.
    all: (split; [reflexivity|]).
    all: exists mk, walletAuth; do 2 eexists.
    all: split; [reflexivity|].
    all: repeat match goal with u : unit |- _ => destruct u end.
    all: split; [first [left; assumption | right; assumption]|].
    all: repeat (split; [first [eassumption | reflexivity]|]); eassumption.
  - exec; intros H; discriminate H.
Qed.

Lemma fetch_count_app t1 t2 : fetch_count (t1 ++ t2) = (fetch_count t1 + fetch_count t2)%nat.
Proof. unfold fetch_count. rewrite requests_app. apply length_app. Qed.

Lemma nonce_issued_unique P w req n n' :
  nonce_issued P w req n -> nonce_issued P w req n' -> n = n'.
Proof.
  intros (res & data & A & _ & B & C & _) (res' & data' & A' & _ & B' & C' & _). congruence.
Qed.

(** The three steps in a row, when everything goes well. *)
Lemma handshake_steps P w w0 serverNonce authPayload signedNonce tok addr :
  handshake_goes_well P w serverNonce authPayload signedNonce tok addr ->
  fetch_count (trace w0) = fetch_count (trace w) ->
  exists req req' install t a,
    nonce_request P req /\ verify_request P authPayload signedNonce req' /\
    (install = [] \/ install = [EMiniKitInstall (MiniKitProvider.appId_of_env P)]) /\
    ToString (NumberToString P) tok = Ret t /\
    ToString (NumberToString P) addr = Ret a /\
    exists w1 w2,
      AuthContext.getNonceForMiniKit P w0 = (Ret serverNonce, w1) /\
      MiniKitProvider.triggerMiniKitWalletAuth P serverNonce w1 = (Ret authPayload, w2) /\
      AuthContext.loginWithWallet P authPayload w2 =
        (Ret tt,
         mkWorld (<[WALLET_ADDRESS_KEY := a]> (<[SESSION_TOKEN_KEY := t]>
                    (<[WALLET_ADDRESS_KEY := a]> (<[SESSION_TOKEN_KEY := t]> (localStorage w0)))))
           (mkAuthState true addr tok false JNull JNull)
           (trace w0 ++ [EFetch req; ESettled] ++ install ++
              [EWalletAuth serverNonce; EFetch req'; ESettled;
               ESetItem SESSION_TOKEN_KEY t; ESetItem WALLET_ADDRESS_KEY a;
               ESetItem SESSION_TOKEN_KEY t; ESetItem WALLET_ADDRESS_KEY a;
               ENavigate "/dashboard"])).
Proof.
  intros (Hn & Hinv & Hw & Hs & Hv & (t & Ht) & (a & Ha)) Hc.
  destruct (getNonceForMiniKit_run P w0) as (req & K & [(n & Hi & E1) | (Hno & _)]); cycle 1.
  { exfalso. apply (Hno serverNonce). unfold nonce_issued in *. rewrite Hc. apply Hn, K. }
  assert (n = serverNonce) as ->.
  { eapply nonce_issued_unique; [exact Hi|]. unfold nonce_issued in *. rewrite Hc.
    apply Hn, K. }
  match type of E1 with _ = (_, ?w) => set (w1 := w) in * end.
  destruct (trigger_good P serverNonce authPayload w1 Hinv Hw) as (install & Hin & E2).
  match type of E2 with _ = (_, ?w) => set (w2 := w) in * end.
  assert (Hc2 : fetch_count (trace w2) = (fetch_count (trace w) + 1)%nat).
  { subst w2 w1. cbn [trace]. rewrite !fetch_count_app, Hc.
    destruct Hin as [-> | ->]; cbn; lia. }
  assert (V : forall r, verify_request P authPayload signedNonce r ->
                        verified P w2 r tok addr).
  { intros r Kr. unfold verified. rewrite Hc2. auto. }
  destruct (loginWithWallet_run P authPayload w2)
    as [(n & req' & tok' & addr' & t' & a' & Sn & K' & V' & Ht' & Ha' & E3)
       | [(n & req' & tok' & addr' & t' & err & e & Sn & K' & V' & Ht' & Ha' & E3)
         | (e & new & E3 & [[_ Hno] | (n & req' & Sn & K' & _ & Hno)])]].
  - assert (n = signedNonce) as -> by (eapply signed_nonce_unique; eassumption).
    destruct (verified_unique _ _ _ _ _ _ _ (V req' K') V') as [<- <-].
    assert (t' = t) as -> by congruence. assert (a' = a) as -> by congruence.
    exists req, req', install, t, a. repeat (split; [assumption|]).
    exists w1, w2. split; [exact E1|]. split; [exact E2|].
    rewrite E3. subst w2 w1. cbn [localStorage trace]. rewrite <- !app_assoc. reflexivity.
  - assert (n = signedNonce) as -> by (eapply signed_nonce_unique; eassumption).
    destruct (verified_unique _ _ _ _ _ _ _ (V req' K') V') as [<- <-]. congruence.
  - exfalso. exact (Hno _ Hs).
  - assert (n = signedNonce) as -> by (eapply signed_nonce_unique; eassumption).
    exfalso. apply (Hno tok addr (V req' K')). exists t. exact Ht.
Qed.

Lemma handleConnectWallet_completes P w serverNonce authPayload signedNonce tok addr
    windowTrigger :
  handshake_goes_well P w serverNonce authPayload signedNonce tok addr ->
  windowTrigger <> Some true ->
  exists req req' t a new,
    nonce_request P req /\ verify_request P authPayload signedNonce req' /\
    ToString (NumberToString P) tok = Ret t /\
    ToString (NumberToString P) addr = Ret a /\
    result_of (LandingPage.handleConnectWallet P false false windowTrigger) w = Ret tt /\
    appends (LandingPage.handleConnectWallet P false false windowTrigger) w new /\
    core new = [EFetch req; EWalletAuth serverNonce; EFetch req';
                ESetItem SESSION_TOKEN_KEY t; ESetItem WALLET_ADDRESS_KEY a;
                ESetItem SESSION_TOKEN_KEY t; ESetItem WALLET_ADDRESS_KEY a] /\
    authState (snd (LandingPage.handleConnectWallet P false false windowTrigger w)) =
      mkAuthState true addr tok false JNull JNull /\
    sets_both (localStorage w)
      (storage_after (LandingPage.handleConnectWallet P false false windowTrigger) w) t a.
Proof.
  intros G Hwt. unfold result_of, appends, storage_after, LandingPage.handleConnectWallet.
  cbn [orb].
  destruct (if DEV (env P) then windowTrigger else None) as [[|]|] eqn:Hflow.
  - destruct (DEV (env P)); congruence.
  - unfold MiniKitProvider.window_triggerWalletAuth. autounfold with monad.
    cbn [localStorage authState trace fst snd].
    match goal with
    | |- context [AuthContext.getNonceForMiniKit P ?w0] =>
        destruct (handshake_steps P w w0 _ _ _ _ _ G)
          as (req & req' & install & t & a & K & K' & Hin & Ht & Ha & w1 & w2 & E1 & E2 & E3)
    end.
    { cbn [trace]. rewrite !fetch_count_app. cbn. lia. }
    rewrite E1, E2, E3. cbn [localStorage authState trace fst snd truthy negb].
    exists req, req', t, a. eexists. repeat (split; [first [assumption | reflexivity]|]).
    split; [rewrite <- !app_assoc; reflexivity|].
    split; [|split; [reflexivity | apply sets_both_insert_twice]].
    destruct Hin as [-> | ->]; reflexivity.
  - autounfold with monad.
    cbn [localStorage authState trace fst snd].
    match goal with
    | |- context [AuthContext.getNonceForMiniKit P ?w0] =>
        destruct (handshake_steps P w w0 _ _ _ _ _ G)
          as (req & req' & install & t & a & K & K' & Hin & Ht & Ha & w1 & w2 & E1 & E2 & E3)
    end.
    { cbn [trace]. rewrite !fetch_count_app. cbn. lia. }
    rewrite E1, E2, E3. cbn [localStorage authState trace fst snd truthy negb].
    exists req, req', t, a. eexists. repeat (split; [first [assumption | reflexivity]|]).
    split; [rewrite <- !app_assoc; reflexivity|].
    split; [|split; [reflexivity | apply sets_both_insert_twice]].
    destruct Hin as [-> | ->]; reflexivity.
Qed.

(** C1. [handleConnectWallet] runs the handshake in order, as far as it
    gets: the nonce is fetched, then the wallet is asked to sign, then the
    signature is posted to [/auth/verify-signature], then the session is
    stored; and when the nonce, the wallet and the verification all go
    well it gets to the end: the session is stored and the user is
    authenticated.  [verifyWalletSignature] issues one request and writes
    to localStorage only after that request was answered by an OK response
    whose body contains a token and a walletAddress: the token first, then
    the address, each converted to a string, so that an address that cannot
    be converted leaves the token written and the result
    [success: false]; whenever the request is rejected, answered with a
    non-OK status, or answered without a token or without a walletAddress,
    nothing is written and the result is [success: false]. *)
Theorem C1_handshake_is_sequential (P : Platform) (w : World) :
  (forall isConnectingWallet authIsLoading windowTrigger,
     exists new,
       appends (LandingPage.handleConnectWallet P isConnectingWallet authIsLoading windowTrigger)
         w new /\
       Handshake P (core new)) /\
  (forall serverNonce authPayload signedNonce tok addr windowTrigger,
     handshake_goes_well P w serverNonce authPayload signedNonce tok addr ->
     windowTrigger <> Some true ->
     exists req req' t a new,
       nonce_request P req /\ verify_request P authPayload signedNonce req' /\
       ToString (NumberToString P) tok = Ret t /\
       ToString (NumberToString P) addr = Ret a /\
       result_of (LandingPage.handleConnectWallet P false false windowTrigger) w = Ret tt /\
       appends (LandingPage.handleConnectWallet P false false windowTrigger) w new /\
       core new = [EFetch req; EWalletAuth serverNonce; EFetch req';
                   ESetItem SESSION_TOKEN_KEY t; ESetItem WALLET_ADDRESS_KEY a;
                   ESetItem SESSION_TOKEN_KEY t; ESetItem WALLET_ADDRESS_KEY a] /\
       authState (snd (LandingPage.handleConnectWallet P false false windowTrigger w)) =
         mkAuthState true addr tok false JNull JNull /\
       sets_both (localStorage w)
         (storage_after (LandingPage.handleConnectWallet P false false windowTrigger) w) t a) /\
  (forall payload n,
     exists req, verify_request P payload n req /\
       ((exists tok addr t a,
           verified P w req tok addr /\
           ToString (NumberToString P) tok = Ret t /\
           ToString (NumberToString P) addr = Ret a /\
           appends (AuthService.verifyWalletSignature P payload n) w
             [EFetch req; ESettled;
              ESetItem SESSION_TOKEN_KEY t; ESetItem WALLET_ADDRESS_KEY a] /\
           sets_both (localStorage w)
             (storage_after (AuthService.verifyWalletSignature P payload n) w) t a /\
           result_of (AuthService.verifyWalletSignature P payload n) w =
             Ret (JObj [("success", JBool true); ("token", tok); ("walletAddress", addr)]))
        \/
        (exists tok addr t err,
           verified P w req tok addr /\
           ToString (NumberToString P) tok = Ret t /\
           ToString (NumberToString P) addr = Throw err /\
           appends (AuthService.verifyWalletSignature P payload n) w
             [EFetch req; ESettled; ESetItem SESSION_TOKEN_KEY t] /\
           sets_token_only (localStorage w)
             (storage_after (AuthService.verifyWalletSignature P payload n) w) t /\
           result_of (AuthService.verifyWalletSignature P payload n) w =
             Ret (failure (message_or err "Network error during verification")))
        \/
        ((forall tok addr, verified P w req tok addr -> ~ convertible P tok) /\
         appends (AuthService.verifyWalletSignature P payload n) w [EFetch req; ESettled] /\
         storage_after (AuthService.verifyWalletSignature P payload n) w = localStorage w /\
         exists e, result_of (AuthService.verifyWalletSignature P payload n) w =
                     Ret (failure e))) /\
       (((exists e, network P (fetch_count (trace w)) req = Throw e) \/
         (exists res, network P (fetch_count (trace w)) req = Ret res /\
            (ok res = false \/
             exists data, json res = Ret data /\
               (has_field data "token" = false \/ has_field data "walletAddress" = false)))) ->
        appends (AuthService.verifyWalletSignature P payload n) w [EFetch req; ESettled] /\
        storage_after (AuthService.verifyWalletSignature P payload n) w = localStorage w /\
        exists e, result_of (AuthService.verifyWalletSignature P payload n) w =
                    Ret (failure e))).
Proof.
  split; [|split].
  - intros. apply handleConnectWallet_handshake.
  - intros. eapply handleConnectWallet_completes; eassumption.
  - intros. apply verifyWalletSignature_session.
Qed.

(** On a backend that issues a nonce and accepts the signature, with a
    wallet that signs, the connect button takes a signed-out visitor through
    the whole handshake. *)
Lemma C1_witness :
  result_of (LandingPage.handleConnectWallet platform_signin false false None)
    world_signed_out = Ret tt /\
  authState (snd (LandingPage.handleConnectWallet platform_signin false false None
                    world_signed_out)) =
    mkAuthState true (JStr "0xabc") (JStr "session-abc") false JNull JNull /\
  sets_both ∅
    (storage_after (LandingPage.handleConnectWallet platform_signin false false None)
       world_signed_out) "session-abc" "0xabc".
Proof.
  destruct (proj1 (proj2 (C1_handshake_is_sequential platform_signin world_signed_out))
              server_nonce signed_payload server_nonce (JStr "session-abc") (JStr "0xabc") None)
    as (req & req' & t & a & new & _ & _ & Ht & Ha & R & _ & _ & St & Sb).
  - split; [|split; [reflexivity|split; [|split; [|split; [|split]]]]].
    + intros req ((Hu & _) & _). exists (response_with 200 good_nonce_body), good_nonce_body.
      split; [|repeat split; reflexivity].
      cbn. unfold backend_good. rewrite Hu. reflexivity.
    + exists minikit_installed, wallet_signs. do 2 eexists.
      repeat split; try reflexivity. left; reflexivity.
    + exists (JObj [("nonce", server_nonce)]), (JObj [("nonce", server_nonce)]).
      repeat split; reflexivity.
    + intros req ((Hu & _) & _).
      exists (response_with 200 good_session_body), good_session_body.
      split; [|repeat split; reflexivity].
      cbn. unfold backend_good. rewrite Hu. reflexivity.
    + eexists; reflexivity.
    + eexists; reflexivity.
  - discriminate.
  - injection Ht as <-. injection Ha as <-. auto.
Defined.

(* ===================================================================== *)
(** * Further properties of the code                                      *)
(* ===================================================================== *)

(** ** AuthContext: the session check on mount *)

Ltac use_verifyToken :=
  match goal with
  | |- context [AuthService.verifyToken ?P ?t ?w] =>
      let Hs := fresh "Hs" in
      let Hr := fresh "Hr" in
      destruct (verifyToken_cases P t w) as [Hs [[?a Hr] | [?s Hr]]];
      unfold result_of in Hr;
      destruct (AuthService.verifyToken P t w) as [?r ?w'] eqn:?;
      cbn [fst snd] in Hs, Hr; subst
  end.

Lemma verifyToken_world_independent P t w w' :
  result_of (AuthService.verifyToken P t) w = result_of (AuthService.verifyToken P t) w'.
Proof.
  unfold result_of, AuthService.verifyToken.
  destruct (split_on "." t) as [|p0 [|p1 [|p2 [|p3 l]]]] eqn:Hs;
    cbn [length Nat.eqb negb nth].
  all: exec; reflexivity.
Qed.

Lemma token_valid_iff P t w :
  token_valid P t <->
  exists a, result_of (AuthService.verifyToken P t) w =
              Ret (JObj [("isValid", JBool true); ("walletAddress", a)]).
Proof.
  split; intros [a H]; exists a.
  - apply H.
  - intros w'. rewrite (verifyToken_world_independent P t w' w). exact H.
Qed.

Lemma not_both_stored_after_clear (st : gmap string string) :
  ~ both_stored_nonempty (delete WALLET_ADDRESS_KEY (delete SESSION_TOKEN_KEY st)).
Proof.
  intros (t & a & H & _). rewrite lookup_delete_ne in H by discriminate.
  rewrite lookup_delete_eq in H. discriminate.
Qed.

Lemma checkSession_run (P : Platform) (w : World) :
  exists st' a' new,
    AuthContext.checkSession P w = (Ret tt, mkWorld st' a' (trace w ++ new)) /\
    requests new = [] /\
    isLoading a' = false /\ error a' = JNull /\ nonce a' = JNull /\
    state_matches_storage st' a' /\
    (isAuthenticated a' = true <->
     exists t ad, localStorage w !! SESSION_TOKEN_KEY = Some t /\ t <> "" /\
       localStorage w !! WALLET_ADDRESS_KEY = Some ad /\ ad <> "" /\ token_valid P t) /\
    (st' = localStorage w \/
     (both_stored_nonempty (localStorage w) /\ clears_both (localStorage w) st')).
Proof.
  destruct w as [st au t].
  unfold AuthContext.checkSession, AuthContext.getStoredSessionData,
    AuthContext.clearStoredSessionData, AuthContext.loggedOut, state_matches_storage.
  autounfold with monad. cbn [localStorage authState trace fst snd access_fault quota_fault accessible].
  destruct (st !! SESSION_TOKEN_KEY) as [tk|] eqn:Et;
    destruct (st !! WALLET_ADDRESS_KEY) as [ad|] eqn:Ea;
    cbn [truthy andb];
    try (destruct (String.eqb_spec tk "") as [->|Htk]);
    try (destruct (String.eqb_spec ad "") as [->|Had]);
    cbn [negb andb ToString].
  4: {
    cbn [localStorage authState trace access_fault quota_fault accessible].
    pose proof (token_valid_iff P tk
                  (mkWorld st (mkAuthState true (JStr ad) (JStr tk) false JNull JNull) t)) as Hv.
    unfold result_of in Hv.
    use_verifyToken;
      cbn [fst get assoc String.eqb Ascii.eqb Bool.eqb truthy negb] in *.
    - exists st, (mkAuthState true (JStr ad) (JStr tk) false JNull JNull), [].
      rewrite app_nil_r. repeat (split; [reflexivity|]). split; [|split; [|left; reflexivity]].
      + left. split; [reflexivity|]. exists tk, ad.
        repeat (split; [first [reflexivity | assumption]|]). reflexivity.
      + split; [intros _ | reflexivity]. exists tk, ad.
        repeat (split; [first [reflexivity | assumption]|]).
        apply Hv. eexists; reflexivity.
    - exists (delete WALLET_ADDRESS_KEY (delete SESSION_TOKEN_KEY st)),
             (mkAuthState false JNull JNull false JNull JNull),
             [ERemoveItem SESSION_TOKEN_KEY; ERemoveItem WALLET_ADDRESS_KEY].
      rewrite <- app_assoc. repeat (split; [reflexivity|]). split; [|split].
      + right. repeat (split; [reflexivity|]). apply not_both_stored_after_clear.
      + split; [discriminate|]. intros (t' & ad' & Ht & _ & _ & _ & Hvalid).
        rewrite ?Et in Ht. injection Ht as <-. apply Hv in Hvalid.
        destruct Hvalid as [a' Ha']. discriminate Ha'.
      + right. split; [exists tk, ad; repeat split; assumption | apply clears_both_delete]. }
  all: exists st, (mkAuthState false JNull JNull false JNull JNull), [].
  all: rewrite app_nil_r; repeat (split; [reflexivity|]).
  all: (split; [|split; [|left; reflexivity]]).
  all: try (right; repeat (split; [reflexivity|]);
            intros (t' & ad' & Ht & Hne & Ha & Hne'); congruence).
  all: split; [discriminate|]; intros (t' & ad' & Ht & Hne & Ha & Hne' & _);
    cbn [localStorage] in *; congruence.
Qed.

(** X1. [checkSession] never throws and issues no request; it leaves
    [isLoading = false] and [error = null], and the state it leaves says
    what localStorage then says: the user is authenticated exactly when both
    keys were stored with non-empty values and [verifyToken] accepts the
    token (localStorage is then untouched); when the token is refused both
    keys are removed. *)
Theorem X1_checkSession_state_matches_storage (P : Platform) (w : World) :
  exists st' a' new,
    AuthContext.checkSession P w = (Ret tt, mkWorld st' a' (trace w ++ new)) /\
    requests new = [] /\
    isLoading a' = false /\ error a' = JNull /\ nonce a' = JNull /\
    state_matches_storage st' a' /\
    (isAuthenticated a' = true <->
     exists t ad, localStorage w !! SESSION_TOKEN_KEY = Some t /\ t <> "" /\
       localStorage w !! WALLET_ADDRESS_KEY = Some ad /\ ad <> "" /\ token_valid P t) /\
    (st' = localStorage w \/
     (both_stored_nonempty (localStorage w) /\ clears_both (localStorage w) st')).
Proof.
  destruct (checkSession_run P w) as (st' & a' & new & E & Hreq & Hl & He & Hn & Hm & Hiff & Hst).
  exists st', a', new. repeat (split; [assumption|]). assumption.
Qed.

(** ** ProtectedRoute and Dashboard *)

(** X2. After the session check on mount a protected route no longer shows
    the loader: it renders its children exactly when localStorage held both
    keys, non-empty, with a token [verifyToken] accepts, and redirects to
    [/landing] otherwise; before the check (the initial state) it shows the
    loader, and whenever it renders Dashboard, Dashboard's own redirect
    effect does nothing. *)
Theorem X2_ProtectedRoute_after_checkSession (P : Platform) (w : World) :
  ProtectedRoute.render AuthContext.initialAuthState = RLoadingFallback /\
  (let a' := authState (snd (AuthContext.checkSession P w)) in
   (ProtectedRoute.render a' = RChildren \/ ProtectedRoute.render a' = RNavigate "/landing") /\
   (ProtectedRoute.render a' = RChildren <->
    exists t ad, localStorage w !! SESSION_TOKEN_KEY = Some t /\ t <> "" /\
      localStorage w !! WALLET_ADDRESS_KEY = Some ad /\ ad <> "" /\ token_valid P t)) /\
  (forall a w', ProtectedRoute.render a = RChildren ->
     Dashboard.redirect_effect (isAuthenticated a) w' = (Ret tt, w')).
Proof.
  split; [reflexivity|]. split.
  - destruct (checkSession_run P w)
      as (st' & a' & new & E & _ & Hl & _ & _ & _ & Hiff & _).
    rewrite E. cbn [snd authState]. unfold ProtectedRoute.render. rewrite Hl.
    destruct (isAuthenticated a') eqn:Ha; cbn [negb].
    + split; [left; reflexivity|]. split; [intros _; apply Hiff; reflexivity | reflexivity].
    + split; [right; reflexivity|]. split; [discriminate|].
      intros H. apply Hiff in H. discriminate H.
  - intros a w'. unfold ProtectedRoute.render, Dashboard.redirect_effect.
    destruct (isLoading a), (isAuthenticated a); cbn; intros; try discriminate; reflexivity.
Qed.

(** X3. Logging out from the dashboard ([handleLogout], which awaits
    [AuthContext.logout]) never throws and contacts no backend: it removes
    the two session keys and nothing else, leaves the state logged out and
    not loading, and navigates to [/landing] (twice: once in [logout], once
    in the handler).  Afterwards [checkAuthStatus] reports no session and no
    service request carries an [Authorization] header. *)
Theorem X3_logout_ends_the_session (w : World) :
  exists st',
    Dashboard.handleLogout w =
      (Ret tt,
       mkWorld st' AuthContext.loggedOut
         (trace w ++ [ERemoveItem SESSION_TOKEN_KEY; ERemoveItem WALLET_ADDRESS_KEY;
                      ERemoveItem SESSION_TOKEN_KEY; ERemoveItem WALLET_ADDRESS_KEY;
                      ENavigate "/landing"; ENavigate "/landing"])) /\
    clears_both (localStorage w) st' /\
    (forall a t,
       result_of AuthService.checkAuthStatus (mkWorld st' a t) =
         Ret (JObj [("isAuthenticated", JBool false); ("token", JNull);
                    ("walletAddress", JNull)]) /\
       authorization_header (mkWorld st' a t) = None).
Proof.
  destruct w as [st au t].
  exists (delete WALLET_ADDRESS_KEY (delete SESSION_TOKEN_KEY
            (delete WALLET_ADDRESS_KEY (delete SESSION_TOKEN_KEY st)))).
  split; [|split].
  - unfold Dashboard.handleLogout, AuthContext.logout, AuthContext.clearStoredSessionData,
      AuthService.logout.
    autounfold with monad. cbn [localStorage authState trace fst snd access_fault quota_fault accessible].
    rewrite <- !app_assoc. reflexivity.
  - exact (clears_both_twice _ _ _ (clears_both_delete _) (clears_both_delete _)).
  - intros a t'. unfold authorization_header, result_of, AuthService.checkAuthStatus.
    autounfold with monad. cbn [localStorage fst access_fault quota_fault accessible].
    rewrite lookup_delete_ne by discriminate. rewrite !lookup_delete_eq. split; reflexivity.
Qed.

(** ** AuthContext: login *)

(** X4. [login] with a non-empty token and address stores both, and what it
    stores is what is read back: the state it sets matches localStorage,
    [checkAuthStatus] then returns that token and address with
    [isAuthenticated = true], and later service requests carry
    [Authorization: Bearer <token>]; it navigates to [/dashboard] exactly
    when asked to. *)
Theorem X4_login_is_read_back (P : Platform) (w : World) (t a : string) (shouldNavigate : bool) :
  t <> "" -> a <> "" ->
  let w' := snd (AuthContext.login P (JStr t) (JStr a) shouldNavigate w) in
  result_of (AuthContext.login P (JStr t) (JStr a) shouldNavigate) w = Ret tt /\
  appends (AuthContext.login P (JStr t) (JStr a) shouldNavigate) w
    ([ESetItem SESSION_TOKEN_KEY t; ESetItem WALLET_ADDRESS_KEY a] ++
     if shouldNavigate then [ENavigate "/dashboard"] else []) /\
  state_matches_storage (localStorage w') (authState w') /\
  authState w' = mkAuthState true (JStr a) (JStr t) false JNull JNull /\
  result_of AuthService.checkAuthStatus w' =
    Ret (JObj [("isAuthenticated", JBool true); ("token", JStr t);
               ("walletAddress", JStr a)]) /\
  authorization_header w' = Some ("Bearer " +:+ t).
Proof.
  intros Ht Ha. destruct w as [st au tr].
  assert (Et : String.eqb t "" = false) by (apply String.eqb_neq; exact Ht).
  assert (Ea : String.eqb a "" = false) by (apply String.eqb_neq; exact Ha).
  unfold AuthContext.login, AuthContext.storeSessionData, state_matches_storage,
    authorization_header, AuthService.checkAuthStatus.
  autounfold with monad.
  destruct shouldNavigate; cbn [localStorage authState trace fst snd ToString access_fault quota_fault accessible].
  all: rewrite ?lookup_insert_eq.
  all: rewrite (lookup_insert_ne (<[SESSION_TOKEN_KEY:=t]> st)) by discriminate.
  all: rewrite ?lookup_insert_eq.
  all: repeat (progress (cbn [truthy negb]; rewrite ?Et, ?Ea)).
  all: rewrite <- ?app_assoc, ?app_nil_r.
  all: repeat (split; [reflexivity|]).
  all: split; [|split; [reflexivity | split; reflexivity]].
  all: left; split; [reflexivity|]; exists t, a; repeat split; assumption.
Qed.

Lemma X4_witness :
  result_of (AuthContext.login platform_offline (JStr "tok") (JStr "0xabc") true) world0 = Ret tt /\
  authorization_header
    (snd (AuthContext.login platform_offline (JStr "tok") (JStr "0xabc") true world0)) =
    Some "Bearer tok".
Proof.
  pose proof (X4_login_is_read_back platform_offline world0 "tok" "0xabc" true
                ltac:(discriminate) ltac:(discriminate)) as H.
  cbv zeta in H. destruct H as (H1 & _ & _ & _ & _ & H2). split; [exact H1 | exact H2].
Defined.


(** The half-written session: the backend accepts the signature and sends an
    address that cannot be converted to a string; [loginWithWallet] throws
    and the token key stays written. *)
Lemma loginWithWallet_leaves_the_token :
  result_of (AuthContext.loginWithWallet platform_half_session signed_payload) world0 =
    Throw (mkError "Cannot convert object to primitive value") /\
  storage_after (AuthContext.loginWithWallet platform_half_session signed_payload) world0 =
    <[SESSION_TOKEN_KEY := "tok"]> ∅.
Proof. split; reflexivity. Qed.

(** ** AuthContext: the nonce for MiniKit *)

(** X6. [getNonceForMiniKit] makes exactly one request, a [GET] of
    [/auth/nonce] without a body, and never touches localStorage or the
    session held in memory.  It returns the nonce exactly when the answer is
    OK and its body carries a truthy [nonce], which it also stores in the
    state; otherwise it throws, and the state holds the thrown error's
    message.  Either way [isLoading] is false at the end. *)
Theorem X6_getNonceForMiniKit (P : Platform) (w : World) :
  exists req, nonce_request P req /\
    ((exists n,
        nonce_issued P w req n /\
        AuthContext.getNonceForMiniKit P w =
          (Ret n,
           mkWorld (localStorage w)
             (mkAuthState (isAuthenticated (authState w)) (walletAddress (authState w))
                (sessionToken (authState w)) false JNull n)
             (trace w ++ [EFetch req; ESettled]))) \/
     ((forall n, ~ nonce_issued P w req n) /\
      exists e,
        AuthContext.getNonceForMiniKit P w =
          (Throw e,
           mkWorld (localStorage w) (failed_state (authState w) (JStr (message e)))
             (trace w ++ [EFetch req; ESettled])))) /\
    (forall n, nonce_issued P w req n ->
               result_of (AuthContext.getNonceForMiniKit P) w = Ret n) /\
    (forall n, result_of (AuthContext.getNonceForMiniKit P) w = Ret n ->
               nonce_issued P w req n).
Proof.
  destruct (getNonceForMiniKit_run P w) as (req & K & H).
  exists req. split; [exact K|]. split; [exact H|].
  unfold result_of.
  destruct H as [(n & Hi & E) | (Hno & e & E)]; rewrite E; cbn [fst]; split; intros n' H'.
  - f_equal. eapply nonce_issued_unique; eassumption.
  - injection H' as <-. exact Hi.
  - destruct (Hno _ H').
  - discriminate H'.
Qed.

(** ** The service layer: HTTP methods, bodies and error messages *)

Ltac sends_solve :=
  unfold sends_one, appends; exec;
  (eexists _, _; split; [cbn [trace snd]; rewrite <- ?app_assoc; reflexivity|]);
  (split; [reflexivity | split; reflexivity]).

(** X7. Every call of a service method of AuthService and CampaignService
    that talks to the backend sends exactly one request, with a fixed HTTP
    method and body: the reads ([getNonce], [fetchAllCampaigns],
    [fetchCampaign], [fetchUserCampaigns]) are [GET]s without a body,
    [deleteCampaign] is a [DELETE] without a body, [updateCampaign] is a
    [PUT] of the payload, and the others are [POST]s of, respectively,
    [{payload, nonce}], the proof, the campaign payload and
    [{amount, txHash}]. *)
Theorem X7_http_methods_and_bodies (P : Platform) (w : World) :
  sends_one (AuthService.getNonce P) w "GET" None /\
  (forall payload nonce,
     sends_one (AuthService.verifyWalletSignature P payload nonce) w "POST"
       (Some (JObj [("payload", payload); ("nonce", nonce)]))) /\
  (forall proof, sends_one (AuthService.verifyWorldIdProof P proof) w "POST" (Some proof)) /\
  (forall payload,
     sends_one (CampaignService.createCampaign P payload) w "POST" (Some payload)) /\
  sends_one (CampaignService.fetchAllCampaigns P) w "GET" None /\
  (forall id, sends_one (CampaignService.fetchCampaign P id) w "GET" None) /\
  (forall id payload,
     sends_one (CampaignService.updateCampaign P id payload) w "PUT" (Some payload)) /\
  (forall id, sends_one (CampaignService.deleteCampaign P id) w "DELETE" None) /\
  (forall id amount txHash,
     sends_one (CampaignService.recordDonation P id amount txHash) w "POST"
       (Some (JObj [("amount", JNum amount); ("txHash", JStr txHash)]))) /\
  (forall address, sends_one (CampaignService.fetchUserCampaigns P address) w "GET" None).
Proof.
  destruct w as [st au t].
  repeat apply conj; intros.
  all: sends_solve.
Qed.

(** X8. [donateWLD] needs [VITE_AMPLIFY_API]: when it is unset or empty the
    method returns [{ success: false, error: 'Backend API URL is not
    configured' }] and does nothing else, no request included; when it is
    set, exactly one [POST] of [{amount, txHash}] goes to
    [<VITE_AMPLIFY_API>/campaigns/<id>/donate]. *)
Theorem X8_donateWLD_needs_the_api_base (P : Platform) (id : string) (amount : float)
    (txHash : string) (w : World) :
  (env_truthy (VITE_AMPLIFY_API (env P)) = false /\
   WLDPaymentService.donateWLD P id amount txHash w =
     (Ret (failure (JStr "Backend API URL is not configured")), w)) \/
  (exists base req rest,
     VITE_AMPLIFY_API (env P) = Some base /\ base <> "" /\
     appends (WLDPaymentService.donateWLD P id amount txHash) w
       (EFetch req :: ESettled :: rest) /\
     requests rest = [] /\
     url req = base +:+ "/campaigns/" +:+ id +:+ "/donate" /\
     method req = "POST" /\
     body req = Some (JObj [("amount", JNum amount); ("txHash", JStr txHash)])).
Proof.
  destruct w as [st au t]. unfold appends.
  destruct (VITE_AMPLIFY_API (env P)) as [base|] eqn:Eb;
    [destruct (String.eqb_spec base "") as [->|Hb]|].
  1, 3: left; split; [rewrite ?Eb; reflexivity|];
        unfold WLDPaymentService.donateWLD, WLDPaymentService.getApiBase;
        rewrite Eb; reflexivity.
  right. exists base.
  assert (Ht : env_truthy (Some base) = true)
    by (cbn; apply negb_true_iff, String.eqb_neq, Hb).
  unfold WLDPaymentService.donateWLD, WLDPaymentService.getApiBase. rewrite Eb, Ht.
  exec.
  all: eexists _, _; split; [reflexivity|]; split; [assumption|].
  all: (split; [cbn [trace snd]; rewrite <- ?app_assoc; reflexivity|]).
  all: repeat split; reflexivity.
Qed.

Lemma service_headers_agree P w :
  api_key_header (CampaignService.API_KEY P) = api_key_header (VITE_WORLD_APP_API (env P)) ->
  WLDPaymentService.getHeaders P w = CampaignService.getHeaders P w.
Proof.
  unfold WLDPaymentService.getHeaders, CampaignService.getHeaders, CampaignService.API_KEY,
    api_key_header, env_or, env_truthy.
  destruct (VITE_WORLD_APP_API (env P)) as [a|]; [destruct (String.eqb_spec a "") as [->|Ha]|];
    destruct (VITE_APP_BACKEND_API_KEY (env P)) as [b|];
    try destruct (String.eqb_spec b "") as [->|Hb];
    cbn [negb String.eqb]; rewrite ?(proj2 (String.eqb_neq _ _)) by assumption;
    cbn [negb]; intros H; try discriminate H; try reflexivity.
Qed.

(** X9. The two ways of recording a donation agree when they are configured
    alike ([VITE_AMPLIFY_API] set, and the same API key seen by both
    services): [WLDPaymentService.donateWLD] and
    [CampaignService.recordDonation] then send the very same request, and
    whenever [donateWLD] reports success so does [recordDonation]. *)
Theorem X9_donateWLD_agrees_with_recordDonation (P : Platform) (id : string) (amount : float)
    (txHash : string) (w : World) (base : string) :
  VITE_AMPLIFY_API (env P) = Some base -> base <> "" ->
  api_key_header (CampaignService.API_KEY P) = api_key_header (VITE_WORLD_APP_API (env P)) ->
  requests (trace (snd (WLDPaymentService.donateWLD P id amount txHash w))) =
  requests (trace (snd (CampaignService.recordDonation P id amount txHash w))) /\
  (result_of (WLDPaymentService.donateWLD P id amount txHash) w = Ret success_only ->
   result_of (CampaignService.recordDonation P id amount txHash) w = Ret success_only).
Proof.
  intros Eb Hb Hk. destruct w as [st au t].
  assert (Ht : env_truthy (Some base) = true)
    by (cbn; apply negb_true_iff, String.eqb_neq, Hb).
  assert (HB : CampaignService.API_BASE P = base).
  { unfold CampaignService.API_BASE, env_or. rewrite Eb.
    rewrite (proj2 (String.eqb_neq _ _) Hb). rewrite (proj2 (String.eqb_neq _ _) Hb).
    reflexivity. }
  destruct (CampaignService_getHeaders_run P (mkWorld st au t)) as (hs & Ehs & _).
  pose proof (service_headers_agree P (mkWorld st au t) Hk) as Ehs'. rewrite Ehs in Ehs'.
  unfold WLDPaymentService.donateWLD, WLDPaymentService.getApiBase,
    CampaignService.recordDonation.
  rewrite Eb, Ht, HB. autounfold with js monad. rewrite Ehs, Ehs'. reduce.
  repeat (break_match; reduce; try discriminate).
  all: split; try reflexivity; try discriminate.
Qed.

Lemma X9_witness :
  requests (trace (snd (WLDPaymentService.donateWLD platform_offline "c1" 1%float "0xfeed" world0))) =
  requests (trace (snd (CampaignService.recordDonation platform_offline "c1" 1%float "0xfeed" world0))).
Proof.
  apply (X9_donateWLD_agrees_with_recordDonation platform_offline "c1" 1%float "0xfeed" world0
           "https://api.worldfund.example").
  - reflexivity.
  - discriminate.
  - reflexivity.
Defined.

(** X10. What the caller is told when the backend answers with an error
    status.  The three list/read methods of CampaignService never look at
    the body: the error is a fixed text with the status code.  Every other
    method passes on the body's [message] when it is a non-empty string,
    and falls back to its own text with the status code when the body is
    not JSON or has no [message]. *)
Theorem X10_error_messages (P : Platform) (w : World) (res : Response) :
  answers P w res -> ok res = false ->
  let told (c : M JsVal) (e : JsVal) := result_of c w = Ret (failure e) in
  (told (CampaignService.fetchAllCampaigns P) (with_status "Failed to fetch campaigns" res) /\
   (forall id, told (CampaignService.fetchCampaign P id) (with_status "Campaign not found" res)) /\
   (forall a, told (CampaignService.fetchUserCampaigns P a)
                (with_status "Failed to fetch user campaigns" res))) /\
  (forall m, says res m ->
     told (AuthService.getNonce P) (JStr m) /\
     (forall p n, told (AuthService.verifyWalletSignature P p n) (JStr m)) /\
     (forall p, told (AuthService.verifyWorldIdProof P p) (JStr m)) /\
     (forall p, told (CampaignService.createCampaign P p) (JStr m)) /\
     (forall id p, told (CampaignService.updateCampaign P id p) (JStr m)) /\
     (forall id, told (CampaignService.deleteCampaign P id) (JStr m)) /\
     (forall id a t, told (CampaignService.recordDonation P id a t) (JStr m))) /\
  (says_nothing res ->
     told (AuthService.getNonce P) (with_status "Failed to fetch nonce" res) /\
     (forall p n, told (AuthService.verifyWalletSignature P p n)
                    (with_status "Verification failed" res)) /\
     (forall p, told (AuthService.verifyWorldIdProof P p)
                  (with_status "Verification failed" res)) /\
     (forall p, told (CampaignService.createCampaign P p)
                  (with_status "Failed to create campaign" res)) /\
     (forall id p, told (CampaignService.updateCampaign P id p)
                     (with_status "Failed to update campaign" res)) /\
     (forall id, told (CampaignService.deleteCampaign P id)
                   (with_status "Failed to delete campaign" res)) /\
     (forall id a t, told (CampaignService.recordDonation P id a t)
                       (with_status "Failed to record donation" res))).
Proof.
  intros H Hok. cbv zeta. unfold with_status, says, says_nothing.
  split; [|split].
  - repeat apply conj; intros;
      exec_rw ltac:(first [rewrite H | rewrite Hok]); reflexivity.
  - intros m (Hm & data & Hj & Hg).
    assert (Em : String.eqb m "" = false) by (apply String.eqb_neq; exact Hm).
    repeat apply conj; intros;
      exec_rw ltac:(first [rewrite H | rewrite Hok | rewrite Hj | rewrite Hg | rewrite Em]);
      cbn [ToString] in *; try congruence; reflexivity.
  - intros [(e & Hj) | (data & Hj & Hg)];
      repeat apply conj; intros;
      exec_rw ltac:(first [rewrite H | rewrite Hok | rewrite Hj | rewrite Hg]);
      reflexivity.
Qed.

Lemma X10_witness :
  result_of (CampaignService.fetchCampaign (platform_with (always refusal) None) "c1") world0 =
    Ret (failure (JStr "Campaign not found (403)")) /\
  result_of (CampaignService.deleteCampaign (platform_with (always refusal) None) "c1") world0 =
    Ret (failure (JStr "Campaign is closed")).
Proof.
  pose proof (X10_error_messages (platform_with (always refusal) None) world0 refusal
                ltac:(intros req; reflexivity) ltac:(reflexivity)) as H.
  cbv zeta in H. destruct H as ((_ & Hf & _) & Hm & _). split.
  - exact (Hf "c1").
  - refine (proj1 (proj2 (proj2 (proj2 (proj2 (proj2 (Hm "Campaign is closed" _)))))) "c1").
    split; [discriminate|]. eexists; split; reflexivity.
Defined.

(** X11. [verifyWorldIdProof] trusts the status code alone: whatever the
    body of the answer is, JSON or not, it reports success exactly when the
    status is in 200..299; it changes nothing in localStorage or in the
    session held in memory. *)
Theorem X11_verifyWorldIdProof_status_only (P : Platform) (w : World) (res : Response)
    (proof : JsVal) :
  answers P w res ->
  (result_of (AuthService.verifyWorldIdProof P proof) w = Ret success_only <-> ok res = true) /\
  (ok res = false ->
   exists e, result_of (AuthService.verifyWorldIdProof P proof) w = Ret (failure e)) /\
  storage_after (AuthService.verifyWorldIdProof P proof) w = localStorage w /\
  authState (snd (AuthService.verifyWorldIdProof P proof w)) = authState w.
Proof.
  intros H. destruct (ok res) eqn:Hok.
  all: exec_rw ltac:(first [rewrite H | rewrite Hok]).
  all: repeat split; intros; try discriminate; try reflexivity.
  all: eexists; reflexivity.
Qed.

Lemma X11_witness :
  result_of (AuthService.verifyWorldIdProof platform_unparseable (JObj [])) world0 =
    Ret success_only.
Proof.
  apply (X11_verifyWorldIdProof_status_only platform_unparseable world0 unparseable_ok (JObj [])).
  - intros req. reflexivity.
  - reflexivity.
Defined.

(** ** CampaignDetail: recording a donation *)

Lemma fetch_count_setState t cell v : fetch_count (t ++ [ESetState cell v]) = fetch_count t.
Proof. rewrite fetch_count_app. cbn. lia. Qed.

(** Bring the number of a request into the form [fetch_count t + n]. *)
Ltac count_norm :=
  repeat rewrite fetch_count_app in *;
  repeat match goal with
    | |- context [fetch_count (?e :: ?l)] =>
        let v := eval cbv in (fetch_count (e :: l)) in
        change (fetch_count (e :: l)) with v
    | H : context [fetch_count (?e :: ?l)] |- _ =>
        let v := eval cbv in (fetch_count (e :: l)) in
        change (fetch_count (e :: l)) with v in H
    end;
  rewrite ?Nat.add_0_r in *.

Lemma answered_unique P k req c c' : answered P k req c -> answered P k req c' -> c = c'.
Proof. intros (res & A & _ & B) (res' & A' & _ & B'). congruence. Qed.

(** [recordDonation] reports success exactly when the backend answers with
    an OK status. *)
Lemma recordDonation_run P id amount txHash w :
  exists req r,
    donate_request P id amount txHash req /\
    CampaignService.recordDonation P id amount txHash w =
      (Ret r, mkWorld (localStorage w) (authState w) (trace w ++ [EFetch req; ESettled])) /\
    ((accepted P (fetch_count (trace w)) req /\ r = success_only) \/
     (~ accepted P (fetch_count (trace w)) req /\ exists e, r = failure (JStr e))).
Proof.
  unfold donate_request, accepted. destruct w as [st au t]. exec.
  all: negb_hyps.
  all: eexists _, _; split; [|split; [rewrite <- ?app_assoc; reflexivity|]];
    [ cbn [url method body]; repeat split; reflexivity
    | first [ left; split; [eexists; split; eassumption | reflexivity]
            | right; split; [intros (? & ? & ?); congruence | eexists; reflexivity] ] ].
Qed.

(** [fetchCampaign] reports success exactly when the backend answers with an
    OK status and a body that parses, and hands that body over. *)
Lemma fetchCampaign_run P id w :
  exists req r,
    reload_request P id req /\
    CampaignService.fetchCampaign P id w =
      (Ret r, mkWorld (localStorage w) (authState w) (trace w ++ [EFetch req; ESettled])) /\
    ((exists c, answered P (fetch_count (trace w)) req c /\
                r = JObj [("success", JBool true); ("campaign", c)]) \/
     ((forall c, ~ answered P (fetch_count (trace w)) req c) /\
      exists e, r = failure (JStr e))).
Proof.
  unfold reload_request, answered. destruct w as [st au t]. exec.
  all: negb_hyps.
  all: eexists _, _; split; [|split; [rewrite <- ?app_assoc; reflexivity|]];
    [ cbn [url method body]; repeat split; reflexivity
    | first [ left; eexists; split; [eexists; repeat split; eassumption | reflexivity]
            | right; split; [intros ? (? & ? & ? & ?); congruence | eexists; reflexivity] ] ].
Qed.

Ltac call_detail :=
  match goal with
  | |- context [CampaignService.recordDonation ?P ?i ?a ?t ?w] =>
      let E := fresh "E" in
      destruct (recordDonation_run P i a t w)
        as (?req & ?r & ?K & E & [[?Hacc ->] | [?Hacc [?e ->]]]);
      rewrite E; clear E
  | |- context [CampaignService.fetchCampaign ?P ?i ?w] =>
      let E := fresh "E" in
      destruct (fetchCampaign_run P i w)
        as (?req & ?r & ?K & E & [[?c [?Hans ->]] | [?Hans [?e ->]]]);
      rewrite E; clear E
  end.

(** The amount test [!donationAmount || donationAmount <= 0] lets through
    exactly the numbers greater than zero. *)
Lemma amount_guard (a : float) :
  negb (truthy (JNum a)) || PrimFloat.leb a PrimFloat.zero = negb (PrimFloat.ltb PrimFloat.zero a).
Proof.
  cbn [truthy]. unfold PrimFloat.is_nan.
  rewrite !FloatAxioms.eqb_spec, FloatAxioms.leb_spec, FloatAxioms.ltb_spec.
  change (Prim2SF PrimFloat.zero) with (S754_zero false).
  destruct (Prim2SF a) as [s | s | | s m e]; try destruct s;
    unfold SFeqb, SFleb, SFltb, SFcompare;
    rewrite ?Z.compare_refl, ?Pos.compare_refl; reflexivity.
Qed.

(** X12. [handleDonate] never throws and leaves the session alone.  An
    amount that is not a number greater than zero is refused with one alert
    and nothing else, and so is an empty transaction hash.  Otherwise the
    donation is posted once.  When the backend does not answer with an OK
    status the user gets one alert and the form is kept.  When it does, the
    success flag is set, the campaign is reloaded with one [GET] and the
    form is emptied; the campaign shown is replaced exactly when the reload
    is answered with an OK status and a truthy body, and then by that body.
    The reload never happens before or without an accepted donation, and
    the [donating] flag is lowered in both cases. *)
Theorem X12_handleDonate (P : Platform) (id : string) (amount : float) (txHash : string)
    (w : World) :
  exists new,
    CampaignDetail.handleDonate P id amount txHash w =
      (Ret tt, mkWorld (localStorage w) (authState w) (trace w ++ new)) /\
    (PrimFloat.ltb PrimFloat.zero amount = false ->
       new = [EAlert (JStr "Please enter a valid donation amount")]) /\
    (PrimFloat.ltb PrimFloat.zero amount = true -> txHash = "" ->
       new = [EAlert (JStr "Transaction hash is required")]) /\
    (PrimFloat.ltb PrimFloat.zero amount = true -> txHash <> "" ->
       exists post, donate_request P id amount txHash post /\
          ((~ accepted P (fetch_count (trace w)) post /\
            exists e,
              new = [ESetState CampaignDetail.DONATING (JBool true); EFetch post; ESettled;
                     EAlert (JStr e);
                     ESetState CampaignDetail.DONATING (JBool false)]) \/
           (accepted P (fetch_count (trace w)) post /\
            exists reload shown,
              reload_request P id reload /\
              new = [ESetState CampaignDetail.DONATING (JBool true); EFetch post; ESettled;
                     ESetState CampaignDetail.DONATION_SUCCESS (JBool true);
                     EFetch reload; ESettled] ++ shown ++
                    [ESetState CampaignDetail.DONATION_AMOUNT (JNum PrimFloat.zero);
                     ESetState CampaignDetail.DONATION_TXHASH (JStr "");
                     ESetState CampaignDetail.DONATING (JBool false)] /\
              ((exists c, answered P (fetch_count (trace w) + 1) reload c /\
                          truthy c = true /\
                          shown = [ESetState CampaignDetail.CAMPAIGN c]) \/
               ((forall c, answered P (fetch_count (trace w) + 1) reload c ->
                           truthy c = false) /\
                shown = []))))).
Proof.
  destruct w as [st au t]. unfold CampaignDetail.handleDonate.
  rewrite amount_guard.
  destruct (PrimFloat.ltb PrimFloat.zero amount) eqn:Ea; cbn [negb];
    [destruct (String.eqb_spec txHash "") as [Et | Et]|].
  2: exec_page ltac:(idtac; call_detail).
  all: rewrite <- ?app_assoc; cbn [app].
  all: eexists; split; [reflexivity|].
  all: repeat split; try congruence; try reflexivity; intros _ _.
  all: cbn [trace] in *; count_norm.
  all: eexists; split; [eassumption|].
  all: first
    [ left; split; [assumption|]; eexists; reflexivity
    | right; split; [assumption|]; eexists _, [];
      split; [eassumption|]; split; [reflexivity|];
      right; split; [|reflexivity];
      intros c' Hc';
      first [ match goal with
              | H : answered _ _ _ ?c |- _ =>
                  rewrite (answered_unique _ _ _ _ _ Hc' H); assumption
              end
            | match goal with
              | H : forall c, ~ answered _ _ _ c |- _ => destruct (H _ Hc')
              end ]
    | right; split; [assumption|]; eexists _, [_];
      split; [eassumption|]; split; [reflexivity|];
      left; eexists; split; [eassumption|]; split; [assumption | reflexivity] ].
Qed.

(** ** WLDDonationForm: submitting a donation *)

(** [donateWLD] reports success exactly when the API base is configured and
    the backend answers with an OK status and a body that parses. *)
Lemma donateWLD_run P id amount txHash w :
  exists r new,
    WLDPaymentService.donateWLD P id amount txHash w =
      (Ret r, mkWorld (localStorage w) (authState w) (trace w ++ new)) /\
    ((new = [] /\ env_truthy (VITE_AMPLIFY_API (env P)) = false /\
      exists e, r = failure (JStr e)) \/
     exists req, new = [EFetch req; ESettled] /\
       method req = "POST" /\
       body req = Some (JObj [("amount", JNum amount); ("txHash", JStr txHash)]) /\
       (((exists data, answered P (fetch_count (trace w)) req data) /\ r = success_only) \/
        ((forall data, ~ answered P (fetch_count (trace w)) req data) /\
         exists e, r = failure (JStr e)))).
Proof.
  unfold answered. destruct w as [st au t]. exec.
  all: negb_hyps.
  all: first
    [ eexists _, []; rewrite app_nil_r; split; [reflexivity|];
      left; split; [reflexivity|]; split; [assumption || reflexivity | eexists; reflexivity]
    | eexists _, _; split; [rewrite <- ?app_assoc; reflexivity|];
      right; eexists; split; [reflexivity|];
      cbn [method body]; repeat (split; [reflexivity|]);
      first [ left; split; [do 2 eexists; repeat split; eassumption | reflexivity]
            | right; split; [intros ? (? & ? & ? & ?); congruence | eexists; reflexivity] ] ].
Qed.

Ltac call_donate :=
  match goal with
  | |- context [WLDPaymentService.donateWLD ?P ?i ?a ?t ?w] =>
      let E := fresh "E" in
      destruct (donateWLD_run P i a t w)
        as (?r & ?new & E &
            [[-> [?Henv [?e ->]]]
            | (?req & -> & ?Km & ?Kb & [[?Hans ->] | [?Hans [?e ->]]])]);
      rewrite E; clear E
  end.

(** X13. [handleSubmit] of the donation form never throws and leaves the
    session alone.  Either it refuses the input, and then all it does is
    set one error message (no request, the loading flag is not raised); or
    the user is signed in, the amount text is not empty and does not parse
    to a number [<= 0], and the hash is not empty, and then it raises
    [loading], clears the error, and lowers [loading] at the end.  In
    between there is an error message only when no API base is configured
    (no request is possible); otherwise one [POST] carrying
    [parseFloat(amount)] and the hash, followed by the success flag, the
    emptied fields and the callback if one was given when the backend
    answers with an OK status and a body that parses, and by an error
    message when it does not.  So the callback and the success flag occur
    exactly when the request was made and recorded. *)
Theorem X13_WLDDonationForm_handleSubmit (P : Platform) (campaignId : string)
    (isAuth : bool) (amount txHash : string) (minAmount : option float) (callback : bool)
    (w : World) :
  exists new,
    WLDDonationForm.handleSubmit P campaignId isAuth amount txHash minAmount callback w =
      (Ret tt, mkWorld (localStorage w) (authState w) (trace w ++ new)) /\
    ((exists msg, new = [ESetState WLDDonationForm.ERROR (JStr msg)]) \/
     (isAuth = true /\ amount <> "" /\
      PrimFloat.leb (parseFloat P amount) PrimFloat.zero = false /\ txHash <> "" /\
      exists mid,
        new = [ESetState WLDDonationForm.LOADING (JBool true);
               ESetState WLDDonationForm.ERROR JNull] ++ mid ++
              [ESetState WLDDonationForm.LOADING (JBool false)] /\
        ((env_truthy (VITE_AMPLIFY_API (env P)) = false /\
          exists e, mid = [ESetState WLDDonationForm.ERROR (JStr e)]) \/
         exists post,
           method post = "POST" /\
           body post = Some (JObj [("amount", JNum (parseFloat P amount));
                                   ("txHash", JStr txHash)]) /\
           (((forall data, ~ answered P (fetch_count (trace w)) post data) /\
             exists e, mid = [EFetch post; ESettled; ESetState WLDDonationForm.ERROR (JStr e)]) \/
            ((exists data, answered P (fetch_count (trace w)) post data) /\
             mid = [EFetch post; ESettled;
                    ESetState WLDDonationForm.SUCCESS (JBool true);
                    ESetState WLDDonationForm.AMOUNT (JStr "");
                    ESetState WLDDonationForm.TXHASH (JStr "")] ++
                   (if callback then [ECallback "onDonationSuccess"] else [])))))).
Proof.
  destruct w as [st au t].
  exec_page ltac:(idtac; call_donate).
  all: rewrite <- ?app_assoc; cbn [app].
  all: eexists; split; [reflexivity|].
  all: try (left; eexists; reflexivity).
  all: right.
  all: repeat match goal with
       | H : negb _ = false |- _ => apply negb_false_iff in H
       | H : _ || _ = false |- _ => apply orb_false_iff in H; destruct H
       | H : (_ =? _)%string = false |- _ => apply String.eqb_neq in H
       end.
  all: cbn [trace] in *; count_norm.
  all: repeat (split; [assumption|]).
  all: first
    [ eexists [_]; split; [reflexivity|]
    | eexists [_; _; _]; split; [reflexivity|]
    | eexists [_; _; _; _; _]; split; [reflexivity|]
    | eexists [_; _; _; _; _; _]; split; [reflexivity|] ].
  all: first
    [ left; split; [assumption|]; eexists; reflexivity
    | right; eexists; split; [eassumption|]; split; [eassumption|];
      first [ left; split; [assumption|]; eexists; reflexivity
            | right; split; [assumption | reflexivity] ] ].
Qed.

Lemma nan_compares_false (x y : float) :
  PrimFloat.is_nan x = true ->
  PrimFloat.leb x y = false /\ PrimFloat.ltb x y = false.
Proof.
  unfold PrimFloat.is_nan.
  rewrite FloatAxioms.eqb_spec, FloatAxioms.leb_spec, FloatAxioms.ltb_spec.
  destruct (Prim2SF x) as [s | s | | s m e]; try destruct s;
    unfold SFeqb, SFleb, SFltb, SFcompare;
    rewrite ?Z.compare_refl, ?Pos.compare_refl; cbn [negb];
    intros H; try discriminate H; split; reflexivity.
Qed.

(** X14. An amount text that is not empty but does not parse to a number
    ([parseFloat] gives [NaN], as for ["."], which the amount field
    accepts) passes both amount checks of [handleSubmit], whatever the
    minimum is: a signed-in user with a hash gets the donation posted, with
    [NaN] as its amount. *)
Theorem X14_WLDDonationForm_submits_NaN (P : Platform) (campaignId amount txHash base : string)
    (minAmount : option float) (callback : bool) (w : World) :
  amount <> "" -> PrimFloat.is_nan (parseFloat P amount) = true -> txHash <> "" ->
  VITE_AMPLIFY_API (env P) = Some base -> base <> "" ->
  exists post rest,
    appends (WLDDonationForm.handleSubmit P campaignId true amount txHash minAmount callback) w
      (ESetState WLDDonationForm.LOADING (JBool true) ::
       ESetState WLDDonationForm.ERROR JNull :: EFetch post :: ESettled :: rest) /\
    url post = base +:+ "/campaigns/" +:+ campaignId +:+ "/donate" /\
    body post = Some (JObj [("amount", JNum (parseFloat P amount)); ("txHash", JStr txHash)]) /\
    truthy (JNum (parseFloat P amount)) = false.
Proof.
  intros Ha Hn Ht Eb Hb. destruct w as [st au t]. unfold appends.
  assert (Hbase : env_truthy (Some base) = true)
    by (cbn; apply negb_true_iff, String.eqb_neq, Hb).
  unfold WLDDonationForm.handleSubmit.
  rewrite (proj2 (String.eqb_neq _ _) Ha), (proj2 (String.eqb_neq _ _) Ht).
  rewrite (proj1 (nan_compares_false _ PrimFloat.zero Hn)).
  replace (match minAmount with
           | Some m => truthy (JNum m) && PrimFloat.ltb (parseFloat P amount) m
           | None => false
           end) with false
    by (destruct minAmount as [m|]; [|reflexivity];
        rewrite (proj2 (nan_compares_false _ m Hn)), andb_false_r; reflexivity).
  cbn [negb orb].
  unfold WLDPaymentService.donateWLD, WLDPaymentService.getApiBase. rewrite Eb, Hbase.
  exec.
  all: rewrite <- ?app_assoc; cbn [app].
  all: eexists _, _; split; [reflexivity|].
  all: cbn [url body truthy]; rewrite Hn, orb_true_r; repeat split; reflexivity.
Qed.

Lemma X14_witness :
  exists post rest,
    appends (WLDDonationForm.handleSubmit platform_offline "c1" true "." "0xabc"
               (Some 0x1.47ae147ae147bp-7%float) false) world0
      (ESetState WLDDonationForm.LOADING (JBool true) ::
       ESetState WLDDonationForm.ERROR JNull :: EFetch post :: ESettled :: rest) /\
    url post = "https://api.worldfund.example" +:+ "/campaigns/" +:+ "c1" +:+ "/donate" /\
    body post = Some (JObj [("amount", JNum (parseFloat platform_offline "."));
                            ("txHash", JStr "0xabc")]) /\
    truthy (JNum (parseFloat platform_offline ".")) = false.
Proof.
  apply (X14_WLDDonationForm_submits_NaN platform_offline "c1" "." "0xabc"
           "https://api.worldfund.example"); try reflexivity; discriminate.
Defined.

(** ** Regular expressions: the matcher and the strings of a pattern *)

Ltac append_head :=
  repeat first
    [ progress change (EmptyString +:+ ?x) with x in *
    | progress change (String ?c ?a +:+ ?b) with (String c (a +:+ b)) in * ].

Lemma lang_nullable r : nullable r = true <-> lang r "".
Proof.
  split.
  - induction r; cbn [nullable]; intros H; try discriminate H.
    + constructor.
    + apply andb_true_iff in H as [H1 H2].
      change "" with ("" +:+ ""). constructor; auto.
    + apply orb_true_iff in H as [H | H]; [apply lang_alt_l | apply lang_alt_r]; auto.
    + constructor.
    + constructor.
  - intros H. remember "" as s eqn:Es. induction H; cbn [nullable]; try discriminate Es;
      try reflexivity.
    + destruct s1; [|discriminate Es]. append_head. subst s2.
      rewrite IHlang1, IHlang2; reflexivity.
    + rewrite IHlang by assumption. reflexivity.
    + rewrite IHlang by assumption. apply orb_true_r.
Qed.

Lemma lang_star_split r c s :
  lang (RStar r) (String c s) ->
  exists s1 s2, s = s1 +:+ s2 /\ lang r (String c s1) /\ lang (RStar r) s2.
Proof.
  intros H. remember (RStar r) as r' eqn:Er. remember (String c s) as s' eqn:Es.
  revert s Es. induction H; intros s0 Es; try discriminate Er; try discriminate Es.
  injection Er as ->. destruct s1 as [|c1 s1].
  - append_head. apply IHlang2; [reflexivity | assumption].
  - append_head. injection Es as -> <-. exists s1, s2. auto.
Qed.

Lemma lang_deriv r : forall c s, lang (deriv c r) s <-> lang r (String c s).
Proof.
  induction r; intros a s; cbn [deriv].
  - split; intros H; inversion H.
  - split; intros H; inversion H.
  - destruct (Ascii.eqb_spec a c) as [-> | Hne]; split; intros H; inversion H; subst.
    + constructor.
    + constructor.
    + congruence.
  - destruct (is_digit a) eqn:Ed; split; intros H; inversion H; subst.
    + constructor; assumption.
    + constructor.
    + congruence.
  - destruct (nullable r1) eqn:En.
    + split; intros H.
      * inversion H as [| | | | ? ? ? H1 | ? ? ? H1 | | | |]; subst.
        -- inversion H1; subst. change (String a (s1 +:+ s2)) with (String a s1 +:+ s2).
           constructor; [apply IHr1|]; assumption.
        -- change (String a s) with ("" +:+ String a s).
           constructor; [apply lang_nullable, En | apply IHr2, H1].
      * inversion H as [| | | ? ? s1 s2 H1 H2 E | | | | | |]; subst.
        destruct s1 as [|c1 s1]; append_head.
        -- subst s2. apply lang_alt_r, IHr2, H2.
        -- match goal with E : String _ _ = String _ _ |- _ => injection E as -> <- end.
           apply lang_alt_l. constructor; [apply IHr1|]; assumption.
    + split; intros H.
      * inversion H; subst. change (String a (s1 +:+ s2)) with (String a s1 +:+ s2).
        constructor; [apply IHr1|]; assumption.
      * inversion H as [| | | ? ? s1 s2 H1 H2 E | | | | | |]; subst.
        destruct s1 as [|c1 s1]; append_head.
        -- apply lang_nullable in H1. congruence.
        -- match goal with E : String _ _ = String _ _ |- _ => injection E as -> <- end.
           constructor; [apply IHr1|]; assumption.
  - split; intros H; inversion H; subst.
    + apply lang_alt_l, IHr1; assumption.
    + apply lang_alt_r, IHr2; assumption.
    + apply lang_alt_l, IHr1; assumption.
    + apply lang_alt_r, IHr2; assumption.
  - split; intros H.
    + inversion H; subst. change (String a (s1 +:+ s2)) with (String a s1 +:+ s2).
      constructor; [apply IHr|]; assumption.
    + apply lang_star_split in H as (s1 & s2 & -> & H1 & H2).
      constructor; [apply IHr|]; assumption.
  - split; intros H.
    + apply lang_opt_some, IHr, H.
    + inversion H; subst. apply IHr; assumption.
Qed.

Lemma regex_test_lang r s : regex_test r s = true <-> lang r s.
Proof.
  revert r. induction s as [|c s IH]; intros r; cbn [regex_test].
  - apply lang_nullable.
  - rewrite IH. apply lang_deriv.
Qed.

Lemma lang_digits s : lang (RStar RDigit) s <-> all_digits s = true.
Proof.
  split.
  - intros H. remember (RStar RDigit) as r eqn:Er.
    induction H; try discriminate Er; [reflexivity|].
    injection Er as ->. inversion H; subst. append_head. cbn [all_digits].
    rewrite IHlang2 by reflexivity.
    match goal with E : is_digit _ = true |- _ => rewrite E end. reflexivity.
  - induction s as [|c s IH]; cbn [all_digits]; intros H.
    + constructor.
    + apply andb_true_iff in H as [Hc Hs].
      change (String c s) with (String c "" +:+ s).
      constructor; [constructor; assumption | auto].
Qed.

Lemma amount_pattern_decimal s :
  regex_test WLDDonationFormHandlers.amount_pattern s = true <-> decimal_text s.
Proof.
  rewrite regex_test_lang. unfold WLDDonationFormHandlers.amount_pattern, decimal_text. split.
  - intros H. inversion H as [| | | ? ? a s2 Ha H2 | | | | | |]; subst.
    inversion H2 as [| | | ? ? p b Hp Hb | | | | | |]; subst.
    apply lang_digits in Ha, Hb. exists a, b. repeat split; try assumption.
    inversion Hp as [| | | | | | | | | ? ? Hc]; subst; [left; reflexivity|].
    inversion Hc; subst. right; reflexivity.
  - intros (a & b & Ha & Hb & [-> | ->]); apply lang_digits in Ha, Hb.
    + constructor; [assumption|]. change b with ("" +:+ b).
      constructor; [constructor | assumption].
    + constructor; [assumption|]. change ("." +:+ b) with (String "." "" +:+ b).
      constructor; [apply lang_opt_some; constructor | assumption].
Qed.

(** ** WLDDonationForm: the amount field and the verification button *)

(** X15. The amount field takes a typed value exactly when it consists of
    digits with at most one point among them (the empty text and a lone
    point included): [handleAmountChange] then stores the value as typed,
    and otherwise does nothing at all, so a sign, a letter, a space, an
    exponent or a second point never reaches the field by typing. *)
Theorem X15_handleAmountChange (value : string) (w : World) :
  (decimal_text value /\
   WLDDonationFormHandlers.handleAmountChange value w =
     (Ret tt, mkWorld (localStorage w) (authState w)
                (trace w ++ [ESetState WLDDonationForm.AMOUNT (JStr value)]))) \/
  (~ decimal_text value /\
   WLDDonationFormHandlers.handleAmountChange value w = (Ret tt, w)).
Proof.
  unfold WLDDonationFormHandlers.handleAmountChange.
  destruct (regex_test WLDDonationFormHandlers.amount_pattern value) eqn:E.
  - left. split; [apply amount_pattern_decimal, E | reflexivity].
  - right. split; [|reflexivity].
    intros H. apply amount_pattern_decimal in H. congruence.
Qed.

(** X16. The verification button verifies nothing: for a hash that is not
    empty [handleVerifyTransaction] sends no request, never sets an error
    and never throws, whatever the hash is.  It raises and lowers
    [verifying], clears the error, and in between at most overwrites the
    amount field with the text of a random number ([Math.random() * 100]),
    which it skips only when that number is falsy.  For an empty hash it sets
    the error message and does nothing else. *)
Theorem X16_handleVerifyTransaction (P : Platform) (txHash : string) (w : World) :
  exists new,
    WLDDonationFormHandlers.handleVerifyTransaction P txHash w =
      (Ret tt, mkWorld (localStorage w) (authState w) (trace w ++ new)) /\
    (txHash = "" ->
       new = [ESetState WLDDonationForm.ERROR (JStr "Please enter a transaction hash")]) /\
    (txHash <> "" ->
       let amount := PrimFloat.mul (Math_random P 1) 100%float in
       new = [ESetState WLDDonationFormHandlers.VERIFYING (JBool true);
              ESetState WLDDonationForm.ERROR JNull] ++
             (if truthy (JNum amount)
              then [ESetState WLDDonationForm.AMOUNT (JStr (NumberToString P amount))]
              else []) ++
             [ESetState WLDDonationFormHandlers.VERIFYING (JBool false)]).
Proof.
  destruct w as [st au t].
  unfold WLDDonationFormHandlers.handleVerifyTransaction.
  destruct (String.eqb_spec txHash "") as [-> | Ht].
  - eexists; split; [reflexivity|]. split; [reflexivity | congruence].
  - unfold WLDPaymentService.verifyTransaction.
    autounfold with monad. cbn [get assoc String.eqb Ascii.eqb Bool.eqb truthy negb get_opt
      strict_eq_string fst snd trace localStorage authState access_fault quota_fault accessible].
    destruct (negb _) eqn:E; cbn [fst snd trace localStorage authState ToString access_fault quota_fault accessible].
    all: eexists; split; [rewrite <- ?app_assoc; reflexivity|].
    all: split; [congruence | intros _; cbn [app]; reflexivity].
Qed.

(** ** CreateCampaignForm *)

Lemma onChange_keeps_limits P (events : list ChangeEvent) :
  Forall CreateCampaignFormFields.from_input events ->
  forall t g d i,
    (String.length t <= 70)%nat -> (String.length d <= 750)%nat ->
    exists t' g' d' i',
      fold_left (fun form e => CreateCampaignFormFields.onChange P e form) events
        [("title", JStr t); ("goal", JNum g); ("description", JStr d); ("image", JStr i)] =
        [("title", JStr t'); ("goal", JNum g'); ("description", JStr d'); ("image", JStr i')] /\
      (String.length t' <= 70)%nat /\ (String.length d' <= 750)%nat.
Proof.
  induction 1 as [|e events He Hrest IH]; intros t g d i Ht Hd.
  - cbn [fold_left]. exists t, g, d, i. auto.
  - cbn [fold_left].
    unfold CreateCampaignFormFields.from_input, CreateCampaignFormFields.inputs in He.
    destruct e as [n v ty]. cbn [target_name target_type In] in He.
    unfold CreateCampaignFormFields.onChange at 2.
    cbn [target_name target_type target_value].
    unfold CreateCampaignFormFields.MAX_TITLE_LENGTH,
      CreateCampaignFormFields.MAX_DESCRIPTION_LENGTH.
    destruct He as [He | [He | [He | [He | []]]]]; injection He as <- <-;
      cbn [String.eqb Ascii.eqb Bool.eqb andb set_field].
    + destruct (Nat.ltb_spec 70 (String.length v)); apply IH; auto; lia.
    + apply IH; auto.
    + destruct (Nat.ltb_spec 750 (String.length v)); apply IH; auto; lia.
    + apply IH; auto.
Qed.

(** X17. Typing and pasting cannot get past the length limits of the
    campaign form: after any sequence of change events of its four inputs
    the form still has its four fields, the title is a string of at most 70
    characters, the description one of at most 750, and the goal is a
    number. *)
Theorem X17_CreateCampaignForm_limits (P : Platform) (events : list ChangeEvent) :
  Forall CreateCampaignFormFields.from_input events ->
  exists t g d i,
    CreateCampaignFormFields.form_after P events =
      [("title", JStr t); ("goal", JNum g); ("description", JStr d); ("image", JStr i)] /\
    (String.length t <= 70)%nat /\ (String.length d <= 750)%nat.
Proof.
  intros H. unfold CreateCampaignFormFields.form_after, CreateCampaignFormFields.initial_form.
  apply (onChange_keeps_limits P events H); cbn; lia.
Qed.

Lemma X17_witness :
  exists t g d i,
    CreateCampaignFormFields.form_after platform_offline
      [mkChangeEvent "title" "Clean water" "text"; mkChangeEvent "goal" "40" "number"] =
      [("title", JStr t); ("goal", JNum g); ("description", JStr d); ("image", JStr i)] /\
    (String.length t <= 70)%nat /\ (String.length d <= 750)%nat.
Proof.
  apply (X17_CreateCampaignForm_limits platform_offline).
  repeat constructor; unfold CreateCampaignFormFields.from_input; cbn; tauto.
Defined.

Lemma created_unique P k req id id' : created P k req id -> created P k req id' -> id = id'.
Proof. intros (res & A & _ & B) (res' & A' & _ & B'). congruence. Qed.

(** [createCampaign] reports success exactly when the backend answers with
    an OK status and the [id] of the body can be read, and hands that [id]
    over. *)
Lemma createCampaign_run P form w :
  exists req r,
    create_request P form req /\
    CampaignService.createCampaign P (payload_json form) w =
      (Ret r, mkWorld (localStorage w) (authState w) (trace w ++ [EFetch req; ESettled])) /\
    ((exists id, created P (fetch_count (trace w)) req id /\
                 r = JObj [("success", JBool true); ("id", id)]) \/
     ((forall id, ~ created P (fetch_count (trace w)) req id) /\
      exists e, r = failure (JStr e))).
Proof.
  unfold create_request, created, body_or_empty. destruct w as [st au t]. exec.
  all: negb_hyps.
  all: eexists _, _; split; [|split; [rewrite <- ?app_assoc; reflexivity|]];
    [ cbn [url method body]; repeat split; reflexivity
    | first [ left; eexists; split; [|reflexivity]; eexists; split; [eassumption|];
              split; [assumption|];
              match goal with H : json _ = _ |- _ => rewrite H end;
              first [eassumption | reflexivity]
            | right; split; [|eexists; reflexivity];
              intros ? (res' & Hn & Hk & Hg);
              try congruence;
              match goal with
              | H : network _ _ _ = Ret ?a |- _ =>
                  lazymatch a with
                  | res' => fail
                  | _ => assert (res' = a) by congruence; subst res'
                  end
              end;
              try congruence;
              match goal with H : json _ = _ |- _ => rewrite H in Hg end;
              cbn in Hg; congruence ] ].
Qed.

Ltac call_create :=
  match goal with
  | |- context [CampaignService.createCampaign ?P (payload_json ?f) ?w] =>
      let E := fresh "E" in
      destruct (createCampaign_run P f w)
        as (?req & ?r & ?K & E & [[?id [?Hcr ->]] | [?Hcr [?e ->]]]);
      rewrite E; clear E
  end.

(** X18. [onSubmit] of the campaign form never throws.  It clears the
    error and raises [loading] first and lowers [loading] last.  Without a
    title, or with a goal [<= 0], it only shows the matching message and
    sends nothing.  Otherwise it posts the form once.  It then navigates to
    [/campaigns/<id>] exactly when the backend answers with an OK status
    and the [id] of the body is truthy and converts to a string, [<id>]
    being that string; in every other case it shows an error and does not
    navigate. *)
Theorem X18_CreateCampaignForm_onSubmit (P : Platform) (form : CampaignPayload) (w : World) :
  exists mid,
    CreateCampaignForm.onSubmit P form w =
      (Ret tt, mkWorld (localStorage w) (authState w)
                 (trace w ++ [ESetState CreateCampaignForm.ERROR JNull;
                              ESetState CreateCampaignForm.LOADING (JBool true)] ++ mid ++
                             [ESetState CreateCampaignForm.LOADING (JBool false)])) /\
    (title form = "" ->
       mid = [ESetState CreateCampaignForm.ERROR (JStr "Campaign title is required")]) /\
    (title form <> "" -> PrimFloat.leb (goal form) PrimFloat.zero = true ->
       mid = [ESetState CreateCampaignForm.ERROR (JStr "Funding goal must be greater than 0")]) /\
    (title form <> "" -> PrimFloat.leb (goal form) PrimFloat.zero = false ->
       exists post, create_request P form post /\
         ((exists id idText,
             created P (fetch_count (trace w)) post id /\ truthy id = true /\
             ToString (NumberToString P) id = Ret idText /\
             mid = [EFetch post; ESettled; ENavigate ("/campaigns/" +:+ idText)]) \/
          ((forall id, created P (fetch_count (trace w)) post id ->
                       truthy id = false \/ ~ convertible P id) /\
           exists e, mid = [EFetch post; ESettled;
                            ESetState CreateCampaignForm.ERROR (JStr e)]))).
Proof.
  destruct w as [st au t]. unfold convertible.
  exec_page ltac:(idtac; call_create).
  all: rewrite <- ?app_assoc; cbn [app].
  all: repeat match goal with
       | H : (_ =? _)%string = true |- _ => apply String.eqb_eq in H
       | H : (_ =? _)%string = false |- _ => apply String.eqb_neq in H
       end.
  all: first
    [ eexists [_]; split; [reflexivity|]
    | eexists [_; _; _]; split; [reflexivity|] ].
  all: repeat split; try congruence; try reflexivity; intros _ _.
  all: cbn [trace] in *; count_norm.
  all: eexists; split; [eassumption|].
  all: first
    [ left; eexists _, _; split; [eassumption|]; split; [assumption|];
      split; [eassumption | reflexivity]
    | right; split; [|eexists; reflexivity];
      intros id' Hid';
      first [ match goal with
              | H : created _ _ _ ?i |- _ =>
                  rewrite (created_unique _ _ _ _ _ Hid' H);
                  first [ left; assumption
                        | right; intros (? & ?); congruence ]
              end
            | match goal with
              | H : forall i, ~ created _ _ _ i |- _ => destruct (H _ Hid')
              end ] ].
Qed.

(** X19. A campaign can be created and reported as failed: when the backend
    accepts the [POST] (a 2xx status) but its answer is not JSON or carries
    no usable [id], [onSubmit] shows 'Failed to create campaign' and does
    not navigate, although the request went out and was accepted. *)
Theorem X19_created_but_reported_failed (P : Platform) (form : CampaignPayload) (w : World)
    (res : Response) :
  title form <> "" -> PrimFloat.leb (goal form) PrimFloat.zero = false ->
  answers P w res -> accepted_without_id res ->
  exists post,
    create_request P form post /\
    appends (CreateCampaignForm.onSubmit P form) w
      [ESetState CreateCampaignForm.ERROR JNull;
       ESetState CreateCampaignForm.LOADING (JBool true);
       EFetch post; ESettled;
       ESetState CreateCampaignForm.ERROR (JStr "Failed to create campaign");
       ESetState CreateCampaignForm.LOADING (JBool false)].
Proof.
  intros Ht Hg Hans [Hok Hbody]. destruct w as [st au t].
  unfold appends, create_request. cbn [trace] in Hans.
  apply String.eqb_neq in Ht.
  unfold CreateCampaignForm.onSubmit.
  destruct Hbody as [[e Hj] | (data & v & Hj & Hid & Hv)].
  all: exec_rw ltac:(first [ rewrite Ht | rewrite Hg | rewrite !fetch_count_setState
                           | rewrite Hans | rewrite Hok | rewrite Hj | rewrite Hid
                           | rewrite Hv ]).
  all: rewrite <- ?app_assoc; cbn [app].
  all: eexists; split; [|reflexivity].
  all: cbn [url method body]; repeat split; reflexivity.
Qed.

Lemma X19_witness :
  exists post,
    create_request (platform_with (always created_no_id) None)
      (mkCampaignPayload "Clean water" None 40%float None) post /\
    appends (CreateCampaignForm.onSubmit (platform_with (always created_no_id) None)
               (mkCampaignPayload "Clean water" None 40%float None)) world0
      [ESetState CreateCampaignForm.ERROR JNull;
       ESetState CreateCampaignForm.LOADING (JBool true);
       EFetch post; ESettled;
       ESetState CreateCampaignForm.ERROR (JStr "Failed to create campaign");
       ESetState CreateCampaignForm.LOADING (JBool false)].
Proof.
  apply (X19_created_but_reported_failed (platform_with (always created_no_id) None)
           (mkCampaignPayload "Clean water" None 40%float None) world0 created_no_id).
  - discriminate.
  - reflexivity.
  - intros req. reflexivity.
  - split; [reflexivity|]. right. eexists _, _. repeat split; reflexivity.
Defined.

(** ** A goal of zero *)

Lemma progressPercentage_zero_goal (raised : float) :
  PrimFloat.ltb PrimFloat.zero raised = true ->
  progressPercentage raised PrimFloat.zero = RInt 100.
Proof.
  intros H. apply positive_double in H.
  unfold progressPercentage, Math_round.
  rewrite mul_spec, div_spec.
  change (Prim2SF PrimFloat.zero) with (S754_zero false).
  destruct H as [(m & e & ->) | ->]; reflexivity.
Qed.

Lemma progressPercentage_nothing_of_nothing (raised : float) :
  PrimFloat.eqb raised PrimFloat.zero = true ->
  progressPercentage raised PrimFloat.zero = RNaN.
Proof.
  rewrite FloatAxioms.eqb_spec. intros H.
  unfold progressPercentage, Math_round.
  rewrite mul_spec, div_spec.
  change (Prim2SF PrimFloat.zero) with (S754_zero false) in *.
  destruct (Prim2SF raised) as [s | s | | s m e]; try destruct s; try discriminate H;
    reflexivity.
Qed.


(** ** LandingPage: the tabs and the owner shown *)

Lemma prefix_append (a s : string) :
  String.prefix a s = true <-> exists rest, s = a +:+ rest.
Proof.
  revert s. induction a as [|c a IH]; intros s.
  - split; [exists s; reflexivity | intros _; destruct s; reflexivity].
  - destruct s as [|d s]; cbn [String.prefix].
    + split; [discriminate | intros [rest H]].
      change (String c a +:+ rest) with (String c (a +:+ rest)) in H. discriminate H.
    + destruct (ascii_dec c d) as [-> | Hne].
      * rewrite IH. split; intros [rest H]; exists rest.
        -- rewrite H. reflexivity.
        -- change (String d a +:+ rest) with (String d (a +:+ rest)) in H.
           injection H as H. exact H.
      * split; [discriminate|]. intros [rest H].
        change (String c a +:+ rest) with (String c (a +:+ rest)) in H.
        injection H as H1 _. congruence.
Qed.

(** X21. Of the three tabs [/], [/campaigns] and [/dashboard] at most one is
    marked active, whatever the current path is.  The home tab is active
    exactly on [/] and [/landing], the campaigns tab exactly on
    [/campaigns] and on the paths below it, the account tab exactly on
    [/dashboard]. *)
Theorem X21_isActivePath (pathname : string) :
  let active := LandingPageHelpers.isActivePath pathname in
  (active "/" && active "/campaigns" = false) /\
  (active "/" && active "/dashboard" = false) /\
  (active "/campaigns" && active "/dashboard" = false) /\
  (active "/" = true <-> pathname = "/" \/ pathname = "/landing") /\
  (active "/campaigns" = true <->
     pathname = "/campaigns" \/ exists rest, pathname = "/campaigns/" +:+ rest) /\
  (active "/dashboard" = true <-> pathname = "/dashboard").
Proof.
  cbv zeta. unfold LandingPageHelpers.isActivePath.
  cbn [String.eqb Ascii.eqb Bool.eqb andb orb].
  pose proof (prefix_append "/campaigns/") as Hp.
  rewrite !orb_false_r.
  destruct (String.eqb_spec pathname "/") as [-> | H1].
  { cbn. repeat split; intros; try discriminate; auto.
    all: try (destruct H as [H | [rest H]]; cbv in H; discriminate H).
    all: try (destruct H as [H | H]; discriminate H). }
  destruct (String.eqb_spec pathname "/landing") as [-> | H2].
  { cbn. repeat split; intros; try discriminate; auto.
    all: try (destruct H as [H | [rest H]]; cbv in H; discriminate H).
    all: try (destruct H as [H | H]; discriminate H). }
  destruct (String.eqb_spec pathname "/dashboard") as [-> | H3].
  { cbn. repeat split; intros; try discriminate; auto.
    all: try (destruct H as [H | [rest H]]; cbv in H; discriminate H).
    all: try (destruct H as [H | H]; discriminate H). }
  cbn [orb andb]. rewrite !andb_false_r.
  repeat split; intros; try discriminate; try tauto.
  - apply orb_true_iff in H as [H | H]; [left; apply String.eqb_eq, H | right; apply Hp, H].
  - apply orb_true_iff. destruct H as [-> | H]; [left; reflexivity | right; apply Hp, H].
Qed.

Lemma length_append (a b : string) :
  String.length (a +:+ b) = (String.length a + String.length b)%nat.
Proof.
  induction a as [|c a IH]; [reflexivity|].
  change (String c a +:+ b) with (String c (a +:+ b)). cbn [String.length]. rewrite IH.
  reflexivity.
Qed.

Lemma substring_split (n : nat) (s : string) :
  (n <= String.length s)%nat ->
  exists p r, s = p +:+ r /\ String.length p = n /\
              String.substring 0 n s = p /\
              forall m, String.substring n m s = String.substring 0 m r.
Proof.
  revert s. induction n as [|n IH]; intros s H.
  - exists "", s. repeat split; destruct s; reflexivity.
  - destruct s as [|c s]; [cbn in H; lia|]. cbn [String.length] in H.
    destruct (IH s ltac:(lia)) as (p & r & -> & Hp & H0 & Hm).
    exists (String c p), r. repeat split.
    + cbn [String.length]. rewrite Hp. reflexivity.
    + cbn [String.substring]. rewrite H0. reflexivity.
    + intros m. cbn [String.substring]. apply Hm.
Qed.

Lemma substring_all (s : string) : String.substring 0 (String.length s) s = s.
Proof. induction s as [|c s IH]; [reflexivity|]. cbn. rewrite IH. reflexivity. Qed.

Lemma substring_0_length (n : nat) (s : string) :
  String.length (String.substring 0 n s) = Nat.min n (String.length s).
Proof.
  revert s. induction n as [|n IH]; intros [|c s]; try reflexivity.
  cbn [String.substring String.length Nat.min]. rewrite IH. reflexivity.
Qed.

Lemma slice_last_length (n : nat) (s : string) :
  String.length (LandingPageHelpers.slice_last n s) = Nat.min n (String.length s).
Proof.
  unfold LandingPageHelpers.slice_last.
  destruct (substring_split (String.length s - n) s ltac:(lia)) as (p & r & E & Hp & _ & Hm).
  rewrite Hm, substring_0_length.
  assert (String.length s = (String.length p + String.length r)%nat)
    by (rewrite E at 1; apply length_append).
  lia.
Qed.

(** X22. How an owner's address is shown on the landing page.  An empty
    address is shown as 'Anonymous'.  Any other is shown in at most 13
    characters; an address of ten characters or more is cut into its first
    six characters, a middle and its last four, and shown as the first six,
    three dots and the last four, so the two parts shown never overlap.  A
    shorter address is shown with some of its characters twice. *)
Theorem X22_formatAddress :
  LandingPageHelpers.formatAddress "" = "Anonymous" /\
  (forall address, address <> "" ->
     String.length (LandingPageHelpers.formatAddress address) =
       (Nat.min 6 (String.length address) + 3 + Nat.min 4 (String.length address))%nat) /\
  (forall address, (10 <= String.length address)%nat ->
     exists first middle last,
       address = first +:+ middle +:+ last /\
       String.length first = 6%nat /\ String.length last = 4%nat /\
       LandingPageHelpers.formatAddress address = first +:+ "..." +:+ last) /\
  (forall address, address <> "" -> (String.length address < 10)%nat ->
     (String.length address <
      String.length (String.substring 0 6 address) +
      String.length (LandingPageHelpers.slice_last 4 address))%nat).
Proof.
  repeat apply conj.
  - reflexivity.
  - intros a Ha. unfold LandingPageHelpers.formatAddress.
    rewrite (proj2 (String.eqb_neq _ _) Ha).
    rewrite !length_append, substring_0_length, slice_last_length. cbn [String.length]. lia.
  - intros a Ha. unfold LandingPageHelpers.formatAddress, LandingPageHelpers.slice_last.
    assert (Hne : a <> "") by (destruct a; [cbn in Ha; lia | discriminate]).
    rewrite (proj2 (String.eqb_neq _ _) Hne).
    destruct (substring_split 6 a ltac:(lia)) as (p & r & E & Hp & H0 & _).
    assert (Hr : String.length a = (6 + String.length r)%nat)
      by (rewrite E at 1; rewrite length_append, Hp; reflexivity).
    destruct (substring_split (String.length r - 4) r ltac:(lia)) as (m & l & Er & Hm & _ & Hl).
    assert (Hlen : String.length r = (String.length m + String.length l)%nat)
      by (rewrite Er at 1; apply length_append).
    assert (H4 : String.length l = 4%nat) by lia.
    exists p, m, l. repeat split; try assumption.
    + rewrite E, Er. reflexivity.
    + rewrite H0. do 2 f_equal.
      destruct (substring_split (String.length a - 4) a ltac:(lia))
        as (p' & r' & E' & Hp' & _ & Hl').
      rewrite Hl'.
      assert (Hr' : String.length a = (String.length p' + String.length r')%nat)
        by (rewrite E' at 1; apply length_append).
      assert (r' = l).
      { assert (Ea : p' +:+ r' = (p +:+ m) +:+ l).
        { rewrite <- E'. rewrite E at 1. rewrite Er.
          clear. induction p as [|c p IH]; [reflexivity|].
          change (String c p +:+ m +:+ l) with (String c (p +:+ m +:+ l)).
          change ((String c p +:+ m) +:+ l) with (String c ((p +:+ m) +:+ l)).
          rewrite IH. reflexivity. }
        assert (Hl2 : String.length p' = String.length (p +:+ m))
          by (rewrite length_append; lia).
        revert Ea Hl2. generalize (p +:+ m) as q. clear. intros q. revert q.
        induction p' as [|c p' IH]; intros [|d q] Ea Hl2; try discriminate Hl2.
        - exact Ea.
        - change (String c p' +:+ r') with (String c (p' +:+ r')) in Ea.
          change (String d q +:+ l) with (String d (q +:+ l)) in Ea.
          injection Ea as _ Ea. injection Hl2 as Hl2. eapply IH; eassumption. }
      subst r'. rewrite <- H4. apply substring_all.
  - intros a Ha Hlt. rewrite substring_0_length, slice_last_length.
    assert (0 < String.length a)%nat by (destruct a; [congruence | cbn; lia]).
    lia.
Qed.

(** ** The App ID of MiniKit *)

(** X23. Where the App ID comes from.  [main.tsx] copies
    [VITE_WORLD_APP_ID || VITE_WORLD_ID_APP_ID] into [window.__ENV__], and
    after that the provider (given no [appId] prop) and
    [triggerMiniKitWalletAuth] install MiniKit with the same App ID, unless
    all three are unset and [import.meta.env.WORLD_APP_ID] is set, which
    only the provider reads.  Without the copy they disagree whenever both
    [window.__ENV__.WORLD_APP_ID] and [VITE_WORLD_APP_ID] are set and
    differ: the provider prefers the former, the trigger the latter.  A
    truthy [appId] prop always wins in the provider and is never seen by
    the trigger. *)
Theorem X23_app_id (P : Platform) (WORLD_APP_ID : option string) :
  let E := Main.inject (env P) in
  (env_truthy (VITE_WORLD_APP_ID (env P)) || env_truthy (VITE_WORLD_ID_APP_ID (env P)) ||
   env_truthy (window_ENV_WORLD_APP_ID (env P)) || negb (env_truthy WORLD_APP_ID) = true ->
   MiniKitProviderAppId.determinedAppId None E WORLD_APP_ID =
     MiniKitProvider.appId_of_env (with_env P E)) /\
  (forall a g, a <> "" -> g <> "" ->
     VITE_WORLD_APP_ID (env P) = Some a -> window_ENV_WORLD_APP_ID (env P) = Some g ->
     MiniKitProviderAppId.determinedAppId None (env P) WORLD_APP_ID = g /\
     MiniKitProvider.appId_of_env P = a) /\
  (forall a E', a <> "" ->
     MiniKitProviderAppId.determinedAppId (Some a) E' WORLD_APP_ID = a).
Proof.
  cbv zeta. repeat apply conj.
  - unfold MiniKitProviderAppId.determinedAppId, MiniKitProvider.appId_of_env, Main.inject,
      with_env, or_string, env_or, env_truthy.
    destruct (env P) as [e1 e2 e3 e4 v1 v2 g d]. cbn [env VITE_WORLD_APP_ID
      VITE_WORLD_ID_APP_ID window_ENV_WORLD_APP_ID].
    destruct v1 as [v1|]; [destruct (String.eqb_spec v1 "")|];
      (destruct v2 as [v2|]; [destruct (String.eqb_spec v2 "")|]);
      (destruct g as [g|]; [destruct (String.eqb_spec g "")|]);
      (destruct WORLD_APP_ID as [x|]; [destruct (String.eqb_spec x "")|]);
      subst; cbn [negb orb env VITE_WORLD_APP_ID VITE_WORLD_ID_APP_ID
                  window_ENV_WORLD_APP_ID String.eqb];
      repeat match goal with
        | H : ?s <> "" |- context [String.eqb ?s ""] =>
            rewrite (proj2 (String.eqb_neq s "") H)
        end;
      cbn [negb orb env VITE_WORLD_APP_ID VITE_WORLD_ID_APP_ID
           window_ENV_WORLD_APP_ID String.eqb];
      repeat match goal with
        | H : ?s <> "" |- context [String.eqb ?s ""] =>
            rewrite (proj2 (String.eqb_neq s "") H)
        end;
      intros H; try discriminate H; reflexivity.
  - intros a g Ha Hg Ea Eg.
    unfold MiniKitProviderAppId.determinedAppId, MiniKitProvider.appId_of_env,
      or_string, env_or.
    rewrite Ea, Eg, (proj2 (String.eqb_neq a "") Ha), (proj2 (String.eqb_neq g "") Hg).
    rewrite (proj2 (String.eqb_neq a "") Ha). split; reflexivity.
  - intros a E' Ha. unfold MiniKitProviderAppId.determinedAppId, or_string.
    rewrite (proj2 (String.eqb_neq a "") Ha). reflexivity.
Qed.

(** ** CampaignDetail: loading a campaign *)

(** Decide the comparisons of cell names. *)
Ltac cells :=
  repeat match goal with
    | |- context [String.eqb ?a ?b] =>
        let v := eval vm_compute in (String.eqb a b) in
        change (String.eqb a b) with v; cbv iota
    end.


(** X26. The refresh after a donation ([handleDonationSuccess]) sends one
    [GET] for the campaign and never throws.  It touches nothing but the
    campaign shown, and replaces it exactly when the [GET] is answered with
    an OK status and a truthy body, by that body: a failed refresh is
    silent, the page keeps the campaign, the error and the loading flag it
    had. *)
Theorem X26_handleDonationSuccess (P : Platform) (id : string) (w : World) (s : DetailState) :
  exists new req,
    CampaignDetailLoad.handleDonationSuccess P id w =
      (Ret tt, mkWorld (localStorage w) (authState w) (trace w ++ new)) /\
    requests new = [req] /\ reload_request P id req /\
    detail_loading (CampaignDetailLoad.after new s) = detail_loading s /\
    detail_error (CampaignDetailLoad.after new s) = detail_error s /\
    ((exists c, answered P (fetch_count (trace w)) req c /\ truthy c = true /\
                detail_campaign (CampaignDetailLoad.after new s) = c) \/
     ((forall c, answered P (fetch_count (trace w)) req c -> truthy c = false) /\
      detail_campaign (CampaignDetailLoad.after new s) = detail_campaign s)).
Proof.
  destruct w as [st au t]. destruct s as [c0 l0 e0].
  unfold CampaignDetailLoad.handleDonationSuccess.
  exec_page ltac:(idtac; call_detail).
  all: rewrite <- ?app_assoc; cbn [app].
  all: eexists _, _; split; [reflexivity|].
  all: cbn [requests]; split; [reflexivity|]; split; [assumption|].
  all: cbn [trace] in *; count_norm.
  all: cbn [CampaignDetailLoad.after]; cells.
  all: cbn [detail_loading detail_error detail_campaign].
  all: split; [reflexivity|]; split; [reflexivity|].
  all: first
    [ left; eexists; split; [eassumption|]; split; [assumption | reflexivity]
    | right; split; [|reflexivity];
      intros c' Hc';
      first [ match goal with
              | H : answered _ _ _ ?c |- _ =>
                  rewrite (answered_unique _ _ _ _ _ Hc' H); assumption
              end
            | match goal with
              | H : forall c, ~ answered _ _ _ c |- _ => destruct (H _ Hc')
              end ] ].
Qed.

(** ** EditCampaignForm: load, then save *)

(** X24. What saving an unedited campaign sends.  When the campaign loads
    (a 2xx answer with a truthy JSON body), the edit form keeps five of its
    fields: title, description, goal and status as they are, and the image,
    or the empty string when there is none.  Submitting the form as loaded
    sends these five fields, and nothing else of the campaign, in one
    [PUT] to [/campaigns/<id>]. *)
Theorem X24_EditCampaignForm_load_then_save (P : Platform) (id : string) (w : World)
    (res : Response) (campaign : JsVal) :
  answers P w res -> ok res = true -> json res = Ret campaign -> truthy campaign = true ->
  (exists load,
     reload_request P id load /\
     appends (EditCampaignFormLoad.fetchCampaign P id) w
       [ESetState EditCampaignFormLoad.LOADING (JBool true); EFetch load; ESettled;
        ESetState EditCampaignFormLoad.CAMPAIGN campaign;
        ESetState EditCampaignFormLoad.FORM_DATA (edited_fields campaign);
        ESetState EditCampaignFormLoad.LOADING (JBool false)]) /\
  (forall w', exists save rest,
     appends (EditCampaignForm.handleSubmit P id (edited_fields campaign)) w'
       (ESetState EditCampaignForm.SUBMITTING (JBool true) :: EFetch save :: ESettled :: rest) /\
     requests rest = [] /\
     url save = CampaignService.API_BASE P +:+ "/campaigns/" +:+ id /\
     method save = "PUT" /\ body save = Some (edited_fields campaign)).
Proof.
  intros Hans Hok Hj Hc. split.
  - destruct w as [st au t]. cbn [trace] in Hans. unfold appends, reload_request.
    unfold EditCampaignFormLoad.fetchCampaign, EditCampaignFormLoad.formData_of,
      edited_fields, get_opt.
    destruct campaign; try discriminate Hc.
    all: exec_rw ltac:(first [ rewrite !fetch_count_setState | rewrite Hans | rewrite Hok
                             | rewrite Hj | rewrite Hc ]).
    all: rewrite <- ?app_assoc; cbn [app].
    all: eexists; split; [|reflexivity].
    all: cbn [url method body]; repeat split; reflexivity.
  - intros [st au t]. unfold appends, EditCampaignForm.handleSubmit.
    exec.
    all: rewrite <- ?app_assoc; cbn [app].
    all: eexists _, _; split; [reflexivity|].
    all: cbn [requests url method body]; repeat split; reflexivity.
Qed.

Lemma X24_witness :
  (exists load,
     reload_request (platform_with (always (response_with 200 stored_campaign)) None) "c1" load /\
     appends (EditCampaignFormLoad.fetchCampaign
                (platform_with (always (response_with 200 stored_campaign)) None) "c1") world0
       [ESetState EditCampaignFormLoad.LOADING (JBool true); EFetch load; ESettled;
        ESetState EditCampaignFormLoad.CAMPAIGN stored_campaign;
        ESetState EditCampaignFormLoad.FORM_DATA (edited_fields stored_campaign);
        ESetState EditCampaignFormLoad.LOADING (JBool false)]) /\
  edited_fields stored_campaign =
    JObj [("title", JStr "Clean water"); ("description", JStr "A well");
          ("goal", JNum 40%float); ("image", JStr ""); ("status", JStr "active")].
Proof.
  split; [|reflexivity].
  apply (X24_EditCampaignForm_load_then_save
           (platform_with (always (response_with 200 stored_campaign)) None) "c1" world0
           (response_with 200 stored_campaign) stored_campaign).
  - intros req. reflexivity.
  - reflexivity.
  - reflexivity.
  - reflexivity.
Defined.

(** ** CampaignTracker: the statistics *)

Lemma SF64add_nonneg x y : sf_nonneg x -> sf_nonneg y -> sf_nonneg (SF64add x y).
Proof.
  unfold SF64add, SFadd.
  destruct x as [sx | [|] | | [|] mx ex]; cbn [sf_nonneg]; try contradiction;
    destruct y as [sy | [|] | | [|] my ey]; cbn [sf_nonneg]; try contradiction; auto.
  - intros _ _. destruct sx, sy; exact I.
  - intros _ _. cbn [cond_Zopp]. unfold binary_normalize.
    set (a := fst (shl_align mx ex (IntDef.Z.min ex ey))).
    set (b := fst (shl_align my ey (IntDef.Z.min ex ey))).
    change (Z.pos a + Z.pos b)%Z with (Z.pos (a + b)).
    unfold binary_round.
    destruct (shl_align (a + b) _ _) as [mz ez].
    apply binary_round_aux_nonneg. lia.
Qed.

Lemma nonneg_double_leb x : sf_nonneg (Prim2SF x) -> PrimFloat.leb PrimFloat.zero x = true.
Proof.
  rewrite FloatAxioms.leb_spec. change (Prim2SF PrimFloat.zero) with (S754_zero false).
  destruct (Prim2SF x) as [s | [|] | | [|] m e]; cbn; try contradiction; reflexivity.
Qed.

Lemma raised_or_zero_nonneg (r : float) :
  PrimFloat.is_nan r = true \/ PrimFloat.leb PrimFloat.zero r = true ->
  sf_nonneg (Prim2SF (if truthy (JNum r) then r else PrimFloat.zero)).
Proof.
  intros [H | H]; cbn [truthy].
  - rewrite H, orb_true_r. exact I.
  - destruct (negb _); [apply nonnegative_double, H | exact I].
Qed.

Lemma totalRaised_from (campaigns : list CampaignTracker.Campaign) (start : float) :
  sf_nonneg (Prim2SF start) ->
  Forall (fun c => PrimFloat.is_nan (CampaignTracker.raised c) = true \/
                   PrimFloat.leb PrimFloat.zero (CampaignTracker.raised c) = true) campaigns ->
  sf_nonneg (Prim2SF (fold_left
    (fun sum c =>
       PrimFloat.add sum (if truthy (JNum (CampaignTracker.raised c))
                          then CampaignTracker.raised c else PrimFloat.zero))
    campaigns start)).
Proof.
  intros Hs Hall. revert start Hs.
  induction Hall as [|c campaigns Hc Hall IH]; intros start Hs; cbn [fold_left]; [exact Hs|].
  apply IH. rewrite add_spec. apply SF64add_nonneg; [exact Hs|].
  apply raised_or_zero_nonneg, Hc.
Qed.

Lemma donors_from (ds : list CampaignTracker.Donation) (acc : gset string) :
  fold_left (fun acc donation => {[CampaignTracker.donor donation]} ∪ acc) ds acc =
  list_to_set (map CampaignTracker.donor ds) ∪ acc.
Proof.
  revert acc. induction ds as [|d ds IH]; intros acc; cbn [fold_left map list_to_set].
  - symmetry. apply (left_id_L ∅ (∪)).
  - rewrite IH, (assoc_L (∪)).
    rewrite (comm_L (∪) (list_to_set (map CampaignTracker.donor ds)) {[CampaignTracker.donor d]}).
    reflexivity.
Qed.

Lemma allContributors_from (campaigns : list CampaignTracker.Campaign) (acc : gset string) :
  fold_left
    (fun acc campaign =>
       fold_left (fun acc donation => {[CampaignTracker.donor donation]} ∪ acc)
         (CampaignTracker.donations campaign) acc)
    campaigns acc =
  list_to_set (CampaignTracker.donors campaigns) ∪ acc.
Proof.
  revert acc. induction campaigns as [|c campaigns IH]; intros acc.
  - cbn. symmetry. apply (left_id_L ∅ (∪)).
  - cbn [fold_left]. rewrite IH, donors_from. unfold CampaignTracker.donors. cbn [map concat].
    fold (CampaignTracker.donors campaigns).
    rewrite list_to_set_app_L, (assoc_L (∪)).
    rewrite (comm_L (∪) (list_to_set (CampaignTracker.donors campaigns))
               (list_to_set (map CampaignTracker.donor (CampaignTracker.donations c)))).
    reflexivity.
Qed.

Lemma size_list_to_set_le (l : list string) :
  (size (list_to_set l : gset string) <= length l)%nat.
Proof.
  induction l as [|x l IH]; cbn [list_to_set length].
  - rewrite size_empty. lia.
  - rewrite size_union_alt, size_singleton.
    assert (H : (size (list_to_set l ∖ {[x]} : gset string) <= size (list_to_set l : gset string))%nat).
    { apply subseteq_size. intros y Hy. apply elem_of_difference in Hy. apply Hy. }
    lia.
Qed.

(** X27. The statistics of the campaign tracker.  The number of active
    campaigns never exceeds the number of campaigns.  The number of
    contributors is the number of distinct donors over all campaigns: a
    donor who gave twice, or to two campaigns, counts once, so it never
    exceeds the number of donations.  The total raised is a number that is
    zero or more (never NaN) as long as no campaign has a negative amount:
    a campaign whose [raised] is NaN counts as zero instead of turning the
    total into NaN. *)
Theorem X27_CampaignTracker_stats (campaigns : list CampaignTracker.Campaign) :
  let stats := CampaignTracker.stats_of campaigns in
  (CampaignTracker.activeCampaigns stats <= CampaignTracker.totalCampaigns stats)%nat /\
  (CampaignTracker.totalContributors stats <= length (CampaignTracker.donors campaigns))%nat /\
  (forall distinct,
     NoDup distinct ->
     (forall d, d ∈ distinct <-> d ∈ CampaignTracker.donors campaigns) ->
     CampaignTracker.totalContributors stats = length distinct) /\
  (Forall (fun c => PrimFloat.is_nan (CampaignTracker.raised c) = true \/
                    PrimFloat.leb PrimFloat.zero (CampaignTracker.raised c) = true) campaigns ->
   PrimFloat.leb PrimFloat.zero (CampaignTracker.totalRaised stats) = true /\
   PrimFloat.is_nan (CampaignTracker.totalRaised stats) = false).
Proof.
  cbv zeta. unfold CampaignTracker.stats_of.
  cbn [CampaignTracker.activeCampaigns CampaignTracker.totalCampaigns
       CampaignTracker.totalContributors CampaignTracker.totalRaised].
  unfold CampaignTracker.allContributors. rewrite allContributors_from.
  rewrite (right_id_L ∅ (∪)).
  repeat apply conj.
  - induction campaigns as [|c campaigns IH]; cbn [CampaignTracker.activeCampaigns_of length];
      [lia|]. destruct (String.eqb _ _); lia.
  - apply size_list_to_set_le.
  - intros distinct Hnd Hsame.
    rewrite <- (size_list_to_set (C := gset string) distinct Hnd).
    f_equal. apply set_eq. intros d. rewrite !elem_of_list_to_set. symmetry. apply Hsame.
  - intros Hall.
    pose proof (totalRaised_from campaigns PrimFloat.zero I Hall) as H.
    fold (CampaignTracker.totalRaised_of campaigns) in H.
    split; [apply nonneg_double_leb, H|].
    unfold PrimFloat.is_nan. rewrite FloatAxioms.eqb_spec.
    destruct (Prim2SF (CampaignTracker.totalRaised_of campaigns)) as [s | [|] | | [|] m e];
      cbn in H; try contradiction;
      unfold SFeqb, SFcompare; rewrite ?Z.compare_refl, ?Pos.compare_refl; reflexivity.
Qed.

(** ** The wallet step of signing in *)

Lemma wallet_calls_app t1 t2 : wallet_calls (t1 ++ t2) = wallet_calls t1 ++ wallet_calls t2.
Proof.
  induction t1 as [|e t1 IH]; [reflexivity|].
  destruct e; cbn [app wallet_calls]; rewrite IH; reflexivity.
Qed.

(** X28. [triggerMiniKitWalletAuth] hands back nothing but a successful
    payload.  Whenever it returns (instead of throwing), the nonce it was
    given is a string of at least 8 characters, MiniKit has been asked
    exactly once, with that nonce, and the value returned is the
    [finalPayload] of the wallet's answer, whose [status] is ['success'];
    a cancelled or failed wallet step, a missing payload or a missing
    MiniKit never comes back as a value.  The function leaves localStorage
    and the session in memory alone. *)
Theorem X28_trigger_returns_success_only (P : Platform) (n r : JsVal) (w w' : World) :
  MiniKitProvider.triggerMiniKitWalletAuth P n w = (Ret r, w') ->
  (exists s, n = JStr s /\ (8 <= String.length s)%nat) /\
  (exists mk walletAuth result,
     MiniKit P = Some mk /\ mk_walletAuth mk = Some walletAuth /\
     walletAuth n = Ret result /\ get result "finalPayload" = Ret r) /\
  get r "status" = Ret (JStr "success") /\
  wallet_calls (trace w') = wallet_calls (trace w) ++ [n] /\
  localStorage w' = localStorage w /\ authState w' = authState w.
Proof.
  destruct w as [st au t]. unfold MiniKitProvider.triggerMiniKitWalletAuth.
  destruct (MiniKitProvider.invalid_nonce n) eqn:Hn; [discriminate|].
  assert (Hs : exists s, n = JStr s /\ (8 <= String.length s)%nat).
  { unfold MiniKitProvider.invalid_nonce in Hn. destruct n as [ | | ? | ? | s | ? | ? ];
      cbn [truthy is_string negb] in Hn; rewrite ?orb_true_r in Hn; try discriminate Hn.
    destruct (String.length s <? 8)%nat eqn:Hl; [rewrite orb_true_r in Hn; discriminate Hn|].
    apply Nat.ltb_ge in Hl. eauto. }
  destruct (MiniKit P) as [mk|] eqn:Hmk; [|discriminate].
  destruct (mk_walletAuth mk) as [walletAuth|] eqn:Hwa.
  - exec; intros H; try discriminate H; injection H as <- <-.
    all: cbn [trace localStorage authState access_fault quota_fault accessible]; rewrite ?wallet_calls_app; cbn [wallet_calls].
    all: rewrite ?app_nil_r.
    all: (split; [exact Hs|]).
    all: (split; [exists mk, walletAuth; eexists; repeat split; eassumption|]).
    all: match goal with
         | H : strict_eq_string ?st _ = true |- _ =>
             destruct st; try discriminate H; apply String.eqb_eq in H; subst
         end.
    all: repeat split; first [assumption | reflexivity].
  - exec; intros H; discriminate H.
Qed.

Lemma X28_witness :
  get (JObj [("status", JStr "success");
             ("message", JObj [("nonce", server_nonce)]);
             ("signature", JStr "0xsig"); ("address", JStr "0xabc")]) "status" =
    Ret (JStr "success") /\
  wallet_calls (trace (snd (MiniKitProvider.triggerMiniKitWalletAuth platform_wallet
                              server_nonce world0))) = [server_nonce].
Proof.
  pose proof (X28_trigger_returns_success_only platform_wallet server_nonce _ world0 _
                eq_refl) as (_ & _ & H1 & H2 & _).
  split; [exact H1 | exact H2].
Defined.

(** ** Signing in from the landing page *)

(** The three steps in a row: either all succeed and the user is signed
    in, or the first failure is thrown and nobody is signed in. *)
Lemma handshake_run P w0 :
  let run :=
    (serverNonce <- AuthContext.getNonceForMiniKit P ;;
     authPayload <- MiniKitProvider.triggerMiniKitWalletAuth P serverNonce ;;
     AuthContext.loginWithWallet P authPayload) w0 in
  (fst run = Ret tt /\ signed_in P w0 (snd run) /\
   handshake_succeeded P w0 (sessionToken (authState (snd run)))
     (walletAddress (authState (snd run)))) \/
  ((exists e, fst run = Throw e) /\ not_signed_in P w0 (snd run)).
Proof.
  cbv zeta. unfold bind, not_signed_in.
  destruct (getNonceForMiniKit_run P w0) as (req & K & [(n & Hi & E1) | (Hno & e & E1)]);
    rewrite E1; cycle 1.
  { right. split; [eauto|]. split; [reflexivity | left; reflexivity]. }
  match type of E1 with _ = (_, ?w) => set (w1 := w) in * end.
  destruct (trigger_shape P n w1) as (r & new & E2 & Hnew). rewrite E2.
  destruct r as [p | e]; cycle 1.
  { right. split; [eauto|]. split; [reflexivity | left; reflexivity]. }
  destruct (trigger_returns _ _ _ _ _ E2) as [Hinv Hw].
  match type of E2 with _ = (_, ?w) => set (w2 := w) in * end.
  assert (Hc2 : fetch_count (trace w2) = (fetch_count (trace w0) + 1)%nat).
  { subst w2 w1. cbn [trace].
    destruct Hnew as [[_ [e He]] | [[_ [e He]] | [-> | ->]]]; try discriminate He;
      rewrite !fetch_count_app; cbn; lia. }
  destruct (loginWithWallet_run P p w2)
    as [(sn & req' & tok & addr & t & a & Sn & K' & V & Ht & Ha & E3)
       | [(sn & req' & tok & addr & t & err & e & Sn & K' & V & Ht & Ha & E3)
         | (e & new' & E3 & _)]];
    rewrite E3; cbn [fst snd localStorage authState isAuthenticated sessionToken walletAddress].
  - left. unfold verified in V. rewrite Hc2 in V.
    pose proof V as (_ & _ & _ & _ & _ & _ & Htt & _ & Hta).
    split; [reflexivity|]. split.
    + unfold signed_in. cbn [authState isAuthenticated sessionToken walletAddress localStorage].
      repeat (split; [first [reflexivity | assumption]|]).
      exists t, a. repeat (split; [assumption|]). apply sets_both_insert_twice.
    + exists req, n, p, sn, req'. unfold convertible. eauto 12.
  - right. split; [eauto|]. split; [reflexivity|]. right.
    unfold verified in V. rewrite Hc2 in V.
    exists req', tok, addr, t. split; [exact V|]. split; [exact Ht|].
    split; [intros (a & Ha'); congruence | apply sets_token_only_insert].
  - right. split; [eauto|]. split; [reflexivity | left; reflexivity].
Qed.

Lemma signed_in_from P w0 w w' :
  localStorage w0 = localStorage w -> signed_in P w0 w' -> signed_in P w w'.
Proof. unfold signed_in. intros ->. auto. Qed.

Lemma handshake_succeeded_from P w0 w tok addr :
  fetch_count (trace w0) = fetch_count (trace w) ->
  handshake_succeeded P w0 tok addr -> handshake_succeeded P w tok addr.
Proof. unfold handshake_succeeded, nonce_issued. intros ->. auto. Qed.

Lemma not_signed_in_from P w0 w w' :
  localStorage w0 = localStorage w ->
  isAuthenticated (authState w0) = isAuthenticated (authState w) ->
  fetch_count (trace w0) = fetch_count (trace w) ->
  not_signed_in P w0 w' -> not_signed_in P w w'.
Proof. unfold not_signed_in. intros -> -> ->. auto. Qed.

Lemma not_signed_in_refl P w st au t :
  st = localStorage w -> isAuthenticated au = isAuthenticated (authState w) ->
  not_signed_in P w (mkWorld st au t).
Proof. intros -> H. split; [exact H | left; reflexivity]. Qed.

Ltac ends_with_error :=
  match goal with
  | |- exists before msg, (?b ++ [ESetState _ (JStr ?m)]) ++ [_] = _ =>
      exists b, m; rewrite <- app_assoc; reflexivity
  end.

(** What the three steps leave is what the handler leaves: the setters of
    a component's cells change neither the session nor the number of
    requests sent. *)
Ltac use_handshake_run P w0 :=
  let H := fresh "H" in
  pose proof (handshake_run P w0) as H; cbv zeta in H; unfold bind in H;
  destruct (AuthContext.getNonceForMiniKit P w0) as [[?n | ?e] ?w1];
  [ match type of H with
    | context [MiniKitProvider.triggerMiniKitWalletAuth P ?n1 ?x1] =>
        destruct (MiniKitProvider.triggerMiniKitWalletAuth P n1 x1) as [[?p | ?e] ?w2];
        [ match type of H with
          | context [AuthContext.loginWithWallet P ?p1 ?x2] =>
              destruct (AuthContext.loginWithWallet P p1 x2) as [[[] | ?e] ?w3]
          end
        | ]
    end
  | ];
  cbn [fst snd] in H;
  destruct H as [(H & ?Hin & ?Hok) | ((?e' & H) & ?Hout)]; try discriminate H.

Lemma window_trigger_session P w :
  let r := MiniKitProvider.window_triggerWalletAuth P false w in
  (fst r = Ret (JBool true) /\ signed_in P w (snd r) /\
   handshake_succeeded P w (sessionToken (authState (snd r)))
     (walletAddress (authState (snd r)))) \/
  (fst r = Ret (JBool false) /\ not_signed_in P w (snd r)).
Proof.
  destruct w as [st au t].
  cbv zeta. unfold MiniKitProvider.window_triggerWalletAuth.
  autounfold with monad. cbn [fst snd localStorage authState trace].
  match goal with
  | |- context [AuthContext.getNonceForMiniKit P ?w0] => use_handshake_run P w0
  end.
  all: cbn [fst snd localStorage authState trace].
  all: first
    [ left; split; [reflexivity|]; split;
      [ eapply signed_in_from; [|eassumption]; reflexivity
      | eapply handshake_succeeded_from; [|eassumption];
        cbn [trace]; apply fetch_count_setState ]
    | right; split; [reflexivity|];
      eapply not_signed_in_from; [| | |eassumption];
      [ reflexivity | reflexivity | cbn [trace]; apply fetch_count_setState ] ].
Qed.

